(** * Exynos external-interrupt support of the Samsung pinctrl driver, and
      the default dump_stack(): a shallow embedding and its properties.

    Sources embedded here:
    - drivers/pinctrl/samsung/pinctrl-exynos.c
    - lib/dump_stack.c

    Registers are memory mapped 32-bit words addressed by their byte offset
    from [virt_base]; C integers are values of [Z] with the wrap-around of
    their type written out. *)

From Stdlib Require Import ZArith List Lia Bool String Sorted.
From Equations Require Import Equations.
Import ListNotations.

Local Open Scope Z_scope.

(** ** C integer types *)

(** [u32], and [unsigned int]: 32 bits. *)
Definition u32 (x : Z) : Z := x mod 2 ^ 32.

(** [unsigned long] of the 64-bit kernel this tree builds. *)
Definition ulong (x : Z) : Z := x mod 2 ^ 64.

(** [int]: 32 bits, two's complement. *)
Definition s32 (x : Z) : Z := (x + 2 ^ 31) mod 2 ^ 32 - 2 ^ 31.

(** [a << n] computed in [int], as the compiler of the kernel does it
    (the result wraps into the sign bit for [n = 31]). The C expression is
    undefined for [n] outside [0, 32). *)
Definition int_shl (a n : Z) : Z := s32 (Z.shiftl a n).

(** Modelled from the spec: fls() is the kernel's find-last-set bit
    operation, which is not among the sources; the spec has the muxed
    handler "extract the highest set bit". [fls x] is the 1-based index of
    the highest set bit of the 32-bit word [x], and 0 when no bit is set. *)
Definition fls (x : Z) : Z :=
  if u32 x =? 0 then 0 else Z.log2 (u32 x) + 1.

(** ** lib/dump_stack.c *)

Module DumpStack.

(** [atomic_cmpxchg(&dump_lock, old, new)]: returns the value read and the
    new content of the lock. *)
Definition atomic_cmpxchg (lock old new : Z) : Z * Z :=
  if lock =? old then (lock, new) else (lock, lock).

(** What one run of [__dump_stack()] does to the serialisation lock: it
    prints, and while printing it may fault or warn and so enter
    [_dump_stack] again on the same CPU, any number of times and to any
    depth. [Quiet] is a body that is done; [Nested inner rest] is a body
    that next enters [_dump_stack] (whose own body is [inner]) and then
    goes on as [rest]. *)
Inductive body : Type :=
| Quiet
| Nested (inner rest : body).

(** [static atomic_t dump_lock = ATOMIC_INIT(-1);] *)
Definition dump_lock_init : Z := -1.

(** The code of [_dump_stack] around the call of [__dump_stack], run by
    [cpu] alone from the lock value [lock]; [run] is that call. The result
    is the lock value on return, or [None] when the call spins in
    [do { cpu_relax(); } while (atomic_read(&dump_lock) != -1)]: another
    CPU holds the lock, and only that CPU can release it. *)
Definition _dump_stack_around (run : Z -> option Z) (cpu lock : Z)
  : option Z :=
  let '(old, lock1) := atomic_cmpxchg lock (-1) cpu in
  if old =? -1 then
    (* was_locked = 0 *)
    match run lock1 with
    | Some _ => Some (-1)            (* atomic_set(&dump_lock, -1) *)
    | None => None
    end
  else if old =? cpu then
    (* was_locked = 1 *)
    run lock1
  else None.

Fixpoint __dump_stack (cpu : Z) (b : body) (lock : Z) : option Z :=
  match b with
  | Quiet => Some lock
  | Nested inner rest =>
    match _dump_stack_around (__dump_stack cpu inner) cpu lock with
    | Some lock' => __dump_stack cpu rest lock'
    | None => None
    end
  end.

Definition _dump_stack (cpu : Z) (b : body) (lock : Z) : option Z :=
  _dump_stack_around (__dump_stack cpu b) cpu lock.

(** The same code among the other CPUs. What another CPU can do to the
    lock in one move: take it when it is free, or release it when it
    holds it. *)
Inductive others (cpu : Z) : Z -> Z -> Prop :=
| others_take (c : Z) : c <> cpu -> c <> -1 -> others cpu (-1) c
| others_release (l : Z) : l <> -1 -> l <> cpu -> others cpu l (-1).

(** Any number of moves of the other CPUs. *)
Inductive interference (cpu : Z) : Z -> Z -> Prop :=
| interference_none (l : Z) : interference cpu l l
| interference_step (l l1 l2 : Z) :
    others cpu l l1 -> interference cpu l1 l2 -> interference cpu l l2.

(** A call of [_dump_stack] by [cpu] up to its last access to the lock:
    from the lock value on entry to the value the call leaves in the
    lock, with the other CPUs moving before each access of the call to
    the lock; [run] relates the lock value before the call of
    [__dump_stack] to the one after it. A call that has taken the lock
    leaves it with [atomic_set(&dump_lock, -1)], line 74; a nested call
    makes no access after [__dump_stack]. What the lock holds when the
    call returns, after [local_irq_restore], is [dump_return] below: the
    other CPUs move in between. *)
Inductive dump_call_around (run : Z -> Z -> Prop) (cpu : Z)
  : Z -> Z -> Prop :=
| call_acquire (l l1 : Z) :
    (* atomic_cmpxchg finds -1 and stores cpu: was_locked = 0;
       after the body, atomic_set(&dump_lock, -1) *)
    interference cpu l (-1) -> run cpu l1 ->
    dump_call_around run cpu l (-1)
| call_nested (l l1 : Z) :
    (* atomic_cmpxchg finds cpu: was_locked = 1 *)
    interference cpu l cpu -> cpu <> -1 -> run cpu l1 ->
    dump_call_around run cpu l l1
| call_wait (l l0 l' : Z) :
    (* atomic_cmpxchg finds another CPU: wait, then retry *)
    interference cpu l l0 -> l0 <> -1 -> l0 <> cpu ->
    dump_call_around run cpu l0 l' ->
    dump_call_around run cpu l l'.

Fixpoint body_run (cpu : Z) (b : body) (l l' : Z) : Prop :=
  match b with
  | Quiet => interference cpu l l'
  | Nested inner rest =>
    exists l1,
      dump_call_around (body_run cpu inner) cpu l l1 /\
      body_run cpu rest l1 l'
  end.

Definition dump_call (cpu : Z) (b : body) (l l' : Z) : Prop :=
  dump_call_around (body_run cpu b) cpu l l'.

(** A completed call of [_dump_stack] by [cpu], from the lock value on
    entry to the lock value on return: between the last access of the
    call to the lock and its return (lines 74 to 77) the other CPUs go on
    moving. *)
Definition dump_return (cpu : Z) (b : body) (l l' : Z) : Prop :=
  exists l0, dump_call cpu b l l0 /\ interference cpu l0 l'.

End DumpStack.

(** ** drivers/pinctrl/samsung/pinctrl-exynos.c: data *)

(** [enum eint_type] of a pin bank. *)
Inductive eint_type_t : Type :=
| EINT_TYPE_NONE
| EINT_TYPE_GPIO
| EINT_TYPE_WKUP
| EINT_TYPE_WKUP_MUX.

Definition eint_type_eqb (a b : eint_type_t) : bool :=
  match a, b with
  | EINT_TYPE_NONE, EINT_TYPE_NONE
  | EINT_TYPE_GPIO, EINT_TYPE_GPIO
  | EINT_TYPE_WKUP, EINT_TYPE_WKUP
  | EINT_TYPE_WKUP_MUX, EINT_TYPE_WKUP_MUX => true
  | _, _ => false
  end.

(** [struct exynos_eint_gpio_save] *)
Record exynos_eint_gpio_save : Type := mk_save {
  save_eint_con : Z;
  save_eint_fltcon0 : Z;
  save_eint_fltcon1 : Z
}.

(** Modelled from the spec: [struct irq_domain] and its lookups
    [irq_find_mapping] and [irq_linear_revmap] belong to the generic
    interrupt framework, which is not among the sources. The spec has a
    domain translate a pin index to the bank's virtual line, with "no
    virtual line mapped" as a possible outcome: a domain is its owner
    (the name of the bank passed as host data), its size and the reverse
    map from a hardware line to a virtual line number, 0 when none is
    mapped. *)
Record irq_domain : Type := mk_domain {
  domain_host : string;
  domain_size : Z;
  linear_revmap : Z -> Z
}.

(** [irq_find_mapping(domain, hwirq)]; a NULL domain maps nothing. *)
Definition irq_find_mapping (domain : option irq_domain) (hwirq : Z) : Z :=
  match domain with
  | Some d => linear_revmap d hwirq
  | None => 0
  end.

(** [irq_linear_revmap(domain, hwirq)], for a domain that is not NULL. *)
Definition irq_linear_revmap (domain : irq_domain) (hwirq : Z) : Z :=
  if hwirq <? domain_size domain then linear_revmap domain hwirq else 0.

(** [struct samsung_pin_bank], the fields this file uses. [irq_domain] and
    [soc_priv] are pointers: [None] is NULL. *)
Record samsung_pin_bank : Type := mk_bank {
  name : string;
  nr_pins : Z;
  eint_type : eint_type_t;
  eint_offset : Z;
  bank_irq_domain : option irq_domain;
  soc_priv : option exynos_eint_gpio_save
}.

Definition set_irq_domain (d : option irq_domain) (b : samsung_pin_bank) :=
  mk_bank (name b) (nr_pins b) (eint_type b) (eint_offset b) d (soc_priv b).

Definition set_soc_priv (p : option exynos_eint_gpio_save)
  (b : samsung_pin_bank) :=
  mk_bank (name b) (nr_pins b) (eint_type b) (eint_offset b)
          (bank_irq_domain b) p.

Definition set_eint_type (t : eint_type_t) (b : samsung_pin_bank) :=
  mk_bank (name b) (nr_pins b) t (eint_offset b) (bank_irq_domain b)
          (soc_priv b).

(** [struct exynos_irq_chip]: the three register-group offsets. *)
Record exynos_irq_chip : Type := mk_chip {
  eint_con : Z;
  eint_mask : Z;
  eint_pend : Z
}.

(** [struct irq_data] as the chip callbacks see it: the virtual line
    [irq], the line within the bank [hwirq], the chip, the chip data (the
    bank) and the trigger type the framework has recorded for the line
    ([irqd_get_trigger_type]). *)
Record irq_data : Type := mk_irqd {
  irq : Z;
  hwirq : Z;
  irqd_chip : exynos_irq_chip;
  irqd_bank : samsung_pin_bank;
  irqd_trigger_type : Z
}.

(** The two flow handlers [__irq_set_handler_locked] is given. *)
Inductive irq_flow_handler : Type :=
| handle_edge_irq
| handle_level_irq.

(** [irqreturn_t] *)
Inductive irqreturn_t : Type :=
| IRQ_NONE
| IRQ_HANDLED.

(** What the driver does that is visible outside it, in program order. *)
Inductive event : Type :=
| EvReadl (addr val : Z)
| EvWritel (val addr : Z)
| EvSpinLock (bank : string)
| EvSpinUnlock (bank : string)
| EvSetHandler (virq : Z) (h : irq_flow_handler)
| EvHandleIrq (virq : Z)
| EvChainedEnter
| EvChainedExit
| EvDomainAdd (host : string)
| EvDomainRemove (host : string)
| EvSetChained (virq : Z) (muxed : bool)
| EvErr (msg : string).

(** The machine: the register file at [virt_base] (by byte offset), the
    flow handler of each virtual line, and the trace of events so far. *)
Record state : Type := mk_state {
  regs : Z -> Z;
  handlers : Z -> option irq_flow_handler;
  trace : list event
}.

(** Driver code runs on the machine and returns a value, or faults (a
    NULL pointer or an out-of-bounds element is dereferenced, or a C
    operation without defined result is reached): [None]. *)
Definition io (A : Type) : Type := state -> option (A * state).

Definition ret {A : Type} (a : A) : io A := fun s => Some (a, s).

Definition bind {A B : Type} (m : io A) (k : A -> io B) : io B :=
  fun s => match m s with
           | Some (a, s1) => k a s1
           | None => None
           end.

Definition fault {A : Type} : io A := fun _ => None.

Declare Scope io_scope.
Delimit Scope io_scope with io.
Notation "x <- m ;; k" := (bind m (fun x => k))
  (at level 61, m at next level, right associativity) : io_scope.
Notation "m ;;; k" := (bind m (fun _ => k))
  (at level 61, right associativity) : io_scope.

Definition emit (e : event) : io unit :=
  fun s => Some (tt, mk_state (regs s) (handlers s) (trace s ++ [e])).

Definition upd (f : Z -> Z) (a v : Z) : Z -> Z :=
  fun a' => if a' =? a then v else f a'.

(** [readl(virt_base + addr)]: a 32-bit load. *)
Definition readl (addr : Z) : io Z :=
  fun s => let v := u32 (regs s addr) in
           Some (v, mk_state (regs s) (handlers s)
                             (trace s ++ [EvReadl addr v])).

(** [writel(val, virt_base + addr)]: a 32-bit store. *)
Definition writel (val addr : Z) : io unit :=
  fun s => Some (tt, mk_state (upd (regs s) addr (u32 val)) (handlers s)
                              (trace s ++ [EvWritel (u32 val) addr])).

Definition spin_lock_irqsave (b : samsung_pin_bank) : io unit :=
  emit (EvSpinLock (name b)).

Definition spin_unlock_irqrestore (b : samsung_pin_bank) : io unit :=
  emit (EvSpinUnlock (name b)).

(** [__irq_set_handler_locked(irq, handler)] *)
Definition __irq_set_handler_locked (virq : Z) (h : irq_flow_handler)
  : io unit :=
  fun s => Some (tt, mk_state (regs s)
                   (fun v => if v =? virq then Some h else handlers s v)
                   (trace s ++ [EvSetHandler virq h])).

(** [for (i = from; i < from + count; i++) body(i)] *)
Fixpoint for_up (from : Z) (count : nat) (body : Z -> io unit) : io unit :=
  match count with
  | O => ret tt
  | S count' => bind (body from) (fun _ => for_up (from + 1) count' body)
  end.

(** What the platform answers when the driver is initialised: the
    interrupt of the controller, and for each call that can fail whether
    it succeeds (banks are named by their index in [pin_banks]). *)
Record platform : Type := mk_platform {
  d_irq : Z;                               (* d->irq *)
  request_irq_ret : Z;                     (* devm_request_irq() *)
  domain_add_ok : nat -> bool;             (* irq_domain_add_linear() *)
  kzalloc_save_ok : nat -> bool;           (* devm_kzalloc(), soc_priv *)
  wkup_np_found : bool;                    (* of_match_node() on a child *)
  has_interrupts : nat -> bool;            (* of_find_property() *)
  kzalloc_weint_ok : nat -> bool;          (* devm_kzalloc(), weint_data *)
  bank_irq : nat -> Z -> Z;                (* irq_of_parse_and_map(bank) *)
  wkup_irq : Z;                            (* irq_of_parse_and_map(wkup_np) *)
  kzalloc_muxed_ok : bool                  (* devm_kzalloc(), muxed_data *)
}.

(** [irq_domain_add_linear(of_node, size, ops, host_data)]: a new domain
    without mappings, or NULL. *)
Definition irq_domain_add_linear (ok : bool) (size : Z) (host : string)
  : io (option irq_domain) :=
  if ok then
    bind (emit (EvDomainAdd host))
         (fun _ => ret (Some (mk_domain host size (fun _ => 0))))
  else ret None.

(** [irq_domain_remove(domain)] *)
Definition irq_domain_remove (domain : option irq_domain) : io unit :=
  match domain with
  | Some d => emit (EvDomainRemove (domain_host d))
  | None => fault
  end.

(** ** Constants of headers that are not among the sources *)

(** The constants and macros pinctrl-exynos.c takes from headers that are
    not among the sources are left open: the trigger types of
    <linux/irq.h>, the error numbers, and the register offsets, trigger
    codes and field layouts of pinctrl-exynos.h. *)
Class headers := {
  IRQ_TYPE_EDGE_RISING : Z;
  IRQ_TYPE_EDGE_FALLING : Z;
  IRQ_TYPE_EDGE_BOTH : Z;
  IRQ_TYPE_LEVEL_HIGH : Z;
  IRQ_TYPE_LEVEL_LOW : Z;
  IRQ_TYPE_LEVEL_MASK : Z;
  EINVAL : Z;
  ENXIO : Z;
  ENOMEM : Z;
  ENODEV : Z;
  EXYNOS_GPIO_ECON_OFFSET : Z;
  EXYNOS_GPIO_EFLTCON_OFFSET : Z;
  EXYNOS_GPIO_EMASK_OFFSET : Z;
  EXYNOS_GPIO_EPEND_OFFSET : Z;
  EXYNOS_SVC_OFFSET : Z;
  EXYNOS_SVC_GROUP : Z -> Z;
  EXYNOS_SVC_NUM_MASK : Z;
  EXYNOS_EINT_LEVEL_LOW : Z;
  EXYNOS_EINT_LEVEL_HIGH : Z;
  EXYNOS_EINT_EDGE_FALLING : Z;
  EXYNOS_EINT_EDGE_RISING : Z;
  EXYNOS_EINT_EDGE_BOTH : Z;
  EXYNOS_EINT_CON_MASK : Z;
  EXYNOS_EINT_CON_LEN : Z;
  EXYNOS_EINT_FLTCON_EN : Z;
  EXYNOS_EINT_FLTCON_SEL : Z;
  EXYNOS_EINT_FLTCON_WIDTH : Z -> Z;
  EXYNOS_EINT_FLTCON_MASK : Z;
  EXYNOS_EINT_FLTCON_LEN : Z
}.

(** What running the flow handler of a virtual line does to the register
    file (it masks, acknowledges and unmasks through the chip callbacks
    around the handlers of the line's consumers). *)
Class flow_handlers := {
  flow_handler_effect : Z -> (Z -> Z) -> Z -> Z
}.

(** ** drivers/pinctrl/samsung/pinctrl-exynos.c: code *)

Section Exynos.

Context {hdr : headers} {flow : flow_handlers}.

(** [generic_handle_irq(virq)] *)
Definition generic_handle_irq (virq : Z) : io unit :=
  fun s => Some (tt, mk_state (flow_handler_effect virq (regs s))
                              (handlers s)
                              (trace s ++ [EvHandleIrq virq])).

Definition exynos_irq_mask (irqd : irq_data) : io unit :=
  let our_chip := irqd_chip irqd in
  let bank := irqd_bank irqd in
  let reg_mask := ulong (eint_mask our_chip + eint_offset bank) in
  (spin_lock_irqsave bank ;;;
   mask <- readl reg_mask ;;
   let mask := Z.lor mask (ulong (int_shl 1 (hwirq irqd))) in
   writel mask reg_mask ;;;
   spin_unlock_irqrestore bank)%io.

Definition exynos_irq_ack (irqd : irq_data) : io unit :=
  let our_chip := irqd_chip irqd in
  let bank := irqd_bank irqd in
  let reg_pend := ulong (eint_pend our_chip + eint_offset bank) in
  writel (int_shl 1 (hwirq irqd)) reg_pend.

Definition exynos_irq_unmask (irqd : irq_data) : io unit :=
  let our_chip := irqd_chip irqd in
  let bank := irqd_bank irqd in
  let reg_mask := ulong (eint_mask our_chip + eint_offset bank) in
  ((if Z.land (irqd_trigger_type irqd) IRQ_TYPE_LEVEL_MASK =? 0
    then ret tt
    else exynos_irq_ack irqd) ;;;
   spin_lock_irqsave bank ;;;
   mask <- readl reg_mask ;;
   let mask := Z.land mask (ulong (Z.lnot (int_shl 1 (hwirq irqd)))) in
   writel mask reg_mask ;;;
   spin_unlock_irqrestore bank)%io.

(** The [switch (type)] of [exynos_irq_set_type]: the trigger code of a
    supported type, [None] in the default case. *)
Definition trig_type_of (type : Z) : option Z :=
  if type =? IRQ_TYPE_EDGE_RISING then Some EXYNOS_EINT_EDGE_RISING
  else if type =? IRQ_TYPE_EDGE_FALLING then Some EXYNOS_EINT_EDGE_FALLING
  else if type =? IRQ_TYPE_EDGE_BOTH then Some EXYNOS_EINT_EDGE_BOTH
  else if type =? IRQ_TYPE_LEVEL_HIGH then Some EXYNOS_EINT_LEVEL_HIGH
  else if type =? IRQ_TYPE_LEVEL_LOW then Some EXYNOS_EINT_LEVEL_LOW
  else None.

Definition exynos_irq_set_type (irqd : irq_data) (type : Z) : io Z :=
  let our_chip := irqd_chip irqd in
  let bank := irqd_bank irqd in
  let shift := u32 (EXYNOS_EINT_CON_LEN * hwirq irqd) in
  let reg_con := ulong (eint_con our_chip + eint_offset bank) in
  match trig_type_of type with
  | None =>
    (emit (EvErr "unsupported external interrupt type") ;;;
     ret (- EINVAL))%io
  | Some trig_type =>
    ((if Z.land type IRQ_TYPE_EDGE_BOTH =? 0
      then __irq_set_handler_locked (irq irqd) handle_level_irq
      else __irq_set_handler_locked (irq irqd) handle_edge_irq) ;;;
     con <- readl reg_con ;;
     let con := u32 (Z.land con
                       (Z.lnot (int_shl EXYNOS_EINT_CON_MASK shift))) in
     let con := Z.lor con (u32 (Z.shiftl (u32 trig_type) shift)) in
     writel con reg_con ;;;
     ret 0)%io
  end.

(** [exynos_gpio_irq_chip] and [exynos_wkup_irq_chip]: both are given the
    same three register groups. *)
Definition exynos_gpio_irq_chip : exynos_irq_chip :=
  mk_chip EXYNOS_GPIO_ECON_OFFSET EXYNOS_GPIO_EMASK_OFFSET
          EXYNOS_GPIO_EPEND_OFFSET.

Definition exynos_wkup_irq_chip : exynos_irq_chip :=
  mk_chip EXYNOS_GPIO_ECON_OFFSET EXYNOS_GPIO_EMASK_OFFSET
          EXYNOS_GPIO_EPEND_OFFSET.

(** [exynos_eint_gpio_irq(irq, d)], with [pin_banks] the banks of
    [d->ctrl]. *)
Definition exynos_eint_gpio_irq (pin_banks : list samsung_pin_bank)
  : io irqreturn_t :=
  (svc <- readl EXYNOS_SVC_OFFSET ;;
   let group := u32 (EXYNOS_SVC_GROUP svc) in
   let pin := u32 (Z.land svc EXYNOS_SVC_NUM_MASK) in
   if group =? 0 then ret IRQ_HANDLED
   else
     match nth_error pin_banks (Z.to_nat (group - 1)) with
     | None => fault
     | Some bank =>
       match bank_irq_domain bank with
       | None => fault
       | Some domain =>
         let virq := irq_linear_revmap domain pin in
         if virq =? 0 then ret IRQ_NONE
         else (generic_handle_irq virq ;;; ret IRQ_HANDLED)
       end
     end)%io.

(** The control word [exynos_eint_flt_config] builds in [flt_con]. *)
Definition flt_con_of (en sel width : Z) : Z :=
  let flt_con := 0 in
  let flt_con :=
    if en =? 0 then flt_con
    else u32 (Z.lor flt_con EXYNOS_EINT_FLTCON_EN) in
  let flt_con :=
    if sel =? 0 then flt_con
    else u32 (Z.lor flt_con EXYNOS_EINT_FLTCON_SEL) in
  u32 (Z.lor flt_con (EXYNOS_EINT_FLTCON_WIDTH width)).

(** One turn of the loop of [exynos_eint_flt_config]. *)
Definition flt_config_step (flt_reg flt_con i : Z) : io unit :=
  let shift := u32 (i * EXYNOS_EINT_FLTCON_LEN) in
  (val <- readl flt_reg ;;
   let val := u32 (Z.land val
                     (Z.lnot (int_shl EXYNOS_EINT_FLTCON_MASK shift))) in
   let val := Z.lor val (u32 (Z.shiftl flt_con shift)) in
   writel val flt_reg ;;;
   writel val (flt_reg + 4))%io.

Definition exynos_eint_flt_config (en sel width : Z)
  (bank : samsung_pin_bank) : io unit :=
  let flt_con := flt_con_of en sel width in
  let flt_reg := u32 (EXYNOS_GPIO_EFLTCON_OFFSET + 2 * eint_offset bank) in
  for_up 0 (Z.to_nat (Z.shiftr (nr_pins bank) 1))
         (flt_config_step flt_reg flt_con).

(** The unwinding loop at [err_domains] of [exynos_eint_gpio_init]:
    [done] holds the banks before the failing one, the last one first. *)
Fixpoint err_domains (done : list samsung_pin_bank) : io unit :=
  match done with
  | [] => ret tt
  | bank :: done' =>
    if eint_type_eqb (eint_type bank) EINT_TYPE_GPIO
    then (irq_domain_remove (bank_irq_domain bank) ;;; err_domains done')%io
    else err_domains done'
  end.

(** The loop over the banks of [exynos_eint_gpio_init], at bank [i], the
    first of [rest]; the result is the return value and the banks. *)
Fixpoint gpio_init_loop (p : platform) (i : nat)
  (done rest : list samsung_pin_bank) : io (Z * list samsung_pin_bank) :=
  match rest with
  | [] => ret (0, rev done)
  | bank :: rest' =>
    if negb (eint_type_eqb (eint_type bank) EINT_TYPE_GPIO)
    then gpio_init_loop p (S i) (bank :: done) rest'
    else
      (domain <- irq_domain_add_linear (domain_add_ok p i) (nr_pins bank)
                                       (name bank) ;;
       let bank := set_irq_domain domain bank in
       match domain with
       | None =>
         emit (EvErr "gpio irq domain add failed") ;;;
         err_domains done ;;;
         ret (- ENXIO, rev done ++ bank :: rest')
       | Some _ =>
         if kzalloc_save_ok p i then
           let bank := set_soc_priv (Some (mk_save 0 0 0)) bank in
           (* Setting Digital Filter *)
           exynos_eint_flt_config EXYNOS_EINT_FLTCON_EN
                                  EXYNOS_EINT_FLTCON_SEL 0 bank ;;;
           gpio_init_loop p (S i) (bank :: done) rest'
         else
           let bank := set_soc_priv None bank in
           irq_domain_remove (bank_irq_domain bank) ;;;
           err_domains done ;;;
           ret (- ENOMEM, rev done ++ bank :: rest')
       end)%io
  end.

Definition exynos_eint_gpio_init (p : platform)
  (pin_banks : list samsung_pin_bank) : io (Z * list samsung_pin_bank) :=
  if d_irq p =? 0 then
    (emit (EvErr "irq number not available") ;;;
     ret (- EINVAL, pin_banks))%io
  else if negb (request_irq_ret p =? 0) then
    (emit (EvErr "irq request failed") ;;;
     ret (- ENXIO, pin_banks))%io
  else gpio_init_loop p 0 [] pin_banks.

(** [static u32 exynos_eint_wake_mask = 0xffffffff;] *)
Definition exynos_eint_wake_mask_init : Z := 0xffffffff.

(** [exynos_wkup_irq_set_wake(irqd, on)] on the value of
    [exynos_eint_wake_mask]: the return value and the new mask. The shift
    [1UL << n] has no defined result from [n = 64] on. *)
Definition exynos_wkup_irq_set_wake (irqd : irq_data) (on : Z)
  (exynos_eint_wake_mask : Z) : option (Z * Z) :=
  let bank := irqd_bank irqd in
  let n := ulong (u32 (2 * eint_offset bank) + hwirq irqd) in
  if 64 <=? n then None
  else
    let bit := ulong (Z.shiftl 1 n) in
    if on =? 0
    then Some (0, u32 (Z.lor exynos_eint_wake_mask bit))
    else Some (0, u32 (Z.land exynos_eint_wake_mask (ulong (Z.lnot bit)))).

(** [exynos_irq_demux_eint(pend, domain)]. The shift [1 << irq] has no
    defined result when [irq] is not below 32, which [fls] gives for a
    [pend] whose low 32 bits are all clear. Each turn of the loop clears
    a bit that is set, so [pend] gets smaller and the loop ends. *)
Equations? exynos_irq_demux_eint (pend : Z) (domain : option irq_domain)
  : io unit by wf (Z.to_nat (ulong pend)) lt :=
exynos_irq_demux_eint pend domain with Z.eq_dec (ulong pend) 0 := {
  | left _ => ret tt
  | right _ with Z_lt_dec (u32 (fls (ulong pend) - 1)) 32 := {
    | right _ => fault
    | left _ =>
      bind (generic_handle_irq
              (irq_find_mapping domain (u32 (fls (ulong pend) - 1))))
           (fun _ =>
              exynos_irq_demux_eint
                (Z.land (ulong pend)
                   (ulong (Z.lnot (int_shl 1 (u32 (fls (ulong pend) - 1))))))
                domain) } }.
Proof.
  assert (Hr : 0 <= ulong pend < 2 ^ 64)
    by (unfold ulong; apply Z.mod_pos_bound; lia).
  set (p := ulong pend) in *.
  assert (Hu : 0 <= u32 p < 2 ^ 32)
    by (unfold u32; apply Z.mod_pos_bound; lia).
  unfold fls in *.
  destruct (Z.eqb_spec (u32 p) 0) as [Hz | Hz].
  { (* fls = 0: the guard on the shift count excludes it *)
    exfalso. change (u32 (0 - 1)) with (2 ^ 32 - 1) in l. lia. }
  set (i := Z.log2 (u32 p)) in *.
  assert (Hlog : 0 <= i < 32).
  { split; [apply Z.log2_nonneg | apply Z.log2_lt_pow2; lia]. }
  replace (i + 1 - 1) with i in * by lia.
  assert (Hi : u32 i = i) by (unfold u32; apply Z.mod_small; lia).
  rewrite Hi in *.
  (* the bit taken is set in [pend] *)
  assert (Hbit : Z.testbit p i = true).
  { assert (H : Z.testbit (u32 p) i = true) by (apply Z.bit_log2; lia).
    unfold u32 in H. rewrite Z.testbit_mod_pow2 in H by lia.
    now apply andb_prop in H. }
  (* and clear in the mask *)
  set (m := ulong (Z.lnot (int_shl 1 i))).
  assert (Hm : Z.testbit m i = false).
  { assert (Hs : Z.testbit (int_shl 1 i) i = true).
    { unfold int_shl, s32. rewrite Z.shiftl_1_l.
      destruct (Z.eq_dec i 31) as [E | N]; [rewrite E; reflexivity |].
      assert (2 ^ i < 2 ^ 31) by (apply Z.pow_lt_mono_r; lia).
      assert (0 < 2 ^ i) by (apply Z.pow_pos_nonneg; lia).
      rewrite Z.mod_small by lia.
      replace (2 ^ i + 2 ^ 31 - 2 ^ 31) with (2 ^ i) by lia.
      apply Z.pow2_bits_true. lia. }
    unfold m, ulong. rewrite Z.testbit_mod_pow2 by lia.
    rewrite Z.lnot_spec by lia. rewrite Hs. apply andb_false_r. }
  (* so the new value is below the old one *)
  assert (Hnn : 0 <= Z.land p m) by (apply Z.land_nonneg; left; lia).
  assert (Hsub : Z.ldiff (Z.land p m) p = 0).
  { apply Z.bits_inj'. intros k Hk.
    rewrite Z.ldiff_spec, Z.land_spec, Z.bits_0.
    destruct (Z.testbit p k), (Z.testbit m k); reflexivity. }
  pose proof (Z.sub_nocarry_ldiff _ _ Hsub) as Heq.
  assert (Hd : 0 <= Z.ldiff p (Z.land p m))
    by (apply Z.ldiff_nonneg; left; lia).
  assert (Hne : Z.ldiff p (Z.land p m) <> 0).
  { intros H0.
    assert (Hb : Z.testbit (Z.ldiff p (Z.land p m)) i = false)
      by (rewrite H0; apply Z.bits_0).
    rewrite Z.ldiff_spec, Z.land_spec, Hbit, Hm in Hb. discriminate. }
  unfold ulong at 1. rewrite Z.mod_small by lia. lia.
Qed.

(** The body of the loop over the banks in [exynos_irq_demux_eint16_31] *)
Definition demux_bank (b : samsung_pin_bank) : io unit :=
  (pend <- readl (EXYNOS_GPIO_EPEND_OFFSET + eint_offset b) ;;
   mask <- readl (EXYNOS_GPIO_EMASK_OFFSET + eint_offset b) ;;
   exynos_irq_demux_eint (Z.land pend (ulong (Z.lnot mask)))
                         (bank_irq_domain b))%io.

Fixpoint demux_banks (banks : list samsung_pin_bank) : io unit :=
  match banks with
  | [] => ret tt
  | b :: banks' => (demux_bank b ;;; demux_banks banks')%io
  end.

(** [exynos_irq_demux_eint16_31(irq, desc)], with [eintd] the banks of the
    handler data. The handler takes the driver data from [eintd->banks[0]]
    before anything else. *)
Definition exynos_irq_demux_eint16_31 (eintd : list samsung_pin_bank)
  : io unit :=
  match eintd with
  | [] => fault
  | _ :: _ =>
    (emit EvChainedEnter ;;;
     demux_banks eintd ;;;
     emit EvChainedExit)%io
  end.

(** The loop over the pins of a bank with its own interrupts in
    [exynos_eint_wkup_init]. *)
Definition wkup_bind_pin (p : platform) (i : nat) (idx : Z) : io unit :=
  let irq := bank_irq p i idx in
  if irq =? 0 then emit (EvErr "irq number for eint not found")
  else emit (EvSetChained irq false).

(** The first loop over the banks of [exynos_eint_wkup_init], at bank [i],
    the first of [rest]. The result is the value the function returns from
    within the loop, if it does, then the banks and [muxed_banks]. *)
Fixpoint wkup_init_loop (p : platform) (i : nat)
  (done rest : list samsung_pin_bank) (muxed_banks : Z)
  : io (option Z * list samsung_pin_bank * Z) :=
  match rest with
  | [] => ret (None, rev done, muxed_banks)
  | bank :: rest' =>
    if negb (eint_type_eqb (eint_type bank) EINT_TYPE_WKUP)
    then wkup_init_loop p (S i) (bank :: done) rest' muxed_banks
    else
      ((* Setting Digital Filter *)
       exynos_eint_flt_config EXYNOS_EINT_FLTCON_EN
                              EXYNOS_EINT_FLTCON_SEL 0 bank ;;;
       domain <- irq_domain_add_linear (domain_add_ok p i) (nr_pins bank)
                                       (name bank) ;;
       let bank := set_irq_domain domain bank in
       match domain with
       | None =>
         emit (EvErr "wkup irq domain add failed") ;;;
         ret (Some (- ENXIO), rev done ++ bank :: rest', muxed_banks)
       | Some _ =>
         if negb (has_interrupts p i) then
           let bank := set_eint_type EINT_TYPE_WKUP_MUX bank in
           wkup_init_loop p (S i) (bank :: done) rest'
                          (u32 (muxed_banks + 1))
         else if negb (kzalloc_weint_ok p i) then
           emit (EvErr "could not allocate memory for weint_data") ;;;
           ret (Some (- ENOMEM), rev done ++ bank :: rest', muxed_banks)
         else
           for_up 0 (Z.to_nat (nr_pins bank)) (wkup_bind_pin p i) ;;;
           wkup_init_loop p (S i) (bank :: done) rest' muxed_banks
       end)%io
  end.

Definition is_wkup_mux (b : samsung_pin_bank) : bool :=
  eint_type_eqb (eint_type b) EINT_TYPE_WKUP_MUX.

(** The second loop over the banks of [exynos_eint_wkup_init]: every bank
    of type [EINT_TYPE_WKUP_MUX] is stored at [muxed_data->banks[idx++]],
    in the order of the table. The array has been allocated for
    [muxed_banks] banks: a store at an index that is not within it is out
    of bounds, a fault. [idx] is an [int]; [stored] holds the banks stored
    so far, the last one first. *)
Fixpoint wkup_store_muxed (rest : list samsung_pin_bank)
  (idx muxed_banks : Z) (stored : list samsung_pin_bank)
  : io (list samsung_pin_bank) :=
  match rest with
  | [] => ret (rev stored)
  | bank :: rest' =>
    if negb (is_wkup_mux bank)
    then wkup_store_muxed rest' idx muxed_banks stored
    else if (0 <=? idx) && (idx <? muxed_banks)
    then wkup_store_muxed rest' (s32 (idx + 1)) muxed_banks
                          (bank :: stored)
    else fault
  end.

(** [exynos_eint_wkup_init(d)]: the return value, the banks and the banks
    of the handler data of the muxed interrupt, when it is set up. The
    handler data is [muxed_data->banks[0 .. nr_banks - 1]] with [nr_banks]
    set to [muxed_banks]; a table has fewer than [2 ^ 32] banks (its
    [nr_banks] is a [u32]), so that the first loop counts without wrapping
    and the second loop stores at least [muxed_banks] banks: the banks it
    stores, when all the stores are within the array, are the whole
    array. *)
Definition exynos_eint_wkup_init (p : platform)
  (pin_banks : list samsung_pin_bank)
  : io (Z * list samsung_pin_bank * option (list samsung_pin_bank)) :=
  if negb (wkup_np_found p) then ret (- ENODEV, pin_banks, None)
  else
    (r <- wkup_init_loop p 0 [] pin_banks 0 ;;
     let '(early, banks, muxed_banks) := r in
     match early with
     | Some e => ret (e, banks, None)
     | None =>
       if muxed_banks =? 0 then ret (0, banks, None)
       else if wkup_irq p =? 0 then
         emit (EvErr "irq number for muxed EINTs not found") ;;;
         ret (0, banks, None)
       else if negb (kzalloc_muxed_ok p) then
         emit (EvErr "could not allocate memory for muxed_data") ;;;
         ret (- ENOMEM, banks, None)
       else
         emit (EvSetChained (wkup_irq p) true) ;;;
         muxed_data <- wkup_store_muxed banks 0 muxed_banks [] ;;
         ret (0, banks, Some muxed_data)
     end)%io.

Definition exynos_pinctrl_suspend_bank (bank : samsung_pin_bank)
  : io samsung_pin_bank :=
  match soc_priv bank with
  | None => fault
  | Some _ =>
    (con <- readl (EXYNOS_GPIO_ECON_OFFSET + eint_offset bank) ;;
     fltcon0 <- readl (EXYNOS_GPIO_EFLTCON_OFFSET
                       + 2 * eint_offset bank) ;;
     fltcon1 <- readl (EXYNOS_GPIO_EFLTCON_OFFSET
                       + 2 * eint_offset bank + 4) ;;
     ret (set_soc_priv (Some (mk_save con fltcon0 fltcon1)) bank))%io
  end.

Definition is_wkup (b : samsung_pin_bank) : bool :=
  eint_type_eqb (eint_type b) EINT_TYPE_WKUP
  || eint_type_eqb (eint_type b) EINT_TYPE_WKUP_MUX.

(** The loop of [exynos_pinctrl_suspend] *)
Fixpoint suspend_banks (banks : list samsung_pin_bank)
  : io (list samsung_pin_bank) :=
  match banks with
  | [] => ret []
  | bank :: banks' =>
    (bank1 <-
       (if eint_type_eqb (eint_type bank) EINT_TYPE_GPIO
        then exynos_pinctrl_suspend_bank bank
        else if is_wkup bank
        then ((* Setting Analog Filter *)
              exynos_eint_flt_config EXYNOS_EINT_FLTCON_EN 0 0 bank ;;;
              ret bank)
        else ret bank) ;;
     banks1 <- suspend_banks banks' ;;
     ret (bank1 :: banks1))%io
  end.

(** [exynos_pinctrl_suspend(drvdata)]; it takes the driver data from the
    first bank before the loop. *)
Definition exynos_pinctrl_suspend (pin_banks : list samsung_pin_bank)
  : io (list samsung_pin_bank) :=
  match pin_banks with
  | [] => fault
  | _ :: _ => suspend_banks pin_banks
  end.

Definition exynos_pinctrl_resume_bank (bank : samsung_pin_bank)
  : io unit :=
  match soc_priv bank with
  | None => fault
  | Some save =>
    (writel (save_eint_con save)
            (EXYNOS_GPIO_ECON_OFFSET + eint_offset bank) ;;;
     writel (save_eint_fltcon0 save)
            (EXYNOS_GPIO_EFLTCON_OFFSET + 2 * eint_offset bank) ;;;
     writel (save_eint_fltcon1 save)
            (EXYNOS_GPIO_EFLTCON_OFFSET + 2 * eint_offset bank + 4))%io
  end.

(** The loop of [exynos_pinctrl_resume] *)
Fixpoint resume_banks (banks : list samsung_pin_bank) : io unit :=
  match banks with
  | [] => ret tt
  | bank :: banks' =>
    ((if eint_type_eqb (eint_type bank) EINT_TYPE_GPIO
      then exynos_pinctrl_resume_bank bank
      else if is_wkup bank
      then (* Setting Digital Filter *)
           exynos_eint_flt_config EXYNOS_EINT_FLTCON_EN
                                  EXYNOS_EINT_FLTCON_SEL 0 bank
      else ret tt) ;;;
     resume_banks banks')%io
  end.

Definition exynos_pinctrl_resume (pin_banks : list samsung_pin_bank)
  : io unit :=
  match pin_banks with
  | [] => fault
  | _ :: _ => resume_banks pin_banks
  end.

(** ** What the properties are stated with *)

(** The indices of the bits of [w] that are set, among the [n] lowest,
    the highest first. *)
Fixpoint set_bits_desc (w : Z) (n : nat) : list Z :=
  match n with
  | O => []
  | S n' =>
    if Z.testbit w (Z.of_nat n')
    then Z.of_nat n' :: set_bits_desc w n'
    else set_bits_desc w n'
  end.

(** The muxed dispatch in the words of the specification: for each bank in
    turn, the working value is [pending & ~mask] of that bank's two
    registers as they are when the bank is reached, and the virtual line
    of each set bit is dispatched, the highest bit first. The result is
    the events of the whole dispatch. *)
Fixpoint muxed_dispatch_spec (banks : list samsung_pin_bank) (r : Z -> Z)
  : list event :=
  match banks with
  | [] => []
  | b :: banks' =>
    let pend_reg := EXYNOS_GPIO_EPEND_OFFSET + eint_offset b in
    let mask_reg := EXYNOS_GPIO_EMASK_OFFSET + eint_offset b in
    let pend := u32 (r pend_reg) in
    let mask := u32 (r mask_reg) in
    let lines :=
      map (irq_find_mapping (bank_irq_domain b))
          (set_bits_desc (Z.land pend (Z.lnot mask)) 32) in
    [EvReadl pend_reg pend; EvReadl mask_reg mask]
      ++ map EvHandleIrq lines
      ++ muxed_dispatch_spec banks'
           (fold_left (fun r virq => flow_handler_effect virq r) lines r)
  end.

(** The machine after the virtual lines [lines] have been dispatched in
    turn from the machine [s]. *)
Definition after_dispatch (lines : list Z) (s : state) : state :=
  mk_state (fold_left (fun r virq => flow_handler_effect virq r) lines
                      (regs s))
           (handlers s)
           (trace s ++ map EvHandleIrq lines).

(** The [width] bits of the register value [reg] from bit [shift] on. *)
Definition field (reg shift width : Z) : Z :=
  Z.land (Z.shiftr reg shift) (Z.ones width).

(** The interrupt domains that exist after the events of a trace, by
    owner, the newest first. *)
Fixpoint live_domains (t : list event) (live : list string) : list string :=
  match t with
  | [] => live
  | EvDomainAdd host :: t' => live_domains t' (host :: live)
  | EvDomainRemove host :: t' =>
    live_domains t' (remove string_dec host live)
  | _ :: t' => live_domains t' live
  end.

(** The five trigger kinds of the specification, the request each one is
    in <linux/irq.h>, its hardware trigger code, and whether it is an edge
    kind. *)
Inductive trigger_kind : Type :=
| RisingEdge
| FallingEdge
| BothEdges
| LevelHigh
| LevelLow.

Definition irq_type_of_kind (k : trigger_kind) : Z :=
  match k with
  | RisingEdge => IRQ_TYPE_EDGE_RISING
  | FallingEdge => IRQ_TYPE_EDGE_FALLING
  | BothEdges => IRQ_TYPE_EDGE_BOTH
  | LevelHigh => IRQ_TYPE_LEVEL_HIGH
  | LevelLow => IRQ_TYPE_LEVEL_LOW
  end.

Definition trigger_code (k : trigger_kind) : Z :=
  match k with
  | RisingEdge => EXYNOS_EINT_EDGE_RISING
  | FallingEdge => EXYNOS_EINT_EDGE_FALLING
  | BothEdges => EXYNOS_EINT_EDGE_BOTH
  | LevelHigh => EXYNOS_EINT_LEVEL_HIGH
  | LevelLow => EXYNOS_EINT_LEVEL_LOW
  end.

Definition is_edge_kind (k : trigger_kind) : bool :=
  match k with
  | RisingEdge | FallingEdge | BothEdges => true
  | LevelHigh | LevelLow => false
  end.

Definition supported_types : list Z :=
  [IRQ_TYPE_EDGE_RISING; IRQ_TYPE_EDGE_FALLING; IRQ_TYPE_EDGE_BOTH;
   IRQ_TYPE_LEVEL_HIGH; IRQ_TYPE_LEVEL_LOW].

(** What this file relies on of <linux/irq.h>: the five requests are
    distinct (they are the labels of one [switch]), the edge requests
    share a bit with [IRQ_TYPE_EDGE_BOTH], which is the two edges
    together, and the level requests do not. *)
Definition irq_types_ok : Prop :=
  NoDup supported_types /\
  Z.land IRQ_TYPE_EDGE_RISING IRQ_TYPE_EDGE_BOTH <> 0 /\
  Z.land IRQ_TYPE_EDGE_FALLING IRQ_TYPE_EDGE_BOTH <> 0 /\
  Z.land IRQ_TYPE_EDGE_BOTH IRQ_TYPE_EDGE_BOTH <> 0 /\
  Z.land IRQ_TYPE_LEVEL_HIGH IRQ_TYPE_EDGE_BOTH = 0 /\
  Z.land IRQ_TYPE_LEVEL_LOW IRQ_TYPE_EDGE_BOTH = 0.

(** What the specification says of the trigger field of the control
    register: the codes have three bits, and a line has a field of
    [EXYNOS_EINT_CON_LEN] bits, which [EXYNOS_EINT_CON_MASK] covers. *)
Definition eint_con_ok : Prop :=
  3 <= EXYNOS_EINT_CON_LEN /\
  EXYNOS_EINT_CON_MASK = Z.ones EXYNOS_EINT_CON_LEN /\
  forall k, 0 <= trigger_code k < 2 ^ 3.

(** The value [exynos_eint_flt_config] computes in turn [i] of its loop
    from the value [v] it has read, for the control word [c]. *)
Definition flt_turn_value (c i v : Z) : Z :=
  let shift := u32 (i * EXYNOS_EINT_FLTCON_LEN) in
  u32 (Z.lor (u32 (Z.land v (Z.lnot (int_shl EXYNOS_EINT_FLTCON_MASK shift))))
             (u32 (Z.shiftl c shift))).

(** The value of the filter register after the turns [from], ...,
    [from + count - 1] of the loop, from the value [v]. *)
Fixpoint flt_loop_value (c from : Z) (count : nat) (v : Z) : Z :=
  match count with
  | O => v
  | S count' => flt_loop_value c (from + 1) count' (flt_turn_value c from v)
  end.

(** The events of those turns on the filter register at [flt_reg]: each
    turn reads the register and writes one value to the register and to
    its pair, four bytes on. *)
Fixpoint flt_loop_events (flt_reg c from : Z) (count : nat) (v : Z)
  : list event :=
  match count with
  | O => []
  | S count' =>
    let v' := flt_turn_value c from v in
    EvReadl flt_reg v :: EvWritel v' flt_reg :: EvWritel v' (flt_reg + 4)
      :: flt_loop_events flt_reg c (from + 1) count' v'
  end.

(** What the specification says of the filter registers: a pin pair has a
    field of [EXYNOS_EINT_FLTCON_LEN] bits, which [EXYNOS_EINT_FLTCON_MASK]
    covers, and the enable flag, the select flag and a width lie within
    the field. *)
Definition fltcon_ok : Prop :=
  0 < EXYNOS_EINT_FLTCON_LEN <= 32 /\
  EXYNOS_EINT_FLTCON_MASK = Z.ones EXYNOS_EINT_FLTCON_LEN /\
  0 <= EXYNOS_EINT_FLTCON_EN < 2 ^ EXYNOS_EINT_FLTCON_LEN /\
  0 <= EXYNOS_EINT_FLTCON_SEL < 2 ^ EXYNOS_EINT_FLTCON_LEN /\
  forall w, 0 <= EXYNOS_EINT_FLTCON_WIDTH w < 2 ^ EXYNOS_EINT_FLTCON_LEN.

(** The control word as the specification words it: one word built from
    the enable flag, the select flag and the width, and from nothing
    else. A flag that is set gives its bit, a flag that is clear gives
    nothing, and the width gives its field. *)
Definition control_word (en sel width : Z) : Z :=
  Z.lor (Z.lor (if en =? 0 then 0 else EXYNOS_EINT_FLTCON_EN)
               (if sel =? 0 then 0 else EXYNOS_EINT_FLTCON_SEL))
        (EXYNOS_EINT_FLTCON_WIDTH width).

(** The address of the first filter register of a bank, as
    [exynos_eint_flt_config] computes it. *)
Definition flt_reg_of (bank : samsung_pin_bank) : Z :=
  u32 (EXYNOS_GPIO_EFLTCON_OFFSET + 2 * eint_offset bank).

(** The number of pin pairs of a bank. *)
Definition pin_pairs (bank : samsung_pin_bank) : Z :=
  Z.shiftr (nr_pins bank) 1.

Definition is_domain_event (e : event) : bool :=
  match e with
  | EvDomainAdd _ | EvDomainRemove _ => true
  | _ => false
  end.

Definition is_gpio (b : samsung_pin_bank) : bool :=
  eint_type_eqb (eint_type b) EINT_TYPE_GPIO.

(** The owners of the domains of the GPIO banks among [done]. *)
Definition gpio_domains (done : list samsung_pin_bank) : list string :=
  map name (filter is_gpio done).

(** A GPIO bank that the initialisation has gone through has its domain. *)
Definition gpio_has_domain (b : samsung_pin_bank) : Prop :=
  is_gpio b = true ->
  exists d, bank_irq_domain b = Some d /\ domain_host d = name b.

Definition is_domain_remove (e : event) : bool :=
  match e with
  | EvDomainRemove _ => true
  | _ => false
  end.

(** The registers [exynos_pinctrl_suspend_bank] saves for a GPIO bank and
    [exynos_pinctrl_resume_bank] writes back. *)
Definition gpio_con_reg (b : samsung_pin_bank) : Z :=
  EXYNOS_GPIO_ECON_OFFSET + eint_offset b.

Definition gpio_flt0_reg (b : samsung_pin_bank) : Z :=
  EXYNOS_GPIO_EFLTCON_OFFSET + 2 * eint_offset b.

Definition gpio_flt1_reg (b : samsung_pin_bank) : Z :=
  EXYNOS_GPIO_EFLTCON_OFFSET + 2 * eint_offset b + 4.

Definition gpio_regs (b : samsung_pin_bank) : list Z :=
  [gpio_con_reg b; gpio_flt0_reg b; gpio_flt1_reg b].

(** The two filter registers [exynos_eint_flt_config] writes for a bank. *)
Definition flt_regs (b : samsung_pin_bank) : list Z :=
  [flt_reg_of b; flt_reg_of b + 4].

(** A bank after a suspend from the register file [r]: a GPIO bank has
    the three registers in its save slot. *)
Definition save_bank (r : Z -> Z) (b : samsung_pin_bank)
  : samsung_pin_bank :=
  if is_gpio b
  then set_soc_priv
         (Some (mk_save (u32 (r (gpio_con_reg b)))
                        (u32 (r (gpio_flt0_reg b)))
                        (u32 (r (gpio_flt1_reg b))))) b
  else b.

(** The banks of a controller have their registers apart: no register of
    a GPIO bank is a filter register of a wakeup bank, and two wakeup
    banks have the same filter registers (the tables give several wakeup
    banks the same [eint_offset]) or no filter register in common. *)
Definition banks_apart (banks : list samsung_pin_bank) : Prop :=
  (forall g w, In g banks -> In w banks ->
     is_gpio g = true -> is_wkup w = true ->
     forall a, In a (gpio_regs g) -> ~ In a (flt_regs w)) /\
  (forall w w', In w banks -> In w' banks ->
     is_wkup w = true -> is_wkup w' = true ->
     flt_reg_of w' = flt_reg_of w \/
     forall a, In a (flt_regs w') -> ~ In a (flt_regs w)).

(** In the register file [r], the field of every pin pair of the bank [w]
    holds the control word [c], in both filter registers. *)
Definition filter_holds (c : Z) (w : samsung_pin_bank) (r : Z -> Z)
  : Prop :=
  forall i, 0 <= i < pin_pairs w ->
    field (r (flt_reg_of w)) (i * EXYNOS_EINT_FLTCON_LEN)
          EXYNOS_EINT_FLTCON_LEN = c /\
    field (r (flt_reg_of w + 4)) (i * EXYNOS_EINT_FLTCON_LEN)
          EXYNOS_EINT_FLTCON_LEN = c.

(** The pin pairs of a bank have their fields within a filter register. *)
Definition pairs_fit (b : samsung_pin_bank) : Prop :=
  0 <= pin_pairs b /\ pin_pairs b * EXYNOS_EINT_FLTCON_LEN <= 32.

(** What a GPIO bank with the save slot [sv] writes to the register [a]
    on resume is [v], if it writes to [a]. *)
Definition writes_agree (g : samsung_pin_bank) (sv : exynos_eint_gpio_save)
  (a v : Z) : Prop :=
  (gpio_con_reg g = a -> u32 (save_eint_con sv) = v) /\
  (gpio_flt0_reg g = a -> u32 (save_eint_fltcon0 sv) = v) /\
  (gpio_flt1_reg g = a -> u32 (save_eint_fltcon1 sv) = v).

End Exynos.

(** ** drivers/pinctrl/samsung/pinctrl-exynos.c: the resources of a line
       and the pin numbers *)

(** The constants [exynos_irq_request_resources] and
    [exynos_irq_release_resources] take from headers that are not among
    the sources: the index [PINCFG_TYPE_FUNC] of the pin function among
    the configuration types and the function [FUNC_INPUT] of
    pinctrl-samsung.h, and the function [EXYNOS_EINT_FUNC] of
    pinctrl-exynos.h that makes a pin an external interrupt. *)
Class pin_headers := {
  PINCFG_TYPE_FUNC : nat;
  EXYNOS_EINT_FUNC : Z;
  FUNC_INPUT : Z
}.

(** [struct samsung_pin_bank_type]: for each configuration type, the
    width of the field of a pin and the offset of the register in the
    bank. The arrays have an element for every configuration type; the
    elements without initialiser are 0. *)
Record samsung_pin_bank_type : Type := mk_bank_type {
  fld_width : list Z;
  reg_offset : list Z
}.

(** bank type for non-alive type (DRV bit field: 2) *)
Definition bank_type_0 : samsung_pin_bank_type :=
  mk_bank_type [4; 1; 2; 2; 2; 2] [0x00; 0x04; 0x08; 0x0c; 0x10; 0x14].

(** bank type for alive type (DRV bit field: 2) *)
Definition bank_type_1 : samsung_pin_bank_type :=
  mk_bank_type [4; 1; 2; 2] [0x00; 0x04; 0x08; 0x0c].

(** bank type for non-alive type (DRV bit field: 3) *)
Definition bank_type_4 : samsung_pin_bank_type :=
  mk_bank_type [4; 1; 2; 3; 2; 2] [0x00; 0x04; 0x08; 0x0c; 0x10; 0x14].

(** bank type for alive type (DRV bit field: 3) *)
Definition bank_type_5 : samsung_pin_bank_type :=
  mk_bank_type [4; 1; 2; 3] [0x00; 0x04; 0x08; 0x0c].

(** The fields of [struct samsung_pin_bank] that only the two resource
    callbacks read, [bank->type] and [bank->pctl_offset], of the bank of
    the line the callback is called for. *)
Record pin_bank_cfg : Type := mk_bank_cfg {
  bank_type : samsung_pin_bank_type;
  pctl_offset : Z
}.

Section ExynosResources.

Context {hdr : headers} {pin : pin_headers}.

(** [exynos_irq_request_resources(irqd)], with [cfg] the two further
    fields of the bank of [irqd] and [lock_ret] what
    [gpiochip_lock_as_irq()] returns. The values [shift] and [reg_con]
    are initialised with, from the chip, are overwritten before they are
    used. *)
Definition exynos_irq_request_resources (cfg : pin_bank_cfg) (lock_ret : Z)
  (irqd : irq_data) : io Z :=
  let bank := irqd_bank irqd in
  let bank_type := bank_type cfg in
  let r := s32 lock_ret in
  if negb (r =? 0) then
    (emit (EvErr "unable to lock pin IRQ") ;;; ret r)%io
  else
    let reg_con :=
      ulong (pctl_offset cfg
             + nth PINCFG_TYPE_FUNC (reg_offset bank_type) 0) in
    let shift :=
      u32 (hwirq irqd * nth PINCFG_TYPE_FUNC (fld_width bank_type) 0) in
    let mask :=
      u32 (int_shl 1 (nth PINCFG_TYPE_FUNC (fld_width bank_type) 0) - 1) in
    (spin_lock_irqsave bank ;;;
     con <- readl reg_con ;;
     let con := u32 (Z.land con (u32 (Z.lnot (u32 (Z.shiftl mask shift))))) in
     let con := u32 (Z.lor con (u32 (int_shl EXYNOS_EINT_FUNC shift))) in
     writel con reg_con ;;;
     spin_unlock_irqrestore bank ;;;
     ret 0)%io.

(** [exynos_irq_release_resources(irqd)]; the call of
    [gpiochip_unlock_as_irq()] at its end leaves the machine as it is. *)
Definition exynos_irq_release_resources (cfg : pin_bank_cfg)
  (irqd : irq_data) : io unit :=
  let bank := irqd_bank irqd in
  let bank_type := bank_type cfg in
  let reg_con :=
    ulong (pctl_offset cfg
           + nth PINCFG_TYPE_FUNC (reg_offset bank_type) 0) in
  let shift :=
    u32 (hwirq irqd * nth PINCFG_TYPE_FUNC (fld_width bank_type) 0) in
  let mask :=
    u32 (int_shl 1 (nth PINCFG_TYPE_FUNC (fld_width bank_type) 0) - 1) in
  (spin_lock_irqsave bank ;;;
   con <- readl reg_con ;;
   let con := u32 (Z.land con (u32 (Z.lnot (u32 (Z.shiftl mask shift))))) in
   let con := u32 (Z.lor con (u32 (int_shl FUNC_INPUT shift))) in
   writel con reg_con ;;;
   spin_unlock_irqrestore bank)%io.

End ExynosResources.

(** [strncmp(name, "gpa", 3)] is not 0: the name does not begin with
    "gpa". *)
Definition strncmp_gpa (name : string) : bool :=
  negb (String.prefix "gpa" name).

(** The loop of [exynos_eint_to_pin_num] of the exynos7880 over the banks
    of its pin-controller 0, from bank [i] on: [banks] are the banks
    [exynos7880_pin_ctrl[0].pin_banks[i]], ..., and [banks70] the banks
    [exynos7870_pin_ctrl[0].pin_banks[i]], ..., whose [nr_pins] the loop
    adds up in the [int] [etc_offset]. Reading a bank after the last one
    of the second table is a fault. *)
Fixpoint eint_etc_offset (banks banks70 : list samsung_pin_bank)
  (etc_offset : Z) : option Z :=
  match banks with
  | [] => Some etc_offset
  | b :: banks' =>
    if strncmp_gpa (name b) then
      match banks70 with
      | [] => None
      | b70 :: banks70' =>
        eint_etc_offset banks' banks70' (s32 (etc_offset + nr_pins b70))
      end
    else Some etc_offset
  end.

(** [exynos_eint_to_pin_num(eint)] of the exynos7880, with [base] the pin
    base [exynos7880_pin_ctrl[0].base] and the banks of the two tables. *)
Definition exynos_eint_to_pin_num (base : Z)
  (banks banks70 : list samsung_pin_bank) (eint : Z) : option Z :=
  match eint_etc_offset banks banks70 0 with
  | Some etc_offset => Some (u32 (base + eint + etc_offset))
  | None => None
  end.

(** ** What the further properties are stated with *)

(** A bank after a successful [exynos_eint_gpio_init]: a GPIO bank has
    its domain, of the size of the bank and without mappings, and its
    save slot, zeroed. *)
Definition gpio_setup (b : samsung_pin_bank) : samsung_pin_bank :=
  if is_gpio b
  then set_soc_priv (Some (mk_save 0 0 0))
         (set_irq_domain
            (Some (mk_domain (name b) (nr_pins b) (fun _ => 0))) b)
  else b.

(** The number of banks of type [EINT_TYPE_WKUP_MUX]. *)
Definition muxed_count (banks : list samsung_pin_bank) : Z :=
  Z.of_nat (List.length (filter is_wkup_mux banks)).

(** The banks before the first one whose name begins with "gpa". *)
Fixpoint before_gpa (banks : list samsung_pin_bank)
  : list samsung_pin_bank :=
  match banks with
  | [] => []
  | b :: banks' =>
    if strncmp_gpa (name b) then b :: before_gpa banks' else []
  end.

(** The pins of some banks together. *)
Definition pins_of (banks : list samsung_pin_bank) : Z :=
  fold_right Z.add 0 (map nr_pins banks).

(** The owners of the domains that the events of a trace add, the oldest
    first. *)
Definition added_domains (t : list event) : list string :=
  flat_map (fun e => match e with
                     | EvDomainAdd host => [host]
                     | _ => []
                     end) t.

(** ** The constants of the kernel headers *)

(** The values that <linux/irq.h>, the error numbers and pinctrl-exynos.h
    of the kernel give to the constants left open above. The headers are
    not among the sources: the values serve to run the driver on concrete
    inputs, and no property of the section of properties depends on
    them. *)
Definition kernel_headers : headers := {|
  IRQ_TYPE_EDGE_RISING := 1;
  IRQ_TYPE_EDGE_FALLING := 2;
  IRQ_TYPE_EDGE_BOTH := 3;
  IRQ_TYPE_LEVEL_HIGH := 4;
  IRQ_TYPE_LEVEL_LOW := 8;
  IRQ_TYPE_LEVEL_MASK := 12;
  EINVAL := 22;
  ENXIO := 6;
  ENOMEM := 12;
  ENODEV := 19;
  EXYNOS_GPIO_ECON_OFFSET := 0x700;
  EXYNOS_GPIO_EFLTCON_OFFSET := 0x800;
  EXYNOS_GPIO_EMASK_OFFSET := 0x900;
  EXYNOS_GPIO_EPEND_OFFSET := 0xA00;
  EXYNOS_SVC_OFFSET := 0xB08;
  EXYNOS_SVC_GROUP := fun x => Z.land (Z.shiftr x 3) 0x1f;
  EXYNOS_SVC_NUM_MASK := 7;
  EXYNOS_EINT_LEVEL_LOW := 0;
  EXYNOS_EINT_LEVEL_HIGH := 1;
  EXYNOS_EINT_EDGE_FALLING := 2;
  EXYNOS_EINT_EDGE_RISING := 3;
  EXYNOS_EINT_EDGE_BOTH := 4;
  EXYNOS_EINT_CON_MASK := 0xF;
  EXYNOS_EINT_CON_LEN := 4;
  EXYNOS_EINT_FLTCON_EN := 0x80;
  EXYNOS_EINT_FLTCON_SEL := 0x40;
  EXYNOS_EINT_FLTCON_WIDTH := fun x => Z.land x 0x3f;
  EXYNOS_EINT_FLTCON_MASK := 0xFF;
  EXYNOS_EINT_FLTCON_LEN := 8
|}.

(** Flow handlers that leave the registers alone. *)
Definition idle_handlers : flow_handlers := {|
  flow_handler_effect := fun virq r => r
|}.

(** Every bank of the tables of the file that is given wakeup interrupts
    ([EXYNOS_PIN_BANK_EINTW]): its number of pins and its [eint_offset]. *)
Definition wakeup_banks : list (Z * Z) :=
  [ (* s5pv210: gph0, gph1, gph2, gph3 *)
    (8, 0x00); (8, 0x04); (8, 0x08); (8, 0x0c);
    (* exynos3250, exynos4210, exynos4x12, exynos5250, exynos5260,
       exynos5420: gpx0, gpx1, gpx2, gpx3 *)
    (8, 0x00); (8, 0x04); (8, 0x08); (8, 0x0c);
    (* exynos8890: gpa0, gpa1, gpa2, gpa3 *)
    (8, 0x00); (8, 0x04); (8, 0x08); (8, 0x0c);
    (* exynos7870: etc0, etc1, gpa0, gpa1, gpa2, gpq0 *)
    (6, 0x00); (3, 0x00); (8, 0x00); (8, 0x04); (8, 0x08); (2, 0x00);
    (* exynos7880: gpa0, gpa1, gpa2, gpa3 *)
    (8, 0x00); (8, 0x04); (8, 0x08); (5, 0x0c) ].

(** A machine whose registers hold [r] and that has done nothing yet. *)
Definition machine (r : Z -> Z) : state := mk_state r (fun _ => None) [].

(** ** Concrete runs *)

Module Run.

#[local] Existing Instance kernel_headers.
#[local] Existing Instance idle_handlers.

Definition gpa0_domain : irq_domain :=
  mk_domain "gpa0" 8 (fun hw => 100 + hw).

Definition gpa1_domain : irq_domain :=
  mk_domain "gpa1" 8 (fun hw => 200 + hw).

(** Two muxed wakeup banks. *)
Definition gpa0 : samsung_pin_bank :=
  mk_bank "gpa0" 8 EINT_TYPE_WKUP_MUX 0x00 (Some gpa0_domain) None.

Definition gpa1 : samsung_pin_bank :=
  mk_bank "gpa1" 8 EINT_TYPE_WKUP_MUX 0x04 (Some gpa1_domain) None.

(** Pending bits 2 and 9 in the first bank and 5 in the second, nothing
    masked. *)
Definition pending_2_5_9 : state :=
  machine (fun a => if a =? 0xA00 then 0x204
                      else if a =? 0xA04 then 0x20 else 0).

(** Line 3 of [gpa0], configured level-high, as virtual line 103. *)
Definition line3_level_high : irq_data :=
  mk_irqd 103 3 (mk_chip 0x700 0x900 0xA00) gpa0 IRQ_TYPE_LEVEL_HIGH.

(** All lines of the bank masked, line 3 pending. *)
Definition masked_pending3 : state :=
  machine (fun a => if a =? 0x900 then 0xFF
                      else if a =? 0xA00 then 0x08 else 0).

(** A GPIO bank of 8 pins with its domain and its save slot. *)
Definition gpb : samsung_pin_bank :=
  mk_bank "gpb" 8 EINT_TYPE_GPIO 0x08
          (Some (mk_domain "gpb" 8 (fun hw => 160 + hw)))
          (Some (mk_save 0 0 0)).

(** The service register reports group 1, pin 3. *)
Definition service_group1_pin3 : state :=
  machine (fun a => if a =? 0xB08 then 0x0B else 0).

(** A wakeup bank of 8 pins. *)
Definition gpx1 : samsung_pin_bank :=
  mk_bank "gpx1" 8 EINT_TYPE_WKUP 0x04 None None.

Definition gpx0 : samsung_pin_bank :=
  mk_bank "gpx0" 8 EINT_TYPE_WKUP 0x00 None None.

(** The last line of the last wakeup bank of the tables. *)
Definition gpx3_line7 : irq_data :=
  mk_irqd 131 7 (mk_chip 0x700 0x900 0xA00)
          (mk_bank "gpx3" 8 EINT_TYPE_WKUP 0x0c None None)
          IRQ_TYPE_EDGE_BOTH.

(** The bank macros of pinctrl-exynos.h, a header that is not among the
    sources, as the initialisation finds their banks: a bank without
    interrupts, a bank of GPIO interrupts and a bank of wakeup interrupts
    with the number of pins, the name and the [eint_offset] given. *)
Definition EXYNOS_PIN_BANK_EINTN (pins : Z) (id : string)
  : samsung_pin_bank :=
  mk_bank id pins EINT_TYPE_NONE 0 None None.

Definition EXYNOS_PIN_BANK_EINTG (pins : Z) (id : string) (offs : Z)
  : samsung_pin_bank :=
  mk_bank id pins EINT_TYPE_GPIO offs None None.

Definition EXYNOS_PIN_BANK_EINTW (pins : Z) (id : string) (offs : Z)
  : samsung_pin_bank :=
  mk_bank id pins EINT_TYPE_WKUP offs None None.

(** [exynos5250_pin_banks0], the banks of pin-controller 0 of the
    exynos5250: its GPIO banks and its wakeup banks have [eint_offset]s
    in common. *)
Definition exynos5250_pin_banks0 : list samsung_pin_bank :=
  [ EXYNOS_PIN_BANK_EINTG 8 "gpa0" 0x00;
    EXYNOS_PIN_BANK_EINTG 6 "gpa1" 0x04;
    EXYNOS_PIN_BANK_EINTG 8 "gpa2" 0x08;
    EXYNOS_PIN_BANK_EINTG 5 "gpb0" 0x0c;
    EXYNOS_PIN_BANK_EINTG 5 "gpb1" 0x10;
    EXYNOS_PIN_BANK_EINTG 4 "gpb2" 0x14;
    EXYNOS_PIN_BANK_EINTG 4 "gpb3" 0x18;
    EXYNOS_PIN_BANK_EINTG 7 "gpc0" 0x1c;
    EXYNOS_PIN_BANK_EINTG 4 "gpc1" 0x20;
    EXYNOS_PIN_BANK_EINTG 7 "gpc2" 0x24;
    EXYNOS_PIN_BANK_EINTG 7 "gpc3" 0x28;
    EXYNOS_PIN_BANK_EINTG 4 "gpd0" 0x2c;
    EXYNOS_PIN_BANK_EINTG 8 "gpd1" 0x30;
    EXYNOS_PIN_BANK_EINTG 7 "gpc4" 0x34;
    EXYNOS_PIN_BANK_EINTN 6 "gpy0";
    EXYNOS_PIN_BANK_EINTN 4 "gpy1";
    EXYNOS_PIN_BANK_EINTN 6 "gpy2";
    EXYNOS_PIN_BANK_EINTN 8 "gpy3";
    EXYNOS_PIN_BANK_EINTN 8 "gpy4";
    EXYNOS_PIN_BANK_EINTN 8 "gpy5";
    EXYNOS_PIN_BANK_EINTN 8 "gpy6";
    EXYNOS_PIN_BANK_EINTW 8 "gpx0" 0x00;
    EXYNOS_PIN_BANK_EINTW 8 "gpx1" 0x04;
    EXYNOS_PIN_BANK_EINTW 8 "gpx2" 0x08;
    EXYNOS_PIN_BANK_EINTW 8 "gpx3" 0x0c ].

(** A platform on which every call succeeds. *)
Definition all_succeed : platform :=
  mk_platform 32 0 (fun _ => true) (fun _ => true) true
              (fun _ => false) (fun _ => true) (fun _ _ => 0) 48 true.

(** A platform on which every call succeeds, but whose device tree has
    no wakeup interrupt node. *)
Definition no_wakeup_node : platform :=
  mk_platform 32 0 (fun _ => true) (fun _ => true) false
              (fun _ => false) (fun _ => true) (fun _ _ => 0) 48 true.

(** The pin controller 0 of the exynos5250 on the platform [p], from
    registers that are all zero: its two initialisations,
    [exynos_eint_gpio_init] and [exynos_eint_wkup_init] (the
    [eint_gpio_init] and [eint_wkup_init] of [exynos5250_pin_ctrl]), then
    a suspend, then a resume. The result is what the two initialisations
    return, and the value of the register at [addr] before the suspend
    and after the resume. *)
Definition init_suspend_resume (p : platform) (addr : Z)
  : option (Z * Z * Z * Z) :=
  match exynos_eint_gpio_init p exynos5250_pin_banks0
                         (machine (fun _ => 0)) with
  | Some ((gpio_ret, banks), s0) =>
    match exynos_eint_wkup_init p banks s0 with
    | Some ((wkup_ret, banks, _), s1) =>
      match exynos_pinctrl_suspend banks s1 with
      | Some (saved, s2) =>
        match exynos_pinctrl_resume saved s2 with
        | Some (_, s3) =>
          Some (gpio_ret, wkup_ret, regs s1 addr, regs s3 addr)
        | None => None
        end
      | None => None
      end
    | None => None
    end
  | None => None
  end.

(** A platform on which everything succeeds but the creation of the
    domain of the second bank. *)
Definition second_domain_fails : platform :=
  mk_platform 32 0 (fun i => Nat.eqb i 0) (fun _ => true) true
              (fun _ => false) (fun _ => true) (fun _ _ => 0) 48 true.

End Run.

(** The values of the constants of [pin_headers] in the kernel headers. *)
Definition kernel_pin_headers : pin_headers := {|
  PINCFG_TYPE_FUNC := 0;
  EXYNOS_EINT_FUNC := 0xF;
  FUNC_INPUT := 0x0
|}.

(** ** The pin banks of the exynos7880 *)

Module Exynos7880.

(** The bank macros of pinctrl-exynos.h with all their arguments: the
    bank as the initialisation finds it, and its type and the offset of
    its registers. *)
Definition EXYNOS_PIN_BANK_EINTN (type : samsung_pin_bank_type)
  (pins reg : Z) (id : string) : samsung_pin_bank * pin_bank_cfg :=
  (mk_bank id pins EINT_TYPE_NONE 0 None None, mk_bank_cfg type reg).

Definition EXYNOS_PIN_BANK_EINTG (type : samsung_pin_bank_type)
  (pins reg : Z) (id : string) (offs : Z)
  : samsung_pin_bank * pin_bank_cfg :=
  (mk_bank id pins EINT_TYPE_GPIO offs None None, mk_bank_cfg type reg).

Definition EXYNOS_PIN_BANK_EINTW (type : samsung_pin_bank_type)
  (pins reg : Z) (id : string) (offs : Z)
  : samsung_pin_bank * pin_bank_cfg :=
  (mk_bank id pins EINT_TYPE_WKUP offs None None, mk_bank_cfg type reg).

(** pin banks of exynos7880 pin-controller 0 (ALIVE) *)
Definition exynos7880_pin_banks0 : list (samsung_pin_bank * pin_bank_cfg) :=
  [ EXYNOS_PIN_BANK_EINTN bank_type_5 6 0x000 "etc0";
    EXYNOS_PIN_BANK_EINTN bank_type_5 3 0x020 "etc1";
    EXYNOS_PIN_BANK_EINTW bank_type_5 8 0x040 "gpa0" 0x00;
    EXYNOS_PIN_BANK_EINTW bank_type_5 8 0x060 "gpa1" 0x04;
    EXYNOS_PIN_BANK_EINTW bank_type_5 8 0x080 "gpa2" 0x08;
    EXYNOS_PIN_BANK_EINTW bank_type_5 5 0x0a0 "gpa3" 0x0c;
    EXYNOS_PIN_BANK_EINTN bank_type_5 2 0x0c0 "gpq0" ].

(** pin banks of exynos7880 pin-controller 1 (CCORE) *)
Definition exynos7880_pin_banks1 : list (samsung_pin_bank * pin_bank_cfg) :=
  [ EXYNOS_PIN_BANK_EINTG bank_type_4 2 0x000 "gpm0" 0x00 ].

(** pin banks of exynos7880 pin-controller 2 (DISPAUD) *)
Definition exynos7880_pin_banks2 : list (samsung_pin_bank * pin_bank_cfg) :=
  [ EXYNOS_PIN_BANK_EINTG bank_type_4 4 0x000 "gpz0" 0x00;
    EXYNOS_PIN_BANK_EINTG bank_type_4 6 0x020 "gpz1" 0x04;
    EXYNOS_PIN_BANK_EINTG bank_type_4 4 0x040 "gpz2" 0x08 ].

(** pin banks of exynos7880 pin-controller 3 (ESE) *)
Definition exynos7880_pin_banks3 : list (samsung_pin_bank * pin_bank_cfg) :=
  [ EXYNOS_PIN_BANK_EINTG bank_type_4 5 0x000 "gpc7" 0x00 ].

(** pin banks of exynos7880 pin-controller 4 (FSYS) *)
Definition exynos7880_pin_banks4 : list (samsung_pin_bank * pin_bank_cfg) :=
  [ EXYNOS_PIN_BANK_EINTG bank_type_4 3 0x000 "gpr0" 0x00;
    EXYNOS_PIN_BANK_EINTG bank_type_4 8 0x020 "gpr1" 0x04;
    EXYNOS_PIN_BANK_EINTG bank_type_4 2 0x040 "gpr2" 0x08;
    EXYNOS_PIN_BANK_EINTG bank_type_4 4 0x060 "gpr3" 0x0c;
    EXYNOS_PIN_BANK_EINTG bank_type_4 6 0x080 "gpr4" 0x10 ].

(** pin banks of exynos7880 pin-controller 5 (NFC) *)
Definition exynos7880_pin_banks5 : list (samsung_pin_bank * pin_bank_cfg) :=
  [ EXYNOS_PIN_BANK_EINTG bank_type_4 4 0x000 "gpc2" 0x00 ].

(** pin banks of exynos7880 pin-controller 6 (TOP) *)
Definition exynos7880_pin_banks6 : list (samsung_pin_bank * pin_bank_cfg) :=
  [ EXYNOS_PIN_BANK_EINTG bank_type_4 4 0x000 "gpb0" 0x00;
    EXYNOS_PIN_BANK_EINTG bank_type_4 3 0x020 "gpc0" 0x04;
    EXYNOS_PIN_BANK_EINTG bank_type_4 4 0x040 "gpc1" 0x08;
    EXYNOS_PIN_BANK_EINTG bank_type_4 4 0x060 "gpc4" 0x0c;
    EXYNOS_PIN_BANK_EINTG bank_type_4 2 0x080 "gpc5" 0x10;
    EXYNOS_PIN_BANK_EINTG bank_type_4 4 0x0a0 "gpc6" 0x14;
    EXYNOS_PIN_BANK_EINTG bank_type_4 2 0x0c0 "gpc8" 0x18;
    EXYNOS_PIN_BANK_EINTG bank_type_4 2 0x0e0 "gpc9" 0x1c;
    EXYNOS_PIN_BANK_EINTG bank_type_4 7 0x100 "gpd1" 0x20;
    EXYNOS_PIN_BANK_EINTG bank_type_4 6 0x120 "gpd2" 0x24;
    EXYNOS_PIN_BANK_EINTG bank_type_4 8 0x140 "gpd3" 0x28;
    EXYNOS_PIN_BANK_EINTG bank_type_4 7 0x160 "gpd4" 0x2c;
    EXYNOS_PIN_BANK_EINTG bank_type_4 5 0x180 "gpd5" 0x30;
    EXYNOS_PIN_BANK_EINTG bank_type_4 3 0x1a0 "gpe0" 0x34;
    EXYNOS_PIN_BANK_EINTG bank_type_4 4 0x1c0 "gpf0" 0x38;
    EXYNOS_PIN_BANK_EINTG bank_type_4 2 0x1e0 "gpf1" 0x3c;
    EXYNOS_PIN_BANK_EINTG bank_type_4 2 0x200 "gpf2" 0x40;
    EXYNOS_PIN_BANK_EINTG bank_type_4 4 0x220 "gpf3" 0x44;
    EXYNOS_PIN_BANK_EINTG bank_type_4 5 0x240 "gpf4" 0x48 ].

(** pin banks of exynos7880 pin-controller 7 (TOUCH) *)
Definition exynos7880_pin_banks7 : list (samsung_pin_bank * pin_bank_cfg) :=
  [ EXYNOS_PIN_BANK_EINTG bank_type_4 3 0x000 "gpc3" 0x00 ].

(** pin banks of exynos7870 pin-controller 0 (ALIVE) *)
Definition exynos7870_pin_banks0 : list (samsung_pin_bank * pin_bank_cfg) :=
  [ EXYNOS_PIN_BANK_EINTW bank_type_5 6 0x000 "etc0" 0x00;
    EXYNOS_PIN_BANK_EINTW bank_type_5 3 0x020 "etc1" 0x00;
    EXYNOS_PIN_BANK_EINTW bank_type_5 8 0x040 "gpa0" 0x00;
    EXYNOS_PIN_BANK_EINTW bank_type_5 8 0x060 "gpa1" 0x04;
    EXYNOS_PIN_BANK_EINTW bank_type_5 8 0x080 "gpa2" 0x08;
    EXYNOS_PIN_BANK_EINTW bank_type_5 2 0x0c0 "gpq0" 0x00 ].

(** The banks of the pin controllers of [exynos7880_pin_ctrl], in its
    order. *)
Definition exynos7880_pin_ctrl : list (list samsung_pin_bank) :=
  map (map fst)
      [ exynos7880_pin_banks0; exynos7880_pin_banks1; exynos7880_pin_banks2;
        exynos7880_pin_banks3; exynos7880_pin_banks4; exynos7880_pin_banks5;
        exynos7880_pin_banks6; exynos7880_pin_banks7 ].

End Exynos7880.

(** ** Properties *)

Section Properties.

Set Default Proof Using "Type".

Context {hdr : headers} {flow : flow_handlers}.

(** *** The C integer types *)

Lemma u32_range (x : Z) : 0 <= u32 x < 2 ^ 32.
Proof. unfold u32. apply Z.mod_pos_bound. lia. Qed.

Lemma ulong_range (x : Z) : 0 <= ulong x < 2 ^ 64.
Proof. unfold ulong. apply Z.mod_pos_bound. lia. Qed.

Lemma u32_testbit (x i : Z) :
  Z.testbit (u32 x) i = (i <? 32) && Z.testbit x i.
Proof. unfold u32. apply Z.testbit_mod_pow2. lia. Qed.

Lemma ulong_testbit (x i : Z) :
  Z.testbit (ulong x) i = (i <? 64) && Z.testbit x i.
Proof. unfold ulong. apply Z.testbit_mod_pow2. lia. Qed.

Lemma u32_s32 (x : Z) : u32 (s32 x) = u32 x.
Proof.
  unfold u32, s32.
  rewrite Zminus_mod_idemp_l. f_equal. lia.
Qed.

Lemma s32_testbit_low (x i : Z) :
  i < 32 -> Z.testbit (s32 x) i = Z.testbit x i.
Proof.
  intros Hi.
  assert (H : Z.testbit (u32 (s32 x)) i = Z.testbit (u32 x) i)
    by (now rewrite u32_s32).
  rewrite !u32_testbit in H.
  destruct (Z.ltb_spec i 32); [exact H | lia].
Qed.

Lemma u32_small (x : Z) : 0 <= x < 2 ^ 32 -> u32 x = x.
Proof. intros. unfold u32. now apply Z.mod_small. Qed.

Lemma ulong_small (x : Z) : 0 <= x < 2 ^ 64 -> ulong x = x.
Proof. intros. unfold ulong. now apply Z.mod_small. Qed.

Lemma u32_idem (x : Z) : u32 (u32 x) = u32 x.
Proof. apply u32_small, u32_range. Qed.

(** Clearing in a non-negative [a] a bit that is set makes it smaller. *)
Lemma land_clear_lt (a m i : Z) :
  0 <= a -> 0 <= i -> Z.testbit a i = true -> Z.testbit m i = false ->
  0 <= Z.land a m < a.
Proof.
  intros Ha Hi Hai Hmi.
  assert (Hnn : 0 <= Z.land a m) by (apply Z.land_nonneg; now left).
  assert (Hsub : Z.ldiff (Z.land a m) a = 0).
  { apply Z.bits_inj'. intros n Hn.
    rewrite Z.ldiff_spec, Z.land_spec, Z.bits_0.
    destruct (Z.testbit a n), (Z.testbit m n); reflexivity. }
  pose proof (Z.sub_nocarry_ldiff _ _ Hsub) as Heq.
  assert (Hd : 0 <= Z.ldiff a (Z.land a m)).
  { apply Z.ldiff_nonneg. now left. }
  assert (Hne : Z.ldiff a (Z.land a m) <> 0).
  { intros H0.
    assert (Hb : Z.testbit (Z.ldiff a (Z.land a m)) i = false)
      by (rewrite H0; apply Z.bits_0).
    rewrite Z.ldiff_spec, Z.land_spec, Hai, Hmi in Hb. discriminate. }
  lia.
Qed.

Lemma set_bits_desc_agree (w w' : Z) (n : nat) :
  (forall i, 0 <= i < Z.of_nat n -> Z.testbit w i = Z.testbit w' i) ->
  set_bits_desc w n = set_bits_desc w' n.
Proof.
  induction n as [| n IH]; intros H; [reflexivity |].
  simpl. rewrite (H (Z.of_nat n)) by lia.
  rewrite IH by (intros; apply H; lia). reflexivity.
Qed.

Lemma set_bits_desc_high (w : Z) (m n : nat) :
  (m <= n)%nat ->
  (forall i, Z.of_nat m <= i < Z.of_nat n -> Z.testbit w i = false) ->
  set_bits_desc w n = set_bits_desc w m.
Proof.
  intros Hmn. induction Hmn as [| n Hmn IH]; intros H; [reflexivity |].
  simpl. rewrite (H (Z.of_nat n)) by lia.
  apply IH. intros; apply H; lia.
Qed.

Lemma set_bits_desc_In (w : Z) (n : nat) (i : Z) :
  In i (set_bits_desc w n) <-> 0 <= i < Z.of_nat n /\ Z.testbit w i = true.
Proof.
  induction n as [| n IH]; simpl.
  - split; [intros [] | lia].
  - destruct (Z.testbit w (Z.of_nat n)) eqn:Hb; simpl; rewrite IH.
    + split.
      * intros [<- | [Hi Ht]];
          [split; [lia | exact Hb] | split; [lia | exact Ht]].
      * intros [Hi Ht].
        destruct (Z.eq_dec i (Z.of_nat n));
          [now left | right; split; [lia | exact Ht]].
    + split.
      * intros [Hi Ht]; split; [lia | exact Ht].
      * intros [Hi Ht]. split; [| exact Ht].
        destruct (Z.eq_dec i (Z.of_nat n)); [congruence | lia].
Qed.

Lemma set_bits_desc_sorted (w : Z) (n : nat) :
  StronglySorted Z.gt (set_bits_desc w n).
Proof.
  induction n as [| n IH]; simpl; [constructor |].
  destruct (Z.testbit w (Z.of_nat n)); [| exact IH].
  constructor; [exact IH |].
  apply Forall_forall. intros i Hi.
  apply set_bits_desc_In in Hi. lia.
Qed.

Lemma set_bits_desc_NoDup (w : Z) (n : nat) : NoDup (set_bits_desc w n).
Proof.
  induction n as [| n IH]; simpl; [constructor |].
  destruct (Z.testbit w (Z.of_nat n)); [| exact IH].
  constructor; [| exact IH].
  intros Hi. apply set_bits_desc_In in Hi. lia.
Qed.

Lemma set_bits_desc_S (w : Z) (n : nat) :
  set_bits_desc w (S n) =
  if Z.testbit w (Z.of_nat n)
  then Z.of_nat n :: set_bits_desc w n
  else set_bits_desc w n.
Proof. reflexivity. Qed.

Lemma set_bits_desc_0 (n : nat) : set_bits_desc 0 n = [].
Proof.
  induction n as [| n IH]; [reflexivity |].
  rewrite set_bits_desc_S, Z.bits_0. exact IH.
Qed.

Arguments set_bits_desc : simpl never.

(** *** The muxed wakeup dispatch *)

Lemma demux_eint_unfold (pend : Z) (domain : option irq_domain) :
  exynos_irq_demux_eint pend domain =
  if ulong pend =? 0 then ret tt
  else
    let irq := u32 (fls (ulong pend) - 1) in
    if irq <? 32 then
      bind (generic_handle_irq (irq_find_mapping domain irq))
           (fun _ => exynos_irq_demux_eint
                       (Z.land (ulong pend)
                               (ulong (Z.lnot (int_shl 1 irq)))) domain)
    else fault.
Proof.
  rewrite exynos_irq_demux_eint_equation_1.
  destruct (Z.eq_dec (ulong pend) 0) as [e | n]; simpl.
  - rewrite e. reflexivity.
  - destruct (Z.eqb_spec (ulong pend) 0); [contradiction |].
    destruct (Z_lt_dec (u32 (fls (ulong pend) - 1)) 32) as [l | g]; simpl;
      destruct (Z.ltb_spec (u32 (fls (ulong pend) - 1)) 32);
      solve [reflexivity | lia].
Qed.

(** The mask [~(1 << i)], as [unsigned long], has exactly bit [i] clear
    among the low 32 bits. *)
Lemma clear_mask_testbit (i j : Z) :
  0 <= i < 32 -> 0 <= j < 32 ->
  Z.testbit (ulong (Z.lnot (int_shl 1 i))) j = negb (j =? i).
Proof.
  intros Hi Hj.
  rewrite ulong_testbit, Z.lnot_spec by lia.
  unfold int_shl. rewrite s32_testbit_low by lia.
  destruct (Z.ltb_spec j 64); [| lia]. simpl.
  f_equal.
  destruct (Z.eqb_spec j i) as [-> | Hne].
  - rewrite Z.shiftl_spec by lia. now replace (i - i) with 0 by lia.
  - change 1 with (2 ^ 0). rewrite Z.shiftl_spec by lia.
    apply Z.pow2_bits_false. lia.
Qed.

(** One turn of the loop on a working value [w]: the bit taken is the
    highest set bit, and what is left are the other set bits. *)
Lemma demux_step_bits (w : Z) :
  0 < w < 2 ^ 32 ->
  let i := Z.log2 w in
  let w' := Z.land w (ulong (Z.lnot (int_shl 1 i))) in
  0 <= i < 32 /\ 0 <= w' < w /\
  set_bits_desc w 32 = i :: set_bits_desc w' 32.
Proof.
  intros Hw i w'.
  assert (Hi : 0 <= i < 32).
  { split; [apply Z.log2_nonneg | apply Z.log2_lt_pow2; lia]. }
  assert (Hbit : Z.testbit w i = true) by (apply Z.bit_log2; lia).
  assert (Hm : Z.testbit (ulong (Z.lnot (int_shl 1 i))) i = false).
  { rewrite clear_mask_testbit by lia. now rewrite Z.eqb_refl. }
  split; [exact Hi |]. split.
  { pose proof (land_clear_lt w _ i ltac:(lia) ltac:(lia) Hbit Hm). lia. }
  assert (Hhigh : forall j, i < j -> Z.testbit w j = false).
  { intros j Hj. apply Z.bits_above_log2; [lia | exact Hj]. }
  rewrite (set_bits_desc_high w (S (Z.to_nat i)) 32).
  2: lia.
  2: { intros j Hj. apply Hhigh. lia. }
  rewrite set_bits_desc_S, Z2Nat.id by lia. rewrite Hbit. f_equal.
  rewrite (set_bits_desc_high w' (Z.to_nat i) 32).
  2: lia.
  2: { intros j Hj. unfold w'. rewrite Z.land_spec.
       destruct (Z.eq_dec j i) as [-> | Hne].
       - rewrite Hm. apply andb_false_r.
       - rewrite Hhigh by lia. reflexivity. }
  apply set_bits_desc_agree. intros j Hj.
  unfold w'. rewrite Z.land_spec, clear_mask_testbit by lia.
  destruct (Z.eqb_spec j i); [lia |]. now rewrite andb_true_r.
Qed.

Lemma after_dispatch_nil (s : state) : after_dispatch [] s = s.
Proof.
  destruct s as [r h t]. unfold after_dispatch. simpl.
  now rewrite app_nil_r.
Qed.

Lemma after_dispatch_cons (virq : Z) (lines : list Z) (s : state) :
  after_dispatch (virq :: lines) s =
  after_dispatch lines
    (mk_state (flow_handler_effect virq (regs s)) (handlers s)
              (trace s ++ [EvHandleIrq virq])).
Proof.
  unfold after_dispatch. simpl. now rewrite <- app_assoc.
Qed.

Lemma demux_eint_run (w : Z) (domain : option irq_domain) (s : state) :
  0 <= w < 2 ^ 32 ->
  exynos_irq_demux_eint w domain s =
  Some (tt, after_dispatch
              (map (irq_find_mapping domain) (set_bits_desc w 32)) s).
Proof.
  remember (Z.to_nat w) as k eqn:Hk. revert w s Hk.
  induction k as [k IH] using (well_founded_induction lt_wf).
  intros w s Hk Hw.
  rewrite demux_eint_unfold.
  rewrite (ulong_small w) by lia.
  destruct (Z.eqb_spec w 0) as [-> | Hne].
  - rewrite set_bits_desc_0.
    change (map (irq_find_mapping domain) []) with (@nil Z).
    rewrite after_dispatch_nil. reflexivity.
  - destruct (demux_step_bits w ltac:(lia)) as (Hi & Hw' & Hbits).
    assert (Hirq : u32 (fls w - 1) = Z.log2 w).
    { unfold fls. rewrite (u32_small w) by lia.
      destruct (Z.eqb_spec w 0); [lia |].
      replace (Z.log2 w + 1 - 1) with (Z.log2 w) by lia.
      apply u32_small. lia. }
    cbv zeta. rewrite Hirq.
    destruct (Z.ltb_spec (Z.log2 w) 32); [| lia].
    rewrite Hbits, map_cons, after_dispatch_cons.
    unfold bind at 1. unfold generic_handle_irq at 1.
    apply (IH (Z.to_nat (Z.land w (ulong (Z.lnot (int_shl 1 (Z.log2 w))))))).
    + lia.
    + reflexivity.
    + lia.
Qed.

Lemma testbit_high32 (p i : Z) :
  0 <= p < 2 ^ 32 -> 32 <= i -> Z.testbit p i = false.
Proof.
  intros Hp Hi. rewrite <- (u32_small p Hp), u32_testbit.
  destruct (Z.ltb_spec i 32); [lia | reflexivity].
Qed.

Lemma land_u32_range (p m : Z) :
  0 <= p < 2 ^ 32 -> 0 <= Z.land p m < 2 ^ 32.
Proof.
  intros Hp.
  assert (H : u32 (Z.land p m) = Z.land p m).
  { apply Z.bits_inj'. intros i Hi.
    rewrite u32_testbit, Z.land_spec.
    destruct (Z.ltb_spec i 32); [reflexivity |].
    now rewrite (testbit_high32 p i Hp) by lia. }
  rewrite <- H. apply u32_range.
Qed.

(** The working value: [~mask] computed in [unsigned long] selects the
    same bits of the 32-bit [pend] as the mathematical complement. *)
Lemma working_value (pend mask : Z) :
  0 <= pend < 2 ^ 32 ->
  Z.land pend (ulong (Z.lnot mask)) = Z.land pend (Z.lnot mask).
Proof.
  intros Hp. apply Z.bits_inj'. intros i Hi.
  rewrite !Z.land_spec, ulong_testbit.
  destruct (Z.ltb_spec i 64); [reflexivity |].
  now rewrite (testbit_high32 pend i Hp) by lia.
Qed.

Lemma demux_bank_run (b : samsung_pin_bank) (s : state) :
  let pend_reg := EXYNOS_GPIO_EPEND_OFFSET + eint_offset b in
  let mask_reg := EXYNOS_GPIO_EMASK_OFFSET + eint_offset b in
  let pend := u32 (regs s pend_reg) in
  let mask := u32 (regs s mask_reg) in
  demux_bank b s =
  Some (tt, after_dispatch
              (map (irq_find_mapping (bank_irq_domain b))
                   (set_bits_desc (Z.land pend (Z.lnot mask)) 32))
              (mk_state (regs s) (handlers s)
                        ((trace s ++ [EvReadl pend_reg pend])
                           ++ [EvReadl mask_reg mask]))).
Proof.
  intros pend_reg mask_reg pend mask.
  unfold demux_bank, bind, readl. cbn [regs handlers trace].
  fold pend_reg mask_reg. fold pend. fold mask.
  rewrite working_value by apply u32_range.
  apply demux_eint_run. apply land_u32_range, u32_range.
Qed.

Lemma demux_banks_run (banks : list samsung_pin_bank) (s : state) :
  exists s',
    demux_banks banks s = Some (tt, s') /\
    handlers s' = handlers s /\
    trace s' = trace s ++ muxed_dispatch_spec banks (regs s).
Proof.
  revert s. induction banks as [| b banks IH]; intros s.
  - exists s. cbn. now rewrite app_nil_r.
  - cbn [demux_banks]. unfold bind at 1. rewrite demux_bank_run.
    match goal with
    | |- context [after_dispatch ?l ?s1] =>
      destruct (IH (after_dispatch l s1)) as (s' & Hrun & Hh & Ht)
    end.
    exists s'. split; [exact Hrun |]. split; [exact Hh |].
    rewrite Ht. cbn [muxed_dispatch_spec after_dispatch regs trace].
    rewrite <- !app_assoc. cbn [app]. reflexivity.
Qed.

(** C1. A dispatch of the muxed wakeup interrupt goes through the banks of
    the group in turn; for each it reads the pending and the mask register
    of the bank, and dispatches the virtual lines of the bits set in
    [pending & ~mask], each one once and the highest bit first, until none
    is left; then it returns. *)
Theorem muxed_dispatch_descending
  (eintd : list samsung_pin_bank) (s : state) :
  eintd <> [] ->
  (exists s',
      exynos_irq_demux_eint16_31 eintd s = Some (tt, s') /\
      trace s' = trace s ++ [EvChainedEnter]
                   ++ muxed_dispatch_spec eintd (regs s)
                   ++ [EvChainedExit]) /\
  (forall w,
      StronglySorted Z.gt (set_bits_desc w 32) /\
      NoDup (set_bits_desc w 32) /\
      forall i, In i (set_bits_desc w 32) <->
                0 <= i < 32 /\ Z.testbit w i = true).
Proof.
  intros Hne. split.
  - destruct eintd as [| b0 rest]; [contradiction |].
    unfold exynos_irq_demux_eint16_31, bind, emit.
    match goal with
    | |- context [demux_banks ?bs ?s1] =>
      destruct (demux_banks_run bs s1) as (s' & Hrun & Hh & Ht)
    end.
    rewrite Hrun. eexists. split; [reflexivity |].
    cbn [trace regs] in *. rewrite Ht, <- !app_assoc. cbn [app].
    reflexivity.
  - intros w. split; [apply set_bits_desc_sorted |].
    split; [apply set_bits_desc_NoDup |].
    intros i. apply (set_bits_desc_In w 32 i).
Qed.

(** *** Mask, acknowledge, unmask *)

Lemma int_shl_1_u32 (h : Z) : 0 <= h < 32 -> u32 (int_shl 1 h) = 2 ^ h.
Proof.
  intros Hh. unfold int_shl. rewrite u32_s32, Z.shiftl_1_l.
  apply u32_small. split; [apply Z.pow_nonneg; lia |].
  apply Z.pow_lt_mono_r; lia.
Qed.

Lemma unmask_value (m h : Z) :
  0 <= m < 2 ^ 32 -> 0 <= h < 32 ->
  u32 (Z.land m (ulong (Z.lnot (int_shl 1 h)))) = Z.clearbit m h.
Proof.
  intros Hm Hh. apply Z.bits_inj'. intros j Hj.
  rewrite u32_testbit, Z.land_spec, Z.clearbit_eqb.
  destruct (Z.ltb_spec j 32) as [Hlt | Hge].
  - rewrite clear_mask_testbit by lia. cbn [andb].
    now rewrite (Z.eqb_sym j h).
  - now rewrite (testbit_high32 m j Hm) by lia.
Qed.

(** C2. Unmasking a line whose recorded trigger is a level type first
    writes the bit of the line to the pending register (the acknowledge)
    and then, under the lock of the bank, reads the mask register and
    writes it back with the bit of the line cleared: one acknowledge
    followed by one unmask. For any other line there is no write to the
    pending register, only the unmask. *)
Theorem unmask_acks_level_first (irqd : irq_data) (s : state) :
  0 <= hwirq irqd < 32 ->
  let bank := irqd_bank irqd in
  let reg_pend := ulong (eint_pend (irqd_chip irqd) + eint_offset bank) in
  let reg_mask := ulong (eint_mask (irqd_chip irqd) + eint_offset bank) in
  let unmask (m : Z) :=
    [EvSpinLock (name bank); EvReadl reg_mask m;
     EvWritel (Z.clearbit m (hwirq irqd)) reg_mask;
     EvSpinUnlock (name bank)] in
  (Z.land (irqd_trigger_type irqd) IRQ_TYPE_LEVEL_MASK <> 0 ->
   exists s',
     let m := u32 (upd (regs s) reg_pend (2 ^ hwirq irqd) reg_mask) in
     exynos_irq_unmask irqd s = Some (tt, s') /\
     trace s' = trace s ++ EvWritel (2 ^ hwirq irqd) reg_pend :: unmask m /\
     regs s' reg_mask = Z.clearbit m (hwirq irqd)) /\
  (Z.land (irqd_trigger_type irqd) IRQ_TYPE_LEVEL_MASK = 0 ->
   exists s',
     let m := u32 (regs s reg_mask) in
     exynos_irq_unmask irqd s = Some (tt, s') /\
     trace s' = trace s ++ unmask m /\
     regs s' reg_mask = Z.clearbit m (hwirq irqd) /\
     forall a, a <> reg_mask -> regs s' a = regs s a).
Proof.
  intros Hh bank reg_pend reg_mask unmask. split; intros Hlevel.
  - unfold exynos_irq_unmask.
    destruct (Z.eqb_spec (Z.land (irqd_trigger_type irqd)
                                 IRQ_TYPE_LEVEL_MASK) 0) as [E | _];
      [contradiction |].
    unfold exynos_irq_ack, bind, writel, readl, spin_lock_irqsave,
      spin_unlock_irqrestore, emit.
    cbn [regs handlers trace].
    fold bank. fold reg_pend. fold reg_mask.
    rewrite int_shl_1_u32 by exact Hh.
    rewrite unmask_value by (auto using u32_range).
    eexists. split; [reflexivity |]. cbn [regs trace]. split.
    + rewrite <- !app_assoc. reflexivity.
    + unfold upd at 1. now rewrite Z.eqb_refl.
  - unfold exynos_irq_unmask. rewrite Hlevel. cbn [Z.eqb].
    unfold bind, ret, writel, readl, spin_lock_irqsave,
      spin_unlock_irqrestore, emit.
    cbn [regs handlers trace].
    fold bank. fold reg_mask.
    rewrite unmask_value by (auto using u32_range).
    eexists. split; [reflexivity |]. cbn [regs trace]. split.
    + rewrite <- !app_assoc. reflexivity.
    + split.
      * unfold upd. now rewrite Z.eqb_refl.
      * intros a Ha. unfold upd.
        destruct (Z.eqb_spec a reg_mask); [contradiction | reflexivity].
Qed.

(** *** Read-modify-write of a field of a 32-bit register *)

Lemma testbit_small (c L k : Z) :
  0 <= c < 2 ^ L -> L <= k -> Z.testbit c k = false.
Proof.
  intros Hc Hk.
  destruct (Z.eq_dec c 0) as [-> | Hne]; [apply Z.bits_0 |].
  apply Z.bits_above_log2; [lia |].
  assert (Z.log2 c < L); [| lia].
  apply Z.log2_lt_pow2; lia.
Qed.

(** The bits of [((v & ~(ones << shift)) | (c << shift))] as the driver
    computes it in 32 bits, for a field that lies within the register. *)
Lemma rmw_testbit (v c shift L j : Z) :
  0 <= shift -> 0 <= L -> shift + L <= 32 -> 0 <= c < 2 ^ L -> 0 <= j ->
  Z.testbit
    (u32 (Z.lor (u32 (Z.land v (Z.lnot (int_shl (Z.ones L) shift))))
                (u32 (Z.shiftl c shift)))) j =
  (j <? 32) &&
  (if (shift <=? j) && (j <? shift + L)
   then Z.testbit c (j - shift) else Z.testbit v j).
Proof.
  intros Hs HL Hfit Hc Hj.
  rewrite u32_testbit, Z.lor_spec, !u32_testbit, Z.land_spec.
  destruct (Z.ltb_spec j 32) as [Hlt | Hge]; [| reflexivity].
  cbn [andb].
  rewrite Z.lnot_spec by lia. unfold int_shl.
  rewrite s32_testbit_low by lia.
  rewrite !Z.shiftl_spec by lia.
  rewrite Z.testbit_ones by lia.
  destruct (Z.leb_spec shift j) as [Hsj | Hsj].
  - destruct (Z.ltb_spec j (shift + L)) as [Hin | Hout].
    + destruct (Z.leb_spec 0 (j - shift)); [| lia].
      destruct (Z.ltb_spec (j - shift) L); [| lia].
      cbn. now rewrite andb_false_r.
    + destruct (Z.ltb_spec (j - shift) L); [lia |].
      rewrite andb_false_r. cbn [negb andb].
      rewrite (testbit_small c L (j - shift)) by lia.
      now rewrite andb_true_r, orb_false_r.
  - destruct (Z.leb_spec 0 (j - shift)); [lia |].
    cbn. rewrite (Z.testbit_neg_r c) by lia.
    now rewrite andb_true_r, orb_false_r.
Qed.

(** A register value whose bits in the field are those of [c] holds [c]
    in the field. *)
Lemma field_eq (r c shift L : Z) :
  0 <= shift -> 0 <= L -> 0 <= c < 2 ^ L ->
  (forall j, shift <= j < shift + L ->
             Z.testbit r j = Z.testbit c (j - shift)) ->
  field r shift L = c.
Proof.
  intros Hs HL Hc Hbits. unfold field.
  apply Z.bits_inj'. intros k Hk.
  rewrite Z.land_spec, Z.shiftr_spec, Z.testbit_ones by lia.
  destruct (Z.leb_spec 0 k); [| lia]. cbn [andb].
  destruct (Z.ltb_spec k L) as [Hin | Hout].
  - rewrite Hbits by lia. rewrite andb_true_r. f_equal. lia.
  - rewrite andb_false_r. symmetry. apply (testbit_small c L); lia.
Qed.

(** Two register values with the same bits in a field hold the same
    value in it. *)
Lemma field_ext (r r' shift L : Z) :
  0 <= shift -> 0 <= L ->
  (forall j, shift <= j < shift + L -> Z.testbit r j = Z.testbit r' j) ->
  field r shift L = field r' shift L.
Proof.
  intros Hs HL Hbits. unfold field.
  apply Z.bits_inj'. intros k Hk.
  rewrite !Z.land_spec, !Z.shiftr_spec, Z.testbit_ones by lia.
  destruct (Z.leb_spec 0 k); [| lia]. cbn [andb].
  destruct (Z.ltb_spec k L) as [Hin | Hout].
  - now rewrite Hbits by lia.
  - now rewrite !andb_false_r.
Qed.

(** *** Setting the trigger type *)

Lemma trig_type_of_kind (k : trigger_kind) :
  NoDup supported_types ->
  trig_type_of (irq_type_of_kind k) = Some (trigger_code k).
Proof.
  unfold supported_types. intros Hnd.
  repeat match goal with
         | H : NoDup (_ :: _) |- _ =>
           let Hn := fresh "Hn" in
           apply NoDup_cons_iff in H; destruct H as [Hn H];
           cbn [In] in Hn
         end.
  repeat match goal with
         | H : ~ (_ \/ _) |- _ =>
           apply Decidable.not_or in H; destruct H
         end.
  unfold trig_type_of.
  destruct k; cbn [irq_type_of_kind trigger_code];
    repeat match goal with
           | |- context [?a =? ?b] =>
             destruct (Z.eqb_spec a b);
             [first [reflexivity | exfalso; congruence] |]
           end;
    congruence.
Qed.

Lemma trig_type_of_unsupported (type : Z) :
  ~ In type supported_types -> trig_type_of type = None.
Proof.
  unfold supported_types. cbn [In]. intros Hn. unfold trig_type_of.
  repeat match goal with
         | H : ~ (_ \/ _) |- _ =>
           apply Decidable.not_or in H; destruct H
         end.
  repeat match goal with
         | |- context [?a =? ?b] =>
           destruct (Z.eqb_spec a b); [exfalso; congruence |]
         end.
  reflexivity.
Qed.

Lemma edge_test_of_kind (k : trigger_kind) :
  irq_types_ok ->
  (Z.land (irq_type_of_kind k) IRQ_TYPE_EDGE_BOTH =? 0) =
  negb (is_edge_kind k).
Proof.
  intros (_ & Hr & Hf & Hb & Hh & Hl).
  destruct k; cbn [irq_type_of_kind is_edge_kind negb];
    first [ now apply Z.eqb_neq | now apply Z.eqb_eq ].
Qed.

(** C3 (amended). For a line whose field lies in the control register and
    each of the five trigger kinds, [exynos_irq_set_type] succeeds, leaves
    the code of the kind in the field of the line at bit offset
    [line * field width], changes no bit outside that field and no other
    register, and sets the flow handler of the line to the edge handler
    for the three edge kinds (rising, falling, both) and to the level
    handler for the two level kinds. *)
Theorem set_type_programs_field
  (k : trigger_kind) (irqd : irq_data) (s : state) :
  irq_types_ok -> eint_con_ok ->
  0 <= hwirq irqd -> EXYNOS_EINT_CON_LEN * (hwirq irqd + 1) <= 32 ->
  let reg_con :=
    ulong (eint_con (irqd_chip irqd) + eint_offset (irqd_bank irqd)) in
  let shift := EXYNOS_EINT_CON_LEN * hwirq irqd in
  let handler :=
    if is_edge_kind k then handle_edge_irq else handle_level_irq in
  exists s',
    exynos_irq_set_type irqd (irq_type_of_kind k) s = Some (0, s') /\
    field (regs s' reg_con) shift EXYNOS_EINT_CON_LEN = trigger_code k /\
    (forall j, 0 <= j -> ~ shift <= j < shift + EXYNOS_EINT_CON_LEN ->
               Z.testbit (regs s' reg_con) j =
               Z.testbit (u32 (regs s reg_con)) j) /\
    (forall a, a <> reg_con -> regs s' a = regs s a) /\
    handlers s' (irq irqd) = Some handler /\
    trace s' = trace s ++ [EvSetHandler (irq irqd) handler;
                           EvReadl reg_con (u32 (regs s reg_con));
                           EvWritel (regs s' reg_con) reg_con].
Proof.
  intros Htypes (Hlen & Hmask & Hcodes) Hh Hfit reg_con shift handler.
  assert (Hshift : 0 <= shift) by (unfold shift; nia).
  assert (Hshift32 : shift + EXYNOS_EINT_CON_LEN <= 32)
    by (unfold shift; lia).
  assert (Hcode : 0 <= trigger_code k < 2 ^ EXYNOS_EINT_CON_LEN).
  { specialize (Hcodes k). split; [lia |].
    apply Z.lt_le_trans with (2 ^ 3); [lia |].
    apply Z.pow_le_mono_r; lia. }
  unfold exynos_irq_set_type.
  rewrite (trig_type_of_kind k) by apply Htypes.
  rewrite (edge_test_of_kind k Htypes).
  fold reg_con. fold shift.
  rewrite (u32_small shift) by lia.
  rewrite (u32_small (trigger_code k)) by (specialize (Hcodes k); lia).
  rewrite Hmask.
  set (con' :=
         u32 (Z.lor
                (u32 (Z.land (u32 (regs s reg_con))
                        (Z.lnot (int_shl (Z.ones EXYNOS_EINT_CON_LEN)
                                         shift))))
                (u32 (Z.shiftl (trigger_code k) shift)))).
  assert (Hbits : forall j, 0 <= j ->
            Z.testbit con' j =
            (j <? 32) &&
            (if (shift <=? j) && (j <? shift + EXYNOS_EINT_CON_LEN)
             then Z.testbit (trigger_code k) (j - shift)
             else Z.testbit (u32 (regs s reg_con)) j)).
  { intros j Hj. unfold con'. apply rmw_testbit; lia. }
  exists (mk_state (upd (regs s) reg_con con')
                   (fun v => if v =? irq irqd then Some handler
                             else handlers s v)
                   (trace s ++ [EvSetHandler (irq irqd) handler;
                                EvReadl reg_con (u32 (regs s reg_con));
                                EvWritel con' reg_con])).
  cbn [regs handlers trace].
  assert (Hupd : upd (regs s) reg_con con' reg_con = con')
    by (unfold upd; now rewrite Z.eqb_refl).
  rewrite Hupd.
  split; [| split; [| split; [| split; [| split]]]].
  - unfold handler.
    destruct (is_edge_kind k); cbn [negb];
      unfold bind, ret, __irq_set_handler_locked, readl, writel;
      cbn [regs handlers trace]; fold con';
      rewrite <- !app_assoc; cbn [app]; reflexivity.
  - apply field_eq; try lia. intros j Hj. rewrite Hbits by lia.
    destruct (Z.ltb_spec j 32); [| lia].
    destruct (Z.leb_spec shift j); [| lia].
    destruct (Z.ltb_spec j (shift + EXYNOS_EINT_CON_LEN)); [| lia].
    reflexivity.
  - intros j Hj Hout. rewrite Hbits by lia.
    rewrite u32_testbit.
    destruct (Z.ltb_spec j 32); [| reflexivity]. cbn [andb].
    destruct (Z.leb_spec shift j); [| reflexivity].
    destruct (Z.ltb_spec j (shift + EXYNOS_EINT_CON_LEN)); [lia |].
    reflexivity.
  - intros a Ha. unfold upd.
    destruct (Z.eqb_spec a reg_con); [contradiction | reflexivity].
  - now rewrite Z.eqb_refl.
  - reflexivity.
Qed.

(** C7. For a request that is none of the five supported ones,
    [exynos_irq_set_type] returns [-EINVAL]; it writes no register and
    sets no flow handler: registers and handlers are as before, and the
    only event is the error message. *)
Theorem set_type_rejects_unsupported
  (irqd : irq_data) (type : Z) (s : state) :
  ~ In type supported_types ->
  exynos_irq_set_type irqd type s =
  Some (- EINVAL,
        mk_state (regs s) (handlers s)
                 (trace s ++ [EvErr "unsupported external interrupt type"])).
Proof.
  intros Hn. unfold exynos_irq_set_type.
  rewrite (trig_type_of_unsupported type Hn). reflexivity.
Qed.

(** *** The handler of the GPIO interrupt *)

(** C6. The handler reads the service register once. With group 0 it
    returns [IRQ_HANDLED] and dispatches nothing. With a group [g > 0] it
    takes the bank at index [g - 1] and looks the pin up in the domain of
    that bank: without a virtual line for the pin it returns [IRQ_NONE]
    and dispatches nothing, and with one it dispatches that line, once,
    and returns [IRQ_HANDLED]. *)
Theorem gpio_irq_dispatches_one
  (pin_banks : list samsung_pin_bank) (s : state) :
  let svc := u32 (regs s EXYNOS_SVC_OFFSET) in
  let group := u32 (EXYNOS_SVC_GROUP svc) in
  let pin := u32 (Z.land svc EXYNOS_SVC_NUM_MASK) in
  let read := trace s ++ [EvReadl EXYNOS_SVC_OFFSET svc] in
  (group = 0 ->
   exynos_eint_gpio_irq pin_banks s =
   Some (IRQ_HANDLED, mk_state (regs s) (handlers s) read)) /\
  (forall bank domain,
      group <> 0 ->
      nth_error pin_banks (Z.to_nat (group - 1)) = Some bank ->
      bank_irq_domain bank = Some domain ->
      let virq := irq_linear_revmap domain pin in
      (virq = 0 ->
       exynos_eint_gpio_irq pin_banks s =
       Some (IRQ_NONE, mk_state (regs s) (handlers s) read)) /\
      (virq <> 0 ->
       exynos_eint_gpio_irq pin_banks s =
       Some (IRQ_HANDLED,
             mk_state (flow_handler_effect virq (regs s)) (handlers s)
                      (read ++ [EvHandleIrq virq])))).
Proof.
  intros svc group pin read. split.
  - intros Hg. unfold exynos_eint_gpio_irq, bind, readl.
    fold svc. fold group. rewrite Hg. reflexivity.
  - intros bank domain Hg Hbank Hdom virq.
    unfold exynos_eint_gpio_irq, bind, readl.
    fold svc. fold group. fold pin.
    destruct (Z.eqb_spec group 0) as [E | _]; [contradiction |].
    rewrite Hbank, Hdom. fold virq. split; intros Hv.
    + rewrite Hv. reflexivity.
    + destruct (Z.eqb_spec virq 0) as [E | _]; [contradiction |].
      reflexivity.
Qed.

(** *** The wake mask *)

(** C5. The wake mask starts with its 32 bits set. For a line whose
    position [2 * eint_offset + hwirq] is one of the 32 bits of the mask,
    enabling wake clears the bit at that position and disabling wake sets
    it, and every other bit of the mask is as before. *)
Theorem set_wake_one_bit (irqd : irq_data) (mask : Z) :
  let pos := 2 * eint_offset (irqd_bank irqd) + hwirq irqd in
  0 <= eint_offset (irqd_bank irqd) -> 0 <= hwirq irqd -> pos < 32 ->
  0 <= mask < 2 ^ 32 ->
  exynos_eint_wake_mask_init = Z.ones 32 /\
  (forall on, on <> 0 ->
     exists mask',
       exynos_wkup_irq_set_wake irqd on mask = Some (0, mask') /\
       forall j, 0 <= j ->
         Z.testbit mask' j = if j =? pos then false else Z.testbit mask j) /\
  (exists mask',
      exynos_wkup_irq_set_wake irqd 0 mask = Some (0, mask') /\
      forall j, 0 <= j ->
        Z.testbit mask' j = if j =? pos then true else Z.testbit mask j).
Proof.
  intros pos Hoff Hh Hpos Hmask.
  assert (Hn : ulong (u32 (2 * eint_offset (irqd_bank irqd)) + hwirq irqd)
               = pos).
  { rewrite u32_small by lia. apply ulong_small. lia. }
  assert (Hbit : ulong (Z.shiftl 1 pos) = 2 ^ pos).
  { rewrite Z.shiftl_1_l. apply ulong_small.
    split; [apply Z.pow_nonneg; lia | apply Z.pow_lt_mono_r; lia]. }
  split; [reflexivity |]. split.
  - intros on Hon. unfold exynos_wkup_irq_set_wake. rewrite Hn, Hbit.
    destruct (Z.leb_spec 64 pos); [lia |].
    destruct (Z.eqb_spec on 0); [contradiction |].
    eexists. split; [reflexivity |]. intros j Hj.
    rewrite u32_testbit, Z.land_spec, ulong_testbit, Z.lnot_spec by lia.
    rewrite Z.pow2_bits_eqb by lia.
    destruct (Z.eqb_spec j pos) as [-> | Hne].
    + rewrite Z.eqb_refl. cbn. now rewrite !andb_false_r.
    + destruct (Z.eqb_spec pos j); [lia |].
      destruct (Z.ltb_spec j 32).
      * destruct (Z.ltb_spec j 64); [| lia]. cbn.
        now rewrite andb_true_r.
      * cbn. symmetry. apply (testbit_high32 mask); lia.
  - unfold exynos_wkup_irq_set_wake. rewrite Hn, Hbit.
    destruct (Z.leb_spec 64 pos); [lia |]. cbn [Z.eqb].
    eexists. split; [reflexivity |]. intros j Hj.
    rewrite u32_testbit, Z.lor_spec, Z.pow2_bits_eqb by lia.
    destruct (Z.eqb_spec j pos) as [-> | Hne].
    + rewrite Z.eqb_refl, orb_true_r.
      destruct (Z.ltb_spec pos 32); [reflexivity | lia].
    + destruct (Z.eqb_spec pos j); [lia |]. rewrite orb_false_r.
      destruct (Z.ltb_spec j 32); [reflexivity |].
      cbn. symmetry. apply (testbit_high32 mask); lia.
Qed.

(** *** The filter configuration *)

Lemma lor_lt_pow2 (a b L : Z) :
  0 <= L -> 0 <= a < 2 ^ L -> 0 <= b < 2 ^ L -> 0 <= Z.lor a b < 2 ^ L.
Proof.
  intros HL Ha Hb.
  assert (Hnn : 0 <= Z.lor a b) by (apply Z.lor_nonneg; lia).
  split; [exact Hnn |].
  destruct (Z.eq_dec (Z.lor a b) 0) as [-> | Hne];
    [apply Z.pow_pos_nonneg; lia |].
  apply Z.log2_lt_pow2; [lia |].
  rewrite Z.log2_lor by lia.
  destruct (Z.eq_dec a 0) as [-> | Ha0];
    destruct (Z.eq_dec b 0) as [-> | Hb0].
  - cbn in Hne. contradiction.
  - rewrite Z.max_r by (cbn; apply Z.log2_nonneg).
    apply Z.log2_lt_pow2; lia.
  - rewrite Z.max_l by (cbn; apply Z.log2_nonneg).
    apply Z.log2_lt_pow2; lia.
  - apply Z.max_lub_lt; apply Z.log2_lt_pow2; lia.
Qed.

Lemma flt_con_of_range (en sel width : Z) :
  fltcon_ok ->
  0 <= flt_con_of en sel width < 2 ^ EXYNOS_EINT_FLTCON_LEN.
Proof.
  intros (HL & _ & Hen & Hsel & Hw).
  assert (H32 : 2 ^ EXYNOS_EINT_FLTCON_LEN <= 2 ^ 32)
    by (apply Z.pow_le_mono_r; lia).
  assert (Hz : 0 <= 0 < 2 ^ EXYNOS_EINT_FLTCON_LEN)
    by (split; [lia | apply Z.pow_pos_nonneg; lia]).
  assert (H0L : 0 <= EXYNOS_EINT_FLTCON_LEN) by lia.
  unfold flt_con_of.
  set (c1 := if en =? 0 then 0 else u32 (Z.lor 0 EXYNOS_EINT_FLTCON_EN)).
  assert (H1 : 0 <= c1 < 2 ^ EXYNOS_EINT_FLTCON_LEN).
  { unfold c1. destruct (en =? 0); [exact Hz |].
    rewrite Z.lor_0_l, u32_small; lia. }
  set (c2 := if sel =? 0 then c1
             else u32 (Z.lor c1 EXYNOS_EINT_FLTCON_SEL)).
  assert (H2 : 0 <= c2 < 2 ^ EXYNOS_EINT_FLTCON_LEN).
  { unfold c2. destruct (sel =? 0); [exact H1 |].
    pose proof (lor_lt_pow2 c1 EXYNOS_EINT_FLTCON_SEL
                  EXYNOS_EINT_FLTCON_LEN H0L H1 Hsel).
    rewrite u32_small; lia. }
  pose proof (lor_lt_pow2 c2 (EXYNOS_EINT_FLTCON_WIDTH width)
                EXYNOS_EINT_FLTCON_LEN H0L H2 (Hw width)).
  rewrite u32_small; lia.
Qed.

Lemma flt_turn_value_range (c i v : Z) :
  0 <= flt_turn_value c i v < 2 ^ 32.
Proof. unfold flt_turn_value. apply u32_range. Qed.

(** One turn puts the control word in the field of its pair and leaves
    the other fields as they are. *)
Lemma flt_turn_value_field (c i v k : Z) :
  fltcon_ok -> 0 <= c < 2 ^ EXYNOS_EINT_FLTCON_LEN ->
  0 <= v < 2 ^ 32 ->
  0 <= i -> (i + 1) * EXYNOS_EINT_FLTCON_LEN <= 32 ->
  0 <= k -> (k + 1) * EXYNOS_EINT_FLTCON_LEN <= 32 ->
  field (flt_turn_value c i v) (k * EXYNOS_EINT_FLTCON_LEN)
        EXYNOS_EINT_FLTCON_LEN =
  if k =? i then c
  else field v (k * EXYNOS_EINT_FLTCON_LEN) EXYNOS_EINT_FLTCON_LEN.
Proof.
  intros (HL & Hmask & _) Hc Hv Hi Hifit Hk Hkfit.
  set (L := EXYNOS_EINT_FLTCON_LEN) in *.
  assert (Hbits : forall j, 0 <= j ->
            Z.testbit (flt_turn_value c i v) j =
            (j <? 32) &&
            (if (i * L <=? j) && (j <? i * L + L)
             then Z.testbit c (j - i * L) else Z.testbit v j)).
  { intros j Hj. unfold flt_turn_value. fold L.
    rewrite (u32_small (i * L)) by nia.
    rewrite Hmask. apply rmw_testbit; nia. }
  destruct (Z.eqb_spec k i) as [-> | Hne].
  - apply field_eq; try nia. intros j Hj. rewrite Hbits by nia.
    destruct (Z.ltb_spec j 32); [| nia].
    destruct (Z.leb_spec (i * L) j); [| nia].
    destruct (Z.ltb_spec j (i * L + L)); [| nia].
    reflexivity.
  - apply field_ext; try nia. intros j Hj. rewrite Hbits by nia.
    destruct (Z.ltb_spec j 32); [| nia]. cbn [andb].
    destruct (Z.leb_spec (i * L) j); [| reflexivity].
    destruct (Z.ltb_spec j (i * L + L)); [| reflexivity].
    exfalso. nia.
Qed.

Lemma flt_loop_value_range (c from : Z) (count : nat) (v : Z) :
  0 <= v < 2 ^ 32 -> 0 <= flt_loop_value c from count v < 2 ^ 32.
Proof.
  revert from v. induction count as [| n IH]; intros from v Hv;
    [exact Hv |].
  cbn [flt_loop_value]. apply IH, flt_turn_value_range.
Qed.

(** After the loop, the fields of the pairs it went through hold the
    control word, and the other fields are as they were. *)
Lemma flt_loop_value_field (c from : Z) (count : nat) (v k : Z) :
  fltcon_ok -> 0 <= c < 2 ^ EXYNOS_EINT_FLTCON_LEN ->
  0 <= v < 2 ^ 32 ->
  0 <= from -> (from + Z.of_nat count) * EXYNOS_EINT_FLTCON_LEN <= 32 ->
  0 <= k -> (k + 1) * EXYNOS_EINT_FLTCON_LEN <= 32 ->
  field (flt_loop_value c from count v) (k * EXYNOS_EINT_FLTCON_LEN)
        EXYNOS_EINT_FLTCON_LEN =
  if (from <=? k) && (k <? from + Z.of_nat count) then c
  else field v (k * EXYNOS_EINT_FLTCON_LEN) EXYNOS_EINT_FLTCON_LEN.
Proof.
  intros Hok Hc. revert from v.
  induction count as [| n IH]; intros from v Hv Hfrom Hfit Hk Hkfit.
  - cbn [flt_loop_value].
    destruct (Z.leb_spec from k); [| reflexivity].
    destruct (Z.ltb_spec k (from + Z.of_nat 0)); [lia | reflexivity].
  - cbn [flt_loop_value].
    pose proof Hok as (HL & _).
    rewrite IH; try (apply flt_turn_value_range); try lia; try nia.
    rewrite flt_turn_value_field; try assumption; try nia.
    destruct (Z.eqb_spec k from) as [-> | Hne].
    + destruct (Z.leb_spec (from + 1) from); [lia |].
      destruct (Z.leb_spec from from); [| lia].
      destruct (Z.ltb_spec from (from + Z.of_nat (S n))); [| lia].
      reflexivity.
    + destruct (Z.leb_spec (from + 1) k);
        destruct (Z.leb_spec from k); try lia;
        destruct (Z.ltb_spec k (from + 1 + Z.of_nat n));
        destruct (Z.ltb_spec k (from + Z.of_nat (S n))); try lia;
        reflexivity.
Qed.

Lemma flt_config_step_run (A c i : Z) (s : state) :
  let v' := flt_turn_value c i (u32 (regs s A)) in
  flt_config_step A c i s =
  Some (tt, mk_state (upd (upd (regs s) A v') (A + 4) v') (handlers s)
                     (trace s ++ [EvReadl A (u32 (regs s A));
                                  EvWritel v' A; EvWritel v' (A + 4)])).
Proof.
  intros v'. unfold flt_config_step, bind, readl, writel.
  cbn [regs handlers trace]. fold (flt_turn_value c i (u32 (regs s A))).
  fold v'. rewrite <- !app_assoc. reflexivity.
Qed.

Lemma upd_same (f : Z -> Z) (a v : Z) : upd f a v a = v.
Proof. unfold upd. now rewrite Z.eqb_refl. Qed.

Lemma upd_other (f : Z -> Z) (a v a' : Z) : a' <> a -> upd f a v a' = f a'.
Proof.
  intros H. unfold upd. destruct (Z.eqb_spec a' a); [contradiction |].
  reflexivity.
Qed.

(** The loop of [exynos_eint_flt_config] on the register at [A]. *)
Lemma flt_loop_run (A c from : Z) (count : nat) (s : state) :
  exists s',
    for_up from count (flt_config_step A c) s = Some (tt, s') /\
    handlers s' = handlers s /\
    trace s' =
      trace s ++ flt_loop_events A c from count (u32 (regs s A)) /\
    (forall a, a <> A -> a <> A + 4 -> regs s' a = regs s a) /\
    (count <> O ->
     regs s' A = flt_loop_value c from count (u32 (regs s A)) /\
     regs s' (A + 4) = flt_loop_value c from count (u32 (regs s A))) /\
    (count = O -> s' = s).
Proof.
  revert from s. induction count as [| n IH]; intros from s.
  - exists s. cbn [for_up flt_loop_events]. rewrite app_nil_r.
    split; [reflexivity |]. split; [reflexivity |].
    split; [reflexivity |]. split; [reflexivity |].
    split; [intros H; now contradiction H | reflexivity].
  - cbn [for_up]. unfold bind at 1. rewrite flt_config_step_run.
    set (v' := flt_turn_value c from (u32 (regs s A))).
    set (s1 := mk_state _ _ _).
    destruct (IH (from + 1) s1) as (s' & Hrun & Hh & Ht & Hfr & Hv & Hs).
    assert (HA : regs s1 A = v').
    { unfold s1. cbn [regs]. rewrite upd_other by lia. apply upd_same. }
    assert (HA4 : regs s1 (A + 4) = v')
      by (unfold s1; cbn [regs]; apply upd_same).
    assert (Hu : u32 (regs s1 A) = v').
    { rewrite HA. apply u32_small, flt_turn_value_range. }
    exists s'. split; [exact Hrun |]. split; [exact Hh |]. split.
    { rewrite Ht, Hu. unfold s1. cbn [trace flt_loop_events].
      fold v'. rewrite <- app_assoc. reflexivity. }
    split.
    { intros a Ha Ha4. rewrite Hfr by assumption.
      unfold s1. cbn [regs]. now rewrite !upd_other by assumption. }
    split; [| discriminate].
    intros _. cbn [flt_loop_value]. fold v'.
    destruct n as [| n'].
    + rewrite (Hs eq_refl). cbn [flt_loop_value]. now split.
    + rewrite Hu in Hv. apply Hv. discriminate.
Qed.

(** The word [exynos_eint_flt_config] builds, lines 323 to 331, is the
    control word of the specification. *)
Lemma flt_con_of_control_word (en sel width : Z) :
  fltcon_ok ->
  flt_con_of en sel width = control_word en sel width.
Proof.
  intros (HL & _ & Hen & Hsel & Hw).
  assert (H32 : 2 ^ EXYNOS_EINT_FLTCON_LEN <= 2 ^ 32)
    by (apply Z.pow_le_mono_r; lia).
  assert (H0L : 0 <= EXYNOS_EINT_FLTCON_LEN) by lia.
  assert (Hz : 0 <= 0 < 2 ^ EXYNOS_EINT_FLTCON_LEN)
    by (split; [lia | apply Z.pow_pos_nonneg; lia]).
  pose proof (Hw width) as Hwd.
  pose proof (lor_lt_pow2 EXYNOS_EINT_FLTCON_EN EXYNOS_EINT_FLTCON_SEL
                EXYNOS_EINT_FLTCON_LEN H0L Hen Hsel) as Hes.
  unfold flt_con_of, control_word.
  destruct (en =? 0), (sel =? 0); rewrite ?Z.lor_0_l, ?Z.lor_0_r.
  - rewrite u32_small by lia. reflexivity.
  - rewrite (u32_small EXYNOS_EINT_FLTCON_SEL) by lia.
    pose proof (lor_lt_pow2 _ _ _ H0L Hsel Hwd).
    rewrite u32_small by lia. reflexivity.
  - rewrite (u32_small EXYNOS_EINT_FLTCON_EN) by lia.
    pose proof (lor_lt_pow2 _ _ _ H0L Hen Hwd).
    rewrite u32_small by lia. reflexivity.
  - rewrite (u32_small EXYNOS_EINT_FLTCON_EN) by lia.
    rewrite (u32_small (Z.lor _ EXYNOS_EINT_FLTCON_SEL)) by lia.
    pose proof (lor_lt_pow2 _ _ _ H0L Hes Hwd).
    rewrite u32_small by lia. reflexivity.
Qed.

(** C9. [exynos_eint_flt_config] builds one control word from the enable
    flag, the select flag and the width: the enable bit when the enable
    flag is set, the select bit when the select flag is set, and the
    width in its field. For each pin pair of the bank it reads the first
    filter register, puts the control word in the field of the pair, and
    writes the value to the first filter register and to the one four
    bytes on. When it returns, the field of every pin pair holds the
    control word in both registers; no other register has changed. *)
Theorem flt_config_programs_pairs
  (en sel width : Z) (bank : samsung_pin_bank) (s : state) :
  fltcon_ok ->
  0 <= pin_pairs bank ->
  pin_pairs bank * EXYNOS_EINT_FLTCON_LEN <= 32 ->
  let c := control_word en sel width in
  let A := flt_reg_of bank in
  flt_con_of en sel width = c /\
  exists s',
    exynos_eint_flt_config en sel width bank s = Some (tt, s') /\
    trace s' =
      trace s ++ flt_loop_events A c 0 (Z.to_nat (pin_pairs bank))
                                 (u32 (regs s A)) /\
    (forall i, 0 <= i < pin_pairs bank ->
       field (regs s' A) (i * EXYNOS_EINT_FLTCON_LEN)
             EXYNOS_EINT_FLTCON_LEN = c /\
       field (regs s' (A + 4)) (i * EXYNOS_EINT_FLTCON_LEN)
             EXYNOS_EINT_FLTCON_LEN = c) /\
    (forall a, a <> A -> a <> A + 4 -> regs s' a = regs s a) /\
    handlers s' = handlers s.
Proof.
  intros Hok Hp Hfit c A.
  assert (Hc : flt_con_of en sel width = c)
    by (apply flt_con_of_control_word; exact Hok).
  split; [exact Hc |].
  pose proof (flt_con_of_range en sel width Hok) as Hrange.
  unfold exynos_eint_flt_config. fold (pin_pairs bank).
  fold (flt_reg_of bank). fold A. rewrite Hc in *.
  destruct (flt_loop_run A c 0 (Z.to_nat (pin_pairs bank)) s)
    as (s' & Hrun & Hh & Ht & Hfr & Hv & _).
  exists s'. split; [exact Hrun |]. split; [exact Ht |].
  split; [| split; [exact Hfr | exact Hh]].
  intros i Hi.
  assert (Hn : Z.to_nat (pin_pairs bank) <> O) by lia.
  destruct (Hv Hn) as [-> ->].
  pose proof Hok as (HL & _).
  assert (Hf : field (flt_loop_value c 0 (Z.to_nat (pin_pairs bank))
                                     (u32 (regs s A)))
                     (i * EXYNOS_EINT_FLTCON_LEN) EXYNOS_EINT_FLTCON_LEN
               = c).
  { rewrite flt_loop_value_field;
      try (apply u32_range); try exact Hrange;
      try assumption; try lia; try nia.
    destruct (Z.leb_spec 0 i); [| lia].
    destruct (Z.ltb_spec i (0 + Z.of_nat (Z.to_nat (pin_pairs bank))));
      [reflexivity | lia]. }
  split; exact Hf.
Qed.

(** *** Initialisation and its unwinding *)

Lemma flt_loop_events_no_domain (A c from : Z) (count : nat) (v : Z) :
  filter is_domain_event (flt_loop_events A c from count v) = [].
Proof.
  revert from v. induction count as [| n IH]; intros from v;
    [reflexivity |].
  cbn [flt_loop_events filter is_domain_event]. apply IH.
Qed.

Lemma flt_config_run (en sel width : Z) (bank : samsung_pin_bank)
  (s : state) :
  exists s' evs,
    exynos_eint_flt_config en sel width bank s = Some (tt, s') /\
    trace s' = trace s ++ evs /\
    filter is_domain_event evs = [].
Proof.
  unfold exynos_eint_flt_config.
  match goal with
  | |- context [for_up ?f ?n (flt_config_step ?A ?c)] =>
    destruct (flt_loop_run A c f n s) as (s' & Hrun & _ & Ht & _)
  end.
  exists s'. eexists. split; [exact Hrun |]. split; [exact Ht |].
  apply flt_loop_events_no_domain.
Qed.

Lemma err_domains_run (done : list samsung_pin_bank) (s : state) :
  Forall gpio_has_domain done ->
  err_domains done s =
  Some (tt, mk_state (regs s) (handlers s)
                     (trace s ++ map EvDomainRemove (gpio_domains done))).
Proof.
  intros Hinv. revert s. induction Hinv as [| b done Hb Hinv IH]; intros s.
  - cbn. rewrite app_nil_r. now destruct s.
  - cbn [err_domains]. unfold gpio_domains. cbn [filter].
    fold (is_gpio b). destruct (is_gpio b) eqn:Hg.
    + destruct (Hb Hg) as (d & Hd & Hhost).
      unfold bind at 1. rewrite Hd. cbn [irq_domain_remove]. unfold emit.
      rewrite IH. cbn [regs handlers trace map]. rewrite Hhost.
      fold (gpio_domains done). rewrite <- app_assoc. reflexivity.
    + apply IH.
Qed.

(** The loop of [exynos_eint_gpio_init] returns, and when it returns a
    failure it has removed the domains it has created and those of the
    banks before, the last created first. *)
Lemma gpio_init_loop_run (p : platform) (rest : list samsung_pin_bank) :
  forall (i : nat) (done : list samsung_pin_bank) (s : state),
    Forall gpio_has_domain done ->
    exists r banks' s' evs new,
      gpio_init_loop p i done rest s = Some ((r, banks'), s') /\
      trace s' = trace s ++ evs /\
      (r = 0 /\ filter is_domain_event evs = map EvDomainAdd new \/
       (r = - ENXIO \/ r = - ENOMEM) /\
       filter is_domain_event evs =
       map EvDomainAdd new
           ++ map EvDomainRemove (rev new ++ gpio_domains done)).
Proof.
  induction rest as [| bank rest' IH]; intros i done s Hinv.
  - exists 0, (rev done), s, [], []. cbn. rewrite app_nil_r. auto.
  - cbn [gpio_init_loop]. fold (is_gpio bank).
    destruct (is_gpio bank) eqn:Hg; cbn [negb].
    2: { (* not a GPIO bank: continue *)
      assert (Hinv' : Forall gpio_has_domain (bank :: done)).
      { constructor; [| exact Hinv]. intros H. congruence. }
      destruct (IH (S i) (bank :: done) s Hinv')
        as (r & banks' & s' & evs & new & Hrun & Ht & Hres).
      exists r, banks', s', evs, new.
      split; [exact Hrun |]. split; [exact Ht |].
      unfold gpio_domains in *. cbn [filter] in Hres.
      rewrite Hg in Hres. exact Hres. }
    unfold bind at 1. unfold irq_domain_add_linear.
    destruct (domain_add_ok p i).
    2: { (* the domain is not created *)
      unfold ret at 1. unfold bind at 1. unfold emit at 1.
      unfold bind at 1. rewrite err_domains_run by exact Hinv.
      unfold ret. cbn [regs handlers trace].
      do 3 eexists.
      exists (EvErr "gpio irq domain add failed"
                :: map EvDomainRemove (gpio_domains done)), [].
      split; [reflexivity |]. split.
      { cbn [trace]. rewrite <- app_assoc. reflexivity. }
      right. split; [now left |].
      cbn [filter is_domain_event map rev app].
      clear. induction (gpio_domains done) as [| h l IHl];
        [reflexivity |].
      cbn [map filter is_domain_event]. now rewrite IHl. }
    unfold bind at 1. unfold emit at 1. unfold ret at 1.
    destruct (kzalloc_save_ok p i).
    + (* the bank is set up: continue *)
      set (bank2 := set_soc_priv _ _).
      unfold bind at 1.
      match goal with
      | |- context [exynos_eint_flt_config ?en ?sel ?w bank2 ?s1] =>
        destruct (flt_config_run en sel w bank2 s1)
          as (s2 & evs2 & Hflt & Ht2 & Hf2)
      end.
      rewrite Hflt.
      assert (Hinv' : Forall gpio_has_domain (bank2 :: done)).
      { constructor; [| exact Hinv]. intros _.
        eexists. split; reflexivity. }
      destruct (IH (S i) (bank2 :: done) s2 Hinv')
        as (r & banks' & s' & evs & new & Hrun & Ht & Hres).
      exists r, banks', s',
        (EvDomainAdd (name bank) :: evs2 ++ evs), (name bank :: new).
      split; [exact Hrun |]. split.
      { rewrite Ht, Ht2. cbn [trace]. rewrite <- !app_assoc.
        reflexivity. }
      assert (Hgd : gpio_domains (bank2 :: done)
                    = name bank :: gpio_domains done).
      { unfold gpio_domains. cbn [filter].
        change (is_gpio bank2) with (is_gpio bank). rewrite Hg.
        reflexivity. }
      rewrite Hgd in Hres.
      cbn [filter is_domain_event map rev]. rewrite filter_app, Hf2.
      cbn [app].
      destruct Hres as [[Hr Hf] | [Hr Hf]].
      * left. split; [exact Hr |]. now rewrite Hf.
      * right. split; [exact Hr |]. rewrite Hf, <- !app_assoc.
        reflexivity.
    + (* no memory for the saved registers *)
      unfold bind at 1. cbn [irq_domain_remove set_soc_priv
                             set_irq_domain bank_irq_domain].
      unfold emit at 1. unfold bind at 1.
      rewrite err_domains_run by exact Hinv.
      unfold ret. cbn [regs handlers trace domain_host].
      do 3 eexists.
      exists (EvDomainAdd (name bank) :: EvDomainRemove (name bank)
                :: map EvDomainRemove (gpio_domains done)),
             [name bank].
      split; [reflexivity |]. split.
      { cbn [trace]. rewrite <- !app_assoc. reflexivity. }
      right. split; [now right |].
      cbn [filter is_domain_event map rev app]. do 2 f_equal.
      clear. induction (gpio_domains done) as [| h l IHl];
        [reflexivity |].
      cbn [map filter is_domain_event]. now rewrite IHl.
Qed.

(** [exynos_eint_gpio_init] returns, and when it fails every domain it
    has created has been removed again, the last created first. *)
Lemma gpio_init_unwinds (p : platform) (pin_banks : list samsung_pin_bank)
  (s : state) :
  exists r banks' s' evs new,
    exynos_eint_gpio_init p pin_banks s = Some ((r, banks'), s') /\
    trace s' = trace s ++ evs /\
    (r = 0 /\ filter is_domain_event evs = map EvDomainAdd new \/
     (r = - EINVAL \/ r = - ENXIO \/ r = - ENOMEM) /\
     filter is_domain_event evs =
     map EvDomainAdd new ++ map EvDomainRemove (rev new)).
Proof.
  unfold exynos_eint_gpio_init.
  destruct (d_irq p =? 0).
  { do 3 eexists. exists [EvErr "irq number not available"], [].
    split; [reflexivity |]. split; [reflexivity |].
    right. split; [now left | reflexivity]. }
  destruct (request_irq_ret p =? 0); cbn [negb].
  2: { do 3 eexists. exists [EvErr "irq request failed"], [].
       split; [reflexivity |]. split; [reflexivity |].
       right. split; [right; now left | reflexivity]. }
  destruct (gpio_init_loop_run p pin_banks 0%nat [] s (Forall_nil _))
    as (r & banks' & s' & evs & new & Hrun & Ht & Hres).
  exists r, banks', s', evs, new.
  split; [exact Hrun |]. split; [exact Ht |].
  unfold gpio_domains in Hres. cbn [filter map] in Hres.
  rewrite app_nil_r in Hres.
  destruct Hres as [H | [[Hr | Hr] Hf]]; [now left | |];
    right; (split; [| exact Hf]); auto.
Qed.

Lemma flt_loop_events_no_remove (A c from : Z) (count : nat) (v : Z) :
  existsb is_domain_remove (flt_loop_events A c from count v) = false.
Proof.
  revert from v. induction count as [| n IH]; intros from v;
    [reflexivity |].
  cbn [flt_loop_events existsb is_domain_remove orb]. apply IH.
Qed.

Lemma wkup_bind_pins_run (p : platform) (i : nat) (count : nat) :
  forall (from : Z) (s : state),
  exists s' evs,
    for_up from count (wkup_bind_pin p i) s = Some (tt, s') /\
    trace s' = trace s ++ evs /\
    existsb is_domain_remove evs = false.
Proof.
  induction count as [| n IH]; intros from s.
  - exists s, []. cbn. now rewrite app_nil_r.
  - cbn [for_up]. unfold bind at 1. unfold wkup_bind_pin at 1.
    destruct (bank_irq p i from =? 0); unfold emit at 1;
      match goal with
      | |- context [for_up _ _ _ ?s1] =>
        destruct (IH (from + 1) s1) as (s' & evs & Hrun & Ht & Hn)
      end;
      exists s'; eexists (_ :: evs);
      (split; [exact Hrun |]);
      (split; [rewrite Ht; cbn [trace]; rewrite <- app_assoc;
               reflexivity |]);
      cbn [existsb is_domain_remove orb]; exact Hn.
Qed.

(** The first loop of [exynos_eint_wkup_init] removes no domain, however
    it leaves. *)
Lemma wkup_init_loop_no_remove (p : platform)
  (rest : list samsung_pin_bank) :
  forall (i : nat) (done : list samsung_pin_bank) (muxed : Z)
         (s : state) r s',
    wkup_init_loop p i done rest muxed s = Some (r, s') ->
    exists evs,
      trace s' = trace s ++ evs /\ existsb is_domain_remove evs = false.
Proof.
  induction rest as [| bank rest' IH]; intros i done muxed s r s' Hrun.
  - cbn in Hrun. injection Hrun as _ <-. exists [].
    now rewrite app_nil_r.
  - cbn [wkup_init_loop] in Hrun.
    destruct (eint_type_eqb (eint_type bank) EINT_TYPE_WKUP);
      cbn [negb] in Hrun; [| now apply IH in Hrun].
    unfold bind at 1 in Hrun.
    destruct (flt_config_run EXYNOS_EINT_FLTCON_EN EXYNOS_EINT_FLTCON_SEL
                             0 bank s) as (s1 & evs1 & Hflt & Ht1 & _).
    assert (Hn1 : existsb is_domain_remove evs1 = false).
    { revert Hflt Ht1. unfold exynos_eint_flt_config.
      match goal with
      | |- context [for_up ?f ?n (flt_config_step ?A ?c)] =>
        destruct (flt_loop_run A c f n s) as (s1' & Hr & _ & Ht & _)
      end.
      rewrite Hr. intros [= <-] Ht1. rewrite Ht in Ht1.
      apply app_inv_head in Ht1. subst evs1.
      apply flt_loop_events_no_remove. }
    rewrite Hflt in Hrun.
    unfold bind at 1 in Hrun. unfold irq_domain_add_linear in Hrun.
    destruct (domain_add_ok p i).
    2: { unfold ret at 1 in Hrun. unfold bind, emit, ret in Hrun.
         injection Hrun as _ <-. cbn [trace]. rewrite Ht1.
         eexists (evs1 ++ [_]). rewrite <- app_assoc.
         split; [reflexivity |].
         rewrite existsb_app, Hn1. reflexivity. }
    unfold bind at 1 in Hrun. unfold emit at 1 in Hrun.
    unfold ret at 1 in Hrun.
    destruct (has_interrupts p i); cbn [negb] in Hrun.
    2: { apply IH in Hrun. destruct Hrun as (evs & Ht & Hn).
         exists (evs1 ++ EvDomainAdd (name bank) :: evs).
         split.
         - rewrite Ht. cbn [trace]. rewrite Ht1, <- !app_assoc.
           reflexivity.
         - rewrite existsb_app, Hn1. cbn. exact Hn. }
    destruct (kzalloc_weint_ok p i); cbn [negb] in Hrun.
    2: { unfold bind, emit, ret in Hrun. injection Hrun as _ <-.
         cbn [trace]. rewrite Ht1.
         eexists (evs1 ++ [_; _]). rewrite <- !app_assoc.
         split; [reflexivity |].
         rewrite existsb_app, Hn1. reflexivity. }
    unfold bind at 1 in Hrun.
    match type of Hrun with
    | context [for_up ?f ?n _ ?s2] =>
      destruct (wkup_bind_pins_run p i n f s2)
        as (s3 & evs3 & Hpins & Ht3 & Hn3)
    end.
    rewrite Hpins in Hrun. apply IH in Hrun.
    destruct Hrun as (evs & Ht & Hn).
    exists (evs1 ++ EvDomainAdd (name bank) :: evs3 ++ evs).
    split.
    + rewrite Ht, Ht3. cbn [trace]. rewrite Ht1, <- !app_assoc.
      reflexivity.
    + rewrite existsb_app, Hn1. cbn. rewrite existsb_app, Hn3.
      exact Hn.
Qed.

(** The second loop of [exynos_eint_wkup_init] changes no register and
    records nothing; when all its stores are within the array it has
    stored every [EINT_TYPE_WKUP_MUX] bank, in the order of the table. *)
Lemma wkup_store_muxed_some (rest : list samsung_pin_bank) :
  forall (idx n : Z) (stored : list samsung_pin_bank) (s : state) l s',
    wkup_store_muxed rest idx n stored s = Some (l, s') ->
    s' = s /\ l = rev stored ++ filter is_wkup_mux rest.
Proof.
  induction rest as [| bank rest' IH]; intros idx n stored s l s' Hrun.
  - cbn in Hrun. injection Hrun as <- <-. now rewrite app_nil_r.
  - cbn [wkup_store_muxed filter] in *.
    destruct (is_wkup_mux bank); cbn [negb] in Hrun.
    + destruct ((0 <=? idx) && (idx <? n)); [| discriminate Hrun].
      apply IH in Hrun. destruct Hrun as [-> ->].
      split; [reflexivity |]. cbn [rev]. now rewrite <- app_assoc.
    + now apply IH in Hrun.
Qed.

(** [exynos_eint_wkup_init] never removes a domain: when the creation of
    a domain fails, the domains created for the banks before stay. *)
Lemma wkup_init_no_remove (p : platform)
  (pin_banks : list samsung_pin_bank) (s : state) r s' :
  exynos_eint_wkup_init p pin_banks s = Some (r, s') ->
  exists evs,
    trace s' = trace s ++ evs /\ existsb is_domain_remove evs = false.
Proof.
  unfold exynos_eint_wkup_init.
  destruct (wkup_np_found p); cbn [negb].
  2: { intros [= _ <-]. exists []. now rewrite app_nil_r. }
  unfold bind at 1.
  destruct (wkup_init_loop p 0 [] pin_banks 0 s)
    as [[[[early banks] muxed] s1] |] eqn:Hloop; [| discriminate].
  apply wkup_init_loop_no_remove in Hloop.
  destruct Hloop as (evs & Ht & Hn).
  destruct early as [e |].
  { intros [= _ <-]. now exists evs. }
  destruct (muxed =? 0).
  { intros [= _ <-]. now exists evs. }
  destruct (wkup_irq p =? 0).
  { unfold bind, emit, ret. intros [= _ <-]. cbn [trace].
    exists (evs ++ [EvErr "irq number for muxed EINTs not found"]).
    rewrite Ht, <- app_assoc. split; [reflexivity |].
    rewrite existsb_app, Hn. reflexivity. }
  destruct (kzalloc_muxed_ok p); cbn [negb].
  2: { unfold bind, emit, ret. intros [= _ <-]. cbn [trace].
       eexists (evs ++ [_]). rewrite Ht, <- app_assoc.
       split; [reflexivity |]. rewrite existsb_app, Hn. reflexivity. }
  unfold bind at 1. unfold emit at 1. unfold bind at 1.
  match goal with
  | |- context [wkup_store_muxed ?b ?i ?n ?st ?s2] =>
    destruct (wkup_store_muxed b i n st s2) as [[l s3] |] eqn:Hst;
      [| discriminate]
  end.
  apply wkup_store_muxed_some in Hst. destruct Hst as [-> _].
  unfold ret. intros [= _ <-]. cbn [trace].
  eexists (evs ++ [_]). rewrite Ht, <- app_assoc.
  split; [reflexivity |]. rewrite existsb_app, Hn. reflexivity.
Qed.

(** *** Suspend and resume *)

Lemma field_u32 (x shift L : Z) :
  0 <= shift -> 0 <= L -> shift + L <= 32 ->
  field (u32 x) shift L = field x shift L.
Proof.
  intros Hs HL Hfit. apply field_ext; try lia. intros j Hj.
  rewrite u32_testbit. destruct (Z.ltb_spec j 32); [reflexivity | lia].
Qed.

(** What [exynos_eint_flt_config] does to the register file. *)
Lemma flt_config_effect (en sel width : Z) (b : samsung_pin_bank)
  (s : state) :
  fltcon_ok -> pairs_fit b ->
  let c := flt_con_of en sel width in
  let A := flt_reg_of b in
  exists s',
    exynos_eint_flt_config en sel width b s = Some (tt, s') /\
    (forall a, ~ In a (flt_regs b) -> regs s' a = regs s a) /\
    (pin_pairs b = 0 -> forall a, regs s' a = regs s a) /\
    (0 < pin_pairs b ->
     forall a k, In a (flt_regs b) ->
       0 <= k -> (k + 1) * EXYNOS_EINT_FLTCON_LEN <= 32 ->
       field (regs s' a) (k * EXYNOS_EINT_FLTCON_LEN)
             EXYNOS_EINT_FLTCON_LEN =
       if k <? pin_pairs b then c
       else field (regs s A) (k * EXYNOS_EINT_FLTCON_LEN)
                  EXYNOS_EINT_FLTCON_LEN).
Proof.
  intros Hok (Hp & Hfit) c A.
  unfold exynos_eint_flt_config. fold (pin_pairs b).
  fold (flt_reg_of b). fold A. fold c.
  destruct (flt_loop_run A c 0 (Z.to_nat (pin_pairs b)) s)
    as (s' & Hrun & _ & _ & Hfr & Hv & Hs).
  exists s'. split; [exact Hrun |]. split.
  { intros a Ha. apply Hfr; intros ->; apply Ha; cbn; auto. }
  split.
  { intros H0 a. rewrite Hs; [reflexivity |]. rewrite H0. reflexivity. }
  intros Hpos a k Ha Hk Hkfit.
  assert (Hn : Z.to_nat (pin_pairs b) <> O) by lia.
  destruct (Hv Hn) as [HA HA4].
  pose proof Hok as (HL & _).
  assert (Hval :
    field (flt_loop_value c 0 (Z.to_nat (pin_pairs b)) (u32 (regs s A)))
          (k * EXYNOS_EINT_FLTCON_LEN) EXYNOS_EINT_FLTCON_LEN =
    if k <? pin_pairs b then c
    else field (regs s A) (k * EXYNOS_EINT_FLTCON_LEN)
               EXYNOS_EINT_FLTCON_LEN).
  { rewrite flt_loop_value_field;
      try (apply u32_range); try (apply flt_con_of_range);
      try assumption; try lia.
    rewrite Z2Nat.id by lia.
    destruct (Z.leb_spec 0 k); [| lia]. cbn [andb]. cbn [Z.add].
    destruct (Z.ltb_spec k (pin_pairs b)); [reflexivity |].
    apply field_u32; nia. }
  cbn in Ha. fold A in Ha. destruct Ha as [<- | [<- | []]].
  - rewrite HA. exact Hval.
  - rewrite HA4. exact Hval.
Qed.

(** A filter configuration with the control word [c], on a bank whose
    filter registers are those of [w] or apart from them, keeps the word
    in the fields of [w], and on [w] itself it puts it there. *)
Lemma flt_config_filter (en sel width : Z) (b w : samsung_pin_bank)
  (s s' : state) :
  fltcon_ok -> pairs_fit b -> pairs_fit w ->
  exynos_eint_flt_config en sel width b s = Some (tt, s') ->
  (flt_reg_of b = flt_reg_of w \/
   forall a, In a (flt_regs b) -> ~ In a (flt_regs w)) ->
  let c := flt_con_of en sel width in
  (filter_holds c w (regs s) -> filter_holds c w (regs s')) /\
  (b = w -> filter_holds c w (regs s')).
Proof.
  intros Hok Hb Hw Hrun Hap c.
  destruct (flt_config_effect en sel width b s Hok Hb)
    as (s1 & Hrun1 & Hfr & H0 & Hpos).
  rewrite Hrun in Hrun1. injection Hrun1 as <-.
  pose proof Hok as (HL & _).
  destruct Hw as (Hw0 & Hwfit). destruct Hb as (Hb0 & Hbfit).
  split.
  - intros Hh i Hi. destruct Hap as [Heq | Hdis].
    + destruct (Z.eq_dec (pin_pairs b) 0) as [Hz | Hnz].
      * rewrite !H0 by exact Hz. apply Hh, Hi.
      * rewrite <- Heq.
        rewrite !Hpos; try lia; try nia;
          try (now left); try (now right; left).
        destruct (Z.ltb_spec i (pin_pairs b)); [now split |].
        rewrite Heq. split; apply Hh, Hi.
    + rewrite !Hfr; [apply Hh, Hi | |].
      * intros Hin. apply (Hdis _ Hin). cbn. auto.
      * intros Hin. apply (Hdis _ Hin). cbn. auto.
  - intros -> i Hi.
    rewrite !Hpos; try lia; try nia;
          try (now left); try (now right; left).
    destruct (Z.ltb_spec i (pin_pairs w)); [now split | lia].
Qed.

Lemma flt_config_frame (en sel width : Z) (b : samsung_pin_bank)
  (s : state) :
  exists s',
    exynos_eint_flt_config en sel width b s = Some (tt, s') /\
    forall a, ~ In a (flt_regs b) -> regs s' a = regs s a.
Proof.
  unfold exynos_eint_flt_config. fold (flt_reg_of b).
  match goal with
  | |- context [for_up ?f ?n (flt_config_step ?A ?c)] =>
    destruct (flt_loop_run A c f n s) as (s' & Hrun & _ & _ & Hfr & _)
  end.
  exists s'. split; [exact Hrun |].
  intros a Ha. apply Hfr; intros ->; apply Ha; cbn; auto.
Qed.

Lemma gpio_not_wkup (b : samsung_pin_bank) :
  is_gpio b = true -> is_wkup b = false.
Proof. unfold is_gpio, is_wkup. now destruct (eint_type b). Qed.

Lemma suspend_bank_run (b : samsung_pin_bank) (s : state) :
  is_gpio b = true -> soc_priv b <> None ->
  exists s1,
    exynos_pinctrl_suspend_bank b s = Some (save_bank (regs s) b, s1) /\
    regs s1 = regs s.
Proof.
  intros Hg Hp. unfold exynos_pinctrl_suspend_bank, save_bank.
  rewrite Hg. destruct (soc_priv b); [| contradiction].
  unfold bind, readl, ret. cbn [regs handlers trace].
  eexists. split; reflexivity.
Qed.

Lemma suspend_bank_regs (b b1 : samsung_pin_bank) (s s1 : state) :
  exynos_pinctrl_suspend_bank b s = Some (b1, s1) -> regs s1 = regs s.
Proof.
  unfold exynos_pinctrl_suspend_bank.
  destruct (soc_priv b); [| discriminate].
  unfold bind, readl, ret. cbn [regs handlers trace].
  now intros [= _ <-].
Qed.

(** The loop of [exynos_pinctrl_suspend] returns, with the registers of
    every GPIO bank in its save slot; it changes filter registers of
    wakeup banks only. *)
Lemma suspend_banks_run (banks : list samsung_pin_bank) :
  forall s,
    (forall b, In b banks -> is_gpio b = true -> soc_priv b <> None) ->
    (forall g w, In g banks -> In w banks ->
       is_gpio g = true -> is_wkup w = true ->
       forall a, In a (gpio_regs g) -> ~ In a (flt_regs w)) ->
    exists s1,
      suspend_banks banks s = Some (map (save_bank (regs s)) banks, s1) /\
      forall a, (forall w, In w banks -> is_wkup w = true ->
                           ~ In a (flt_regs w)) ->
                regs s1 a = regs s a.
Proof.
  induction banks as [| b rest IH]; intros s Hpriv Hap.
  - exists s. split; [reflexivity | reflexivity].
  - assert (Hpriv' : forall b', In b' rest -> is_gpio b' = true ->
                                soc_priv b' <> None)
      by (intros; apply Hpriv; [now right | assumption]).
    assert (Hap' : forall g w, In g rest -> In w rest ->
              is_gpio g = true -> is_wkup w = true ->
              forall a, In a (gpio_regs g) -> ~ In a (flt_regs w))
      by (intros g w Hg Hw; apply Hap; now right).
    cbn [suspend_banks map]. fold (is_gpio b).
    destruct (is_gpio b) eqn:Hg.
    + destruct (suspend_bank_run b s Hg (Hpriv b (or_introl eq_refl) Hg))
        as (s0 & Hrun0 & Hr0).
      destruct (IH s0 Hpriv' Hap') as (s1 & Hrun1 & Hfr1).
      rewrite Hr0 in Hrun1.
      exists s1. split.
      * unfold bind at 1. rewrite Hrun0. unfold bind at 1.
        rewrite Hrun1. reflexivity.
      * intros a Ha. rewrite Hfr1, Hr0; [reflexivity |].
        intros w Hw. apply Ha. now right.
    + assert (Hsb : save_bank (regs s) b = b)
        by (unfold save_bank; now rewrite Hg).
      rewrite Hsb.
      destruct (is_wkup b) eqn:Hw.
      * destruct (flt_config_frame EXYNOS_EINT_FLTCON_EN 0 0 b s)
          as (s0 & Hrun0 & Hfr0).
        destruct (IH s0 Hpriv' Hap') as (s1 & Hrun1 & Hfr1).
        assert (Hmap : map (save_bank (regs s0)) rest
                       = map (save_bank (regs s)) rest).
        { apply map_ext_in. intros g Hgin. unfold save_bank.
          destruct (is_gpio g) eqn:Hgg; [| reflexivity].
          assert (Hgr : forall a, In a (gpio_regs g) ->
                                  regs s0 a = regs s a).
          { intros a Ha. apply Hfr0.
            apply (Hap g b); auto; [now right | now left]. }
          rewrite !Hgr by (cbn; auto). reflexivity. }
        rewrite Hmap in Hrun1.
        exists s1. split.
        -- unfold bind at 1. unfold bind at 1. rewrite Hrun0.
           unfold ret at 1. unfold bind at 1. rewrite Hrun1.
           reflexivity.
        -- intros a Ha. rewrite Hfr1, Hfr0; [reflexivity | |].
           ++ apply Ha; [now left | exact Hw].
           ++ intros w Hwin. apply Ha. now right.
      * destruct (IH s Hpriv' Hap') as (s1 & Hrun1 & Hfr1).
        exists s1. split.
        -- unfold bind at 1. unfold ret at 1. unfold bind at 1.
           rewrite Hrun1. reflexivity.
        -- intros a Ha. apply Hfr1. intros w Hwin. apply Ha. now right.
Qed.

(** The loop of [exynos_pinctrl_suspend] leaves the control word of the
    analog filter in the fields of a wakeup bank it goes through. *)
Lemma suspend_banks_filter (w : samsung_pin_bank)
  (banks : list samsung_pin_bank) :
  fltcon_ok -> pairs_fit w ->
  forall s banks1 s1,
    (forall b, In b banks -> is_wkup b = true ->
       pairs_fit b /\
       (flt_reg_of b = flt_reg_of w \/
        forall a, In a (flt_regs b) -> ~ In a (flt_regs w))) ->
    suspend_banks banks s = Some (banks1, s1) ->
    let c := flt_con_of EXYNOS_EINT_FLTCON_EN 0 0 in
    filter_holds c w (regs s) \/ In w banks /\ is_wkup w = true ->
    filter_holds c w (regs s1).
Proof.
  intros Hok Hwfit.
  induction banks as [| b rest IH]; intros s banks1 s1 Hb Hrun c Hpre.
  - cbn in Hrun. injection Hrun as _ <-.
    destruct Hpre as [H | [[] _]]. exact H.
  - assert (Hb' : forall b', In b' rest -> is_wkup b' = true ->
              pairs_fit b' /\
              (flt_reg_of b' = flt_reg_of w \/
               forall a, In a (flt_regs b') -> ~ In a (flt_regs w)))
      by (intros; apply Hb; [now right | assumption]).
    cbn [suspend_banks] in Hrun. fold (is_gpio b) in Hrun.
    unfold bind at 1 in Hrun.
    destruct (is_gpio b) eqn:Hg.
    + destruct (exynos_pinctrl_suspend_bank b s) as [[b1 s0] |] eqn:H0;
        [| discriminate].
      apply suspend_bank_regs in H0.
      unfold bind at 1 in Hrun.
      destruct (suspend_banks rest s0) as [[rest1 s1'] |] eqn:H1;
        [| discriminate].
      injection Hrun as _ <-.
      apply (IH s0 rest1 s1' Hb' H1). rewrite H0.
      destruct Hpre as [H | [[-> | Hin] Hw]]; [now left | | now right].
      rewrite (gpio_not_wkup w Hg) in Hw. discriminate.
    + destruct (is_wkup b) eqn:Hwk.
      * unfold bind at 1 in Hrun.
        destruct (exynos_eint_flt_config EXYNOS_EINT_FLTCON_EN 0 0 b s)
          as [[[] s0] |] eqn:H0; [| discriminate].
        unfold ret at 1 in Hrun. unfold bind at 1 in Hrun.
        destruct (suspend_banks rest s0) as [[rest1 s1'] |] eqn:H1;
          [| discriminate].
        injection Hrun as _ <-.
        destruct (Hb b (or_introl eq_refl) Hwk) as (Hbfit & Hbap).
        destruct (flt_config_filter _ _ _ b w s s0 Hok Hbfit Hwfit H0 Hbap)
          as (Hkeep & Hput).
        apply (IH s0 rest1 s1' Hb' H1).
        destruct Hpre as [H | [[-> | Hin] Hw]];
          [left; now apply Hkeep | left; now apply Hput | now right].
      * unfold ret at 1 in Hrun. unfold bind at 1 in Hrun.
        destruct (suspend_banks rest s) as [[rest1 s1'] |] eqn:H1;
          [| discriminate].
        injection Hrun as _ <-.
        apply (IH s rest1 s1' Hb' H1).
        destruct Hpre as [H | [[-> | Hin] Hw]]; [now left | | now right].
        congruence.
Qed.

Lemma resume_bank_run (g : samsung_pin_bank) (sv : exynos_eint_gpio_save)
  (s : state) :
  soc_priv g = Some sv ->
  exists s1,
    exynos_pinctrl_resume_bank g s = Some (tt, s1) /\
    regs s1 =
    upd (upd (upd (regs s) (gpio_con_reg g) (u32 (save_eint_con sv)))
             (gpio_flt0_reg g) (u32 (save_eint_fltcon0 sv)))
        (gpio_flt1_reg g) (u32 (save_eint_fltcon1 sv)).
Proof.
  intros Hp. unfold exynos_pinctrl_resume_bank. rewrite Hp.
  unfold bind, writel. cbn [regs handlers trace].
  eexists. split; reflexivity.
Qed.

(** The loop of [exynos_pinctrl_resume] returns when every GPIO bank has
    a save slot. *)
Lemma resume_banks_run (banks : list samsung_pin_bank) :
  forall s,
    (forall b, In b banks -> is_gpio b = true -> soc_priv b <> None) ->
    exists s2, resume_banks banks s = Some (tt, s2).
Proof.
  induction banks as [| b rest IH]; intros s Hpriv.
  - exists s. reflexivity.
  - assert (Hpriv' : forall b', In b' rest -> is_gpio b' = true ->
                                soc_priv b' <> None)
      by (intros; apply Hpriv; [now right | assumption]).
    cbn [resume_banks]. fold (is_gpio b). unfold bind at 1.
    destruct (is_gpio b) eqn:Hg.
    + destruct (soc_priv b) as [sv |] eqn:Hsv;
        [| now destruct (Hpriv b (or_introl eq_refl) Hg)].
      destruct (resume_bank_run b sv s Hsv) as (s0 & Hrun0 & _).
      rewrite Hrun0. apply IH, Hpriv'.
    + destruct (is_wkup b).
      * destruct (flt_config_frame EXYNOS_EINT_FLTCON_EN
                    EXYNOS_EINT_FLTCON_SEL 0 b s) as (s0 & Hrun0 & _).
        rewrite Hrun0. apply IH, Hpriv'.
      * unfold ret at 1. apply IH, Hpriv'.
Qed.

(** After the loop of [exynos_pinctrl_resume], a register that no wakeup
    bank filters and to which the GPIO banks write [v] holds [v], when it
    held [v] before or a GPIO bank writes to it. *)
Lemma resume_banks_gpio (a v : Z) (banks : list samsung_pin_bank) :
  forall s s2,
    resume_banks banks s = Some (tt, s2) ->
    (forall w, In w banks -> is_wkup w = true -> ~ In a (flt_regs w)) ->
    (forall g sv, In g banks -> is_gpio g = true ->
                  soc_priv g = Some sv -> writes_agree g sv a v) ->
    regs s a = v \/
    (exists g, In g banks /\ is_gpio g = true /\ In a (gpio_regs g)) ->
    regs s2 a = v.
Proof.
  induction banks as [| b rest IH]; intros s s2 Hrun Hwk Hag Hpre.
  - cbn in Hrun. injection Hrun as <-.
    destruct Hpre as [H | (g & [] & _)]. exact H.
  - assert (Hwk' : forall w, In w rest -> is_wkup w = true ->
                             ~ In a (flt_regs w))
      by (intros; apply Hwk; [now right | assumption]).
    assert (Hag' : forall g sv, In g rest -> is_gpio g = true ->
              soc_priv g = Some sv -> writes_agree g sv a v)
      by (intros g sv Hin; apply Hag; now right).
    cbn [resume_banks] in Hrun. fold (is_gpio b) in Hrun.
    unfold bind at 1 in Hrun.
    destruct (is_gpio b) eqn:Hg.
    + destruct (soc_priv b) as [sv |] eqn:Hsv.
      2: { unfold exynos_pinctrl_resume_bank in Hrun.
           rewrite Hsv in Hrun. discriminate. }
      destruct (resume_bank_run b sv s Hsv) as (s0 & Hrun0 & Hr0).
      rewrite Hrun0 in Hrun.
      apply (IH s0 s2 Hrun Hwk' Hag').
      destruct (Hag b sv (or_introl eq_refl) Hg Hsv) as (Hc & H0 & H1).
      assert (Hhere : regs s a = v \/ In a (gpio_regs b) ->
                      regs s0 a = v).
      { intros Hor. rewrite Hr0. unfold upd.
        destruct (Z.eqb_spec a (gpio_flt1_reg b)) as [E | N1];
          [now apply H1 |].
        destruct (Z.eqb_spec a (gpio_flt0_reg b)) as [E | N0];
          [now apply H0 |].
        destruct (Z.eqb_spec a (gpio_con_reg b)) as [E | Nc];
          [now apply Hc |].
        destruct Hor as [H | Hin]; [exact H |].
        cbn in Hin. destruct Hin as [E | [E | [E | []]]]; congruence. }
      destruct Hpre as [H | (g & [-> | Hin] & Hgg & Hina)].
      * left. apply Hhere. now left.
      * left. apply Hhere. now right.
      * right. now exists g.
    + assert (Hpre' : forall s0, regs s0 a = regs s a ->
                regs s0 a = v \/
                (exists g, In g rest /\ is_gpio g = true /\
                           In a (gpio_regs g))).
      { intros s0 Hs0.
        destruct Hpre as [H | (g & [-> | Hin] & Hgg & Hina)].
        - left. congruence.
        - congruence.
        - right. now exists g. }
      destruct (is_wkup b) eqn:Hw.
      * destruct (flt_config_frame EXYNOS_EINT_FLTCON_EN
                    EXYNOS_EINT_FLTCON_SEL 0 b s) as (s0 & Hrun0 & Hfr0).
        rewrite Hrun0 in Hrun.
        apply (IH s0 s2 Hrun Hwk' Hag'). apply Hpre'.
        apply Hfr0. apply Hwk; [now left | exact Hw].
      * unfold ret at 1 in Hrun.
        apply (IH s s2 Hrun Hwk' Hag'). now apply Hpre'.
Qed.

(** The loop of [exynos_pinctrl_resume] leaves the control word of the
    digital filter in the fields of a wakeup bank it goes through. *)
Lemma resume_banks_filter (w : samsung_pin_bank)
  (banks : list samsung_pin_bank) :
  fltcon_ok -> pairs_fit w ->
  forall s s2,
    (forall b, In b banks -> is_wkup b = true ->
       pairs_fit b /\
       (flt_reg_of b = flt_reg_of w \/
        forall a, In a (flt_regs b) -> ~ In a (flt_regs w))) ->
    (forall g, In g banks -> is_gpio g = true ->
       forall a, In a (gpio_regs g) -> ~ In a (flt_regs w)) ->
    resume_banks banks s = Some (tt, s2) ->
    let c := flt_con_of EXYNOS_EINT_FLTCON_EN EXYNOS_EINT_FLTCON_SEL 0 in
    filter_holds c w (regs s) \/ In w banks /\ is_wkup w = true ->
    filter_holds c w (regs s2).
Proof.
  intros Hok Hwfit.
  induction banks as [| b rest IH]; intros s s2 Hb Hgp Hrun c Hpre.
  - cbn in Hrun. injection Hrun as <-.
    destruct Hpre as [H | [[] _]]. exact H.
  - assert (Hb' : forall b', In b' rest -> is_wkup b' = true ->
              pairs_fit b' /\
              (flt_reg_of b' = flt_reg_of w \/
               forall a, In a (flt_regs b') -> ~ In a (flt_regs w)))
      by (intros; apply Hb; [now right | assumption]).
    assert (Hgp' : forall g, In g rest -> is_gpio g = true ->
              forall a, In a (gpio_regs g) -> ~ In a (flt_regs w))
      by (intros g Hin; apply Hgp; now right).
    cbn [resume_banks] in Hrun. fold (is_gpio b) in Hrun.
    unfold bind at 1 in Hrun.
    destruct (is_gpio b) eqn:Hg.
    + destruct (soc_priv b) as [sv |] eqn:Hsv.
      2: { unfold exynos_pinctrl_resume_bank in Hrun.
           rewrite Hsv in Hrun. discriminate. }
      destruct (resume_bank_run b sv s Hsv) as (s0 & Hrun0 & Hr0).
      rewrite Hrun0 in Hrun.
      apply (IH s0 s2 Hb' Hgp' Hrun).
      destruct Hpre as [H | [[-> | Hin] Hw]]; [| | now right].
      * left. intros i Hi.
        assert (Hsame : forall x, In x (flt_regs w) ->
                                  regs s0 x = regs s x).
        { intros x Hx. rewrite Hr0.
          pose proof (Hgp b (or_introl eq_refl) Hg) as Hap.
          rewrite !upd_other; [reflexivity | | |];
            intros ->; (eapply Hap; [| exact Hx]); cbn; auto. }
        rewrite !Hsame by (cbn; auto). apply H, Hi.
      * rewrite (gpio_not_wkup w Hg) in Hw. discriminate.
    + destruct (is_wkup b) eqn:Hwk.
      * destruct (exynos_eint_flt_config EXYNOS_EINT_FLTCON_EN
                    EXYNOS_EINT_FLTCON_SEL 0 b s)
          as [[[] s0] |] eqn:H0; [| discriminate].
        destruct (Hb b (or_introl eq_refl) Hwk) as (Hbfit & Hbap).
        destruct (flt_config_filter _ _ _ b w s s0 Hok Hbfit Hwfit H0 Hbap)
          as (Hkeep & Hput).
        apply (IH s0 s2 Hb' Hgp' Hrun).
        destruct Hpre as [H | [[-> | Hin] Hw]];
          [left; now apply Hkeep | left; now apply Hput | now right].
      * unfold ret at 1 in Hrun.
        apply (IH s s2 Hb' Hgp' Hrun).
        destruct Hpre as [H | [[-> | Hin] Hw]]; [now left | | now right].
        congruence.
Qed.

Lemma save_bank_fields (r : Z -> Z) (b : samsung_pin_bank) :
  eint_type (save_bank r b) = eint_type b /\
  eint_offset (save_bank r b) = eint_offset b /\
  nr_pins (save_bank r b) = nr_pins b.
Proof. unfold save_bank. destruct (is_gpio b); cbn; auto. Qed.

Lemma save_bank_is_gpio (r : Z -> Z) (b : samsung_pin_bank) :
  is_gpio (save_bank r b) = is_gpio b.
Proof.
  unfold is_gpio. now destruct (save_bank_fields r b) as (-> & _).
Qed.

Lemma save_bank_is_wkup (r : Z -> Z) (b : samsung_pin_bank) :
  is_wkup (save_bank r b) = is_wkup b.
Proof.
  unfold is_wkup. now destruct (save_bank_fields r b) as (-> & _).
Qed.

Lemma save_bank_flt_regs (r : Z -> Z) (b : samsung_pin_bank) :
  flt_reg_of (save_bank r b) = flt_reg_of b /\
  flt_regs (save_bank r b) = flt_regs b /\
  pin_pairs (save_bank r b) = pin_pairs b.
Proof.
  unfold flt_regs, flt_reg_of, pin_pairs.
  now destruct (save_bank_fields r b) as (_ & -> & ->).
Qed.

Lemma save_bank_gpio_regs (r : Z -> Z) (b : samsung_pin_bank) :
  gpio_con_reg (save_bank r b) = gpio_con_reg b /\
  gpio_flt0_reg (save_bank r b) = gpio_flt0_reg b /\
  gpio_flt1_reg (save_bank r b) = gpio_flt1_reg b.
Proof.
  unfold gpio_con_reg, gpio_flt0_reg, gpio_flt1_reg.
  now destruct (save_bank_fields r b) as (_ & -> & _).
Qed.

Lemma save_bank_wkup (r : Z -> Z) (w : samsung_pin_bank) :
  is_wkup w = true -> save_bank r w = w.
Proof.
  intros Hw. unfold save_bank.
  destruct (is_gpio w) eqn:Hg; [| reflexivity].
  rewrite (gpio_not_wkup w Hg) in Hw. discriminate.
Qed.

(** X19. For banks whose registers are apart, a suspend followed
    by a resume returns and leaves the control register and the two
    filter registers of every GPIO bank with the 32 bits they had before
    the suspend. For every wakeup bank, direct or muxed, the fields of the
    pin pairs hold after the suspend the control word of the analog
    filter (enabled, select flag clear, width 0), and after the resume
    the control word of the digital filter (enabled, select flag set,
    width 0), the one the initialisation programs. *)
Theorem suspend_resume_registers
  (pin_banks : list samsung_pin_bank) (s : state) :
  fltcon_ok -> banks_apart pin_banks -> pin_banks <> [] ->
  (forall g, In g pin_banks -> is_gpio g = true -> soc_priv g <> None) ->
  (forall w, In w pin_banks -> is_wkup w = true -> pairs_fit w) ->
  let saved := map (save_bank (regs s)) pin_banks in
  exists s1 s2,
    exynos_pinctrl_suspend pin_banks s = Some (saved, s1) /\
    exynos_pinctrl_resume saved s1 = Some (tt, s2) /\
    (forall g, In g pin_banks -> is_gpio g = true ->
       forall a, In a (gpio_regs g) -> regs s2 a = u32 (regs s a)) /\
    (forall w, In w pin_banks -> is_wkup w = true ->
       filter_holds (control_word EXYNOS_EINT_FLTCON_EN 0 0) w (regs s1) /\
       filter_holds
         (control_word EXYNOS_EINT_FLTCON_EN EXYNOS_EINT_FLTCON_SEL 0) w
         (regs s2)).
Proof.
  intros Hok (Hap1 & Hap2) Hne Hpriv Hfit saved.
  rewrite <- !(flt_con_of_control_word _ _ _ Hok).
  destruct (suspend_banks_run pin_banks s Hpriv Hap1)
    as (s1 & Hrun1 & Hfr1).
  fold saved in Hrun1.
  assert (Hin_saved : forall b1, In b1 saved ->
            exists b, In b pin_banks /\ b1 = save_bank (regs s) b).
  { intros b1 Hb1. apply in_map_iff in Hb1.
    destruct Hb1 as (b & <- & Hb). now exists b. }
  assert (Hpriv1 : forall b1, In b1 saved -> is_gpio b1 = true ->
                              soc_priv b1 <> None).
  { intros b1 Hb1 Hg. destruct (Hin_saved b1 Hb1) as (b & Hb & ->).
    rewrite save_bank_is_gpio in Hg. unfold save_bank. rewrite Hg.
    discriminate. }
  destruct (resume_banks_run saved s1 Hpriv1) as (s2 & Hrun2).
  exists s1, s2.
  split.
  { destruct pin_banks; [contradiction | exact Hrun1]. }
  split.
  { unfold exynos_pinctrl_resume.
    destruct saved eqn:Hs; [| exact Hrun2].
    destruct pin_banks; [contradiction | discriminate]. }
  split.
  - intros g Hg Hgg a Ha.
    apply (resume_banks_gpio a (u32 (regs s a)) saved s1 s2 Hrun2).
    + intros w1 Hw1 Hwk. destruct (Hin_saved w1 Hw1) as (w & Hw & ->).
      rewrite save_bank_is_wkup in Hwk.
      destruct (save_bank_flt_regs (regs s) w) as (_ & -> & _).
      now apply (Hap1 g w).
    + intros g1 sv Hg1 Hgg1 Hsv.
      destruct (Hin_saved g1 Hg1) as (g' & Hg' & ->).
      rewrite save_bank_is_gpio in Hgg1.
      destruct (save_bank_gpio_regs (regs s) g') as (Hc & H0 & H1).
      unfold writes_agree. rewrite Hc, H0, H1.
      unfold save_bank in Hsv. rewrite Hgg1 in Hsv. cbn in Hsv.
      injection Hsv as <-. cbn.
      repeat split; intros <-; apply u32_idem.
    + right. exists (save_bank (regs s) g).
      split; [now apply in_map |]. split.
      * now rewrite save_bank_is_gpio.
      * unfold gpio_regs.
        destruct (save_bank_gpio_regs (regs s) g) as (-> & -> & ->).
        exact Ha.
  - intros w Hw Hwk.
    assert (Hwfit : pairs_fit w) by now apply Hfit.
    split.
    + apply (suspend_banks_filter w pin_banks Hok Hwfit s saved s1).
      * intros b Hb Hbk. split; [now apply Hfit |].
        now apply (Hap2 w b).
      * exact Hrun1.
      * right. now split.
    + apply (resume_banks_filter w saved Hok Hwfit s1 s2).
      * intros b1 Hb1 Hbk. destruct (Hin_saved b1 Hb1) as (b & Hb & ->).
        rewrite save_bank_is_wkup in Hbk.
        destruct (save_bank_flt_regs (regs s) b) as (-> & -> & Hpp).
        split.
        -- unfold pairs_fit. rewrite Hpp. now apply Hfit.
        -- now apply (Hap2 w b).
      * intros g1 Hg1 Hgg1. destruct (Hin_saved g1 Hg1) as (g & Hg & ->).
        rewrite save_bank_is_gpio in Hgg1.
        unfold gpio_regs.
        destruct (save_bank_gpio_regs (regs s) g) as (-> & -> & ->).
        now apply (Hap1 g w).
      * exact Hrun2.
      * right. split; [| exact Hwk].
        rewrite <- (save_bank_wkup (regs s) w Hwk). now apply in_map.
Qed.

(** *** Further properties: masking and unmasking *)

Lemma set_mask_testbit (i j : Z) :
  0 <= i < 32 -> 0 <= j < 32 ->
  Z.testbit (ulong (int_shl 1 i)) j = (j =? i).
Proof.
  intros Hi Hj. rewrite ulong_testbit.
  destruct (Z.ltb_spec j 64); [| lia]. cbn [andb].
  unfold int_shl. rewrite s32_testbit_low by lia.
  rewrite Z.shiftl_1_l. rewrite Z.pow2_bits_eqb by lia.
  apply Z.eqb_sym.
Qed.

Lemma mask_value (m h : Z) :
  0 <= m < 2 ^ 32 -> 0 <= h < 32 ->
  u32 (Z.lor m (ulong (int_shl 1 h))) = Z.setbit m h.
Proof.
  intros Hm Hh. apply Z.bits_inj'. intros j Hj.
  rewrite u32_testbit, Z.lor_spec, Z.setbit_eqb by lia.
  destruct (Z.ltb_spec j 32) as [Hlt | Hge].
  - rewrite set_mask_testbit by lia. cbn [andb].
    rewrite (Z.eqb_sym j h). apply orb_comm.
  - rewrite (testbit_high32 m j Hm) by lia.
    destruct (Z.eqb_spec h j); [lia | reflexivity].
Qed.

(** What [exynos_irq_mask] leaves: the machine with the bit of the line
    set in the mask register. *)
Lemma mask_run (irqd : irq_data) (s : state) :
  0 <= hwirq irqd < 32 ->
  let bank := irqd_bank irqd in
  let reg_mask := ulong (eint_mask (irqd_chip irqd) + eint_offset bank) in
  let m := u32 (regs s reg_mask) in
  exynos_irq_mask irqd s =
  Some (tt, mk_state (upd (regs s) reg_mask (Z.setbit m (hwirq irqd)))
                     (handlers s)
                     (trace s ++ [EvSpinLock (name bank); EvReadl reg_mask m;
                                  EvWritel (Z.setbit m (hwirq irqd)) reg_mask;
                                  EvSpinUnlock (name bank)])).
Proof.
  intros Hh bank reg_mask m.
  assert (Hm : 0 <= m < 2 ^ 32) by apply u32_range.
  assert (Hset : 0 <= Z.setbit m (hwirq irqd) < 2 ^ 32).
  { rewrite <- (mask_value m (hwirq irqd) Hm Hh). apply u32_range. }
  unfold exynos_irq_mask, bind, writel, readl, spin_lock_irqsave,
    spin_unlock_irqrestore, emit.
  cbn [regs handlers trace]. fold bank. fold reg_mask. fold m.
  assert (Hv : u32 (Z.lor m (ulong (int_shl 1 (hwirq irqd))))
               = Z.setbit m (hwirq irqd)).
  { apply Z.bits_inj'. intros j Hj.
    rewrite u32_testbit.
    destruct (Z.ltb_spec j 32) as [Hlt | Hge].
    - cbn [andb]. rewrite <- (mask_value m (hwirq irqd) Hm Hh).
      rewrite u32_testbit.
      destruct (Z.ltb_spec j 32); [reflexivity | lia].
    - symmetry. apply (testbit_high32 _ j Hset). lia. }
  rewrite Hv. rewrite <- !app_assoc. reflexivity.
Qed.

(** What [exynos_irq_unmask] leaves when the pending register of the
    line is not its mask register: the mask register with the bit of the
    line cleared; the other registers but the pending register, and the
    handlers, are as before. *)
Lemma unmask_run (irqd : irq_data) (s : state) :
  0 <= hwirq irqd < 32 ->
  let bank := irqd_bank irqd in
  let reg_pend := ulong (eint_pend (irqd_chip irqd) + eint_offset bank) in
  let reg_mask := ulong (eint_mask (irqd_chip irqd) + eint_offset bank) in
  reg_pend <> reg_mask ->
  exists s',
    exynos_irq_unmask irqd s = Some (tt, s') /\
    regs s' reg_mask = Z.clearbit (u32 (regs s reg_mask)) (hwirq irqd) /\
    (forall a, a <> reg_mask -> a <> reg_pend -> regs s' a = regs s a) /\
    handlers s' = handlers s.
Proof.
  intros Hh bank reg_pend reg_mask Hne.
  unfold exynos_irq_unmask.
  destruct (Z.land (irqd_trigger_type irqd) IRQ_TYPE_LEVEL_MASK =? 0).
  - unfold bind, ret, writel, readl, spin_lock_irqsave,
      spin_unlock_irqrestore, emit.
    cbn [regs handlers trace]. fold bank. fold reg_mask.
    rewrite unmask_value by (auto using u32_range).
    eexists. split; [reflexivity |]. cbn [regs handlers].
    split; [apply upd_same |]. split; [| reflexivity].
    intros a Ha _. now apply upd_other.
  - unfold exynos_irq_ack, bind, writel, readl, spin_lock_irqsave,
      spin_unlock_irqrestore, emit.
    cbn [regs handlers trace]. fold bank. fold reg_pend. fold reg_mask.
    rewrite unmask_value by (auto using u32_range).
    eexists. split; [reflexivity |]. cbn [regs handlers].
    split.
    + rewrite upd_same. rewrite (upd_other _ reg_pend) by congruence.
      reflexivity.
    + split; [| reflexivity].
      intros a Ha Hp. rewrite upd_other by exact Ha.
      now apply upd_other.
Qed.

(** X1. For a line of a bank, [exynos_irq_mask] takes the lock of the
    bank, reads the mask register, writes it back with the bit of the
    line set and releases the lock: the bit of the line is set, every
    other bit of the mask register and every other register are as
    before, and so are the flow handlers. This holds for line 31 too,
    where [1 << 31] is a negative [int]. *)
Theorem mask_sets_line_bit (irqd : irq_data) (s : state) :
  0 <= hwirq irqd < 32 ->
  let bank := irqd_bank irqd in
  let reg_mask := ulong (eint_mask (irqd_chip irqd) + eint_offset bank) in
  let m := u32 (regs s reg_mask) in
  exists s',
    exynos_irq_mask irqd s = Some (tt, s') /\
    trace s' = trace s ++ [EvSpinLock (name bank); EvReadl reg_mask m;
                           EvWritel (regs s' reg_mask) reg_mask;
                           EvSpinUnlock (name bank)] /\
    (forall j, 0 <= j ->
       Z.testbit (regs s' reg_mask) j =
       if j =? hwirq irqd then true else Z.testbit m j) /\
    (forall a, a <> reg_mask -> regs s' a = regs s a) /\
    handlers s' = handlers s.
Proof.
  intros Hh bank reg_mask m.
  eexists. split; [apply (mask_run irqd s Hh) |].
  cbn [regs handlers trace]. fold bank. fold reg_mask. fold m.
  rewrite upd_same.
  split; [reflexivity |]. split; [| split; [| reflexivity]].
  - intros j Hj. rewrite Z.setbit_eqb by lia.
    rewrite (Z.eqb_sym j). destruct (hwirq irqd =? j); reflexivity.
  - intros a Ha. now apply upd_other.
Qed.

(** X2. Two lines of one bank, or one line twice: after the first is
    masked and the second unmasked, the mask register has the bit of the
    second line clear, the bit of the first line set if it is another
    line, and every other bit as before; after the second is unmasked and
    the first masked, the bit of the first line is set, the bit of the
    second line clear if it is another line, and every other bit as
    before. The later call decides its own line and leaves the other
    line as the earlier call left it. *)
Theorem mask_unmask_lines (i1 i2 : irq_data) (s : state) :
  0 <= hwirq i1 < 32 -> 0 <= hwirq i2 < 32 ->
  irqd_chip i1 = irqd_chip i2 -> irqd_bank i1 = irqd_bank i2 ->
  let bank := irqd_bank i1 in
  let reg_pend := ulong (eint_pend (irqd_chip i1) + eint_offset bank) in
  let reg_mask := ulong (eint_mask (irqd_chip i1) + eint_offset bank) in
  reg_pend <> reg_mask ->
  let m := u32 (regs s reg_mask) in
  (exists s1 s2,
      exynos_irq_mask i1 s = Some (tt, s1) /\
      exynos_irq_unmask i2 s1 = Some (tt, s2) /\
      forall j, 0 <= j ->
        Z.testbit (regs s2 reg_mask) j =
        if j =? hwirq i2 then false
        else if j =? hwirq i1 then true else Z.testbit m j) /\
  (exists s1 s2,
      exynos_irq_unmask i2 s = Some (tt, s1) /\
      exynos_irq_mask i1 s1 = Some (tt, s2) /\
      forall j, 0 <= j ->
        Z.testbit (regs s2 reg_mask) j =
        if j =? hwirq i1 then true
        else if j =? hwirq i2 then false else Z.testbit m j).
Proof.
  intros H1 H2 Hchip Hbank bank reg_pend reg_mask Hne m.
  assert (Hm : 0 <= m < 2 ^ 32) by apply u32_range.
  split.
  - pose proof (mask_run i1 s H1) as Hrun1.
    cbv zeta in Hrun1. fold bank in Hrun1. fold reg_mask in Hrun1.
    fold m in Hrun1.
    set (s1 := mk_state (upd (regs s) reg_mask (Z.setbit m (hwirq i1)))
                        (handlers s)
                        (trace s ++ [EvSpinLock (name bank);
                                     EvReadl reg_mask m;
                                     EvWritel (Z.setbit m (hwirq i1)) reg_mask;
                                     EvSpinUnlock (name bank)])) in *.
    destruct (unmask_run i2 s1 H2) as (s2 & Hrun2 & Hreg & _).
    { rewrite <- Hchip, <- Hbank. exact Hne. }
    rewrite <- Hchip, <- Hbank in Hreg. fold bank in Hreg.
    fold reg_mask in Hreg.
    exists s1, s2. split; [exact Hrun1 |]. split; [exact Hrun2 |].
    intros j Hj. rewrite Hreg. unfold s1. cbn [regs]. rewrite upd_same.
    assert (Hset : 0 <= Z.setbit m (hwirq i1) < 2 ^ 32).
    { rewrite <- (mask_value m (hwirq i1) Hm H1). apply u32_range. }
    rewrite (u32_small _ Hset).
    rewrite Z.clearbit_eqb, Z.setbit_eqb by lia.
    rewrite (Z.eqb_sym j (hwirq i2)), (Z.eqb_sym j (hwirq i1)).
    destruct (hwirq i2 =? j), (hwirq i1 =? j), (Z.testbit m j);
      reflexivity.
  - destruct (unmask_run i2 s H2) as (s1 & Hrun1 & Hreg & _).
    { rewrite <- Hchip, <- Hbank. exact Hne. }
    rewrite <- Hchip, <- Hbank in Hreg. fold bank in Hreg.
    fold reg_mask in Hreg. fold m in Hreg.
    pose proof (mask_run i1 s1 H1) as Hrun2.
    cbv zeta in Hrun2. fold bank in Hrun2. fold reg_mask in Hrun2.
    exists s1. eexists. split; [exact Hrun1 |]. split; [exact Hrun2 |].
    intros j Hj. cbn [regs]. rewrite upd_same, Hreg.
    assert (Hclr : 0 <= Z.clearbit m (hwirq i2) < 2 ^ 32).
    { rewrite <- (unmask_value m (hwirq i2) Hm H2). apply u32_range. }
    rewrite (u32_small _ Hclr).
    rewrite Z.setbit_eqb, Z.clearbit_eqb by lia.
    rewrite (Z.eqb_sym j (hwirq i2)), (Z.eqb_sym j (hwirq i1)).
    destruct (hwirq i2 =? j), (hwirq i1 =? j), (Z.testbit m j);
      reflexivity.
Qed.

(** *** Further properties: the trigger type *)

(** What [exynos_irq_set_type] leaves for a supported kind: the control
    register with the code of the kind in the field of the line, and the
    flow handler of the line. *)
Lemma set_type_run (k : trigger_kind) (irqd : irq_data) (s : state) :
  irq_types_ok -> eint_con_ok ->
  0 <= hwirq irqd -> EXYNOS_EINT_CON_LEN * (hwirq irqd + 1) <= 32 ->
  let reg_con :=
    ulong (eint_con (irqd_chip irqd) + eint_offset (irqd_bank irqd)) in
  let shift := EXYNOS_EINT_CON_LEN * hwirq irqd in
  let handler :=
    if is_edge_kind k then handle_edge_irq else handle_level_irq in
  exists con' t',
    exynos_irq_set_type irqd (irq_type_of_kind k) s =
    Some (0, mk_state (upd (regs s) reg_con con')
                      (fun v => if v =? irq irqd then Some handler
                                else handlers s v)
                      t') /\
    forall j, 0 <= j ->
      Z.testbit con' j =
      (j <? 32) &&
      (if (shift <=? j) && (j <? shift + EXYNOS_EINT_CON_LEN)
       then Z.testbit (trigger_code k) (j - shift)
       else Z.testbit (u32 (regs s reg_con)) j).
Proof.
  intros Htypes (Hlen & Hmask & Hcodes) Hh Hfit reg_con shift handler.
  assert (Hshift : 0 <= shift) by (unfold shift; nia).
  assert (Hshift32 : shift + EXYNOS_EINT_CON_LEN <= 32)
    by (unfold shift; lia).
  assert (Hcode : 0 <= trigger_code k < 2 ^ EXYNOS_EINT_CON_LEN).
  { specialize (Hcodes k). split; [lia |].
    apply Z.lt_le_trans with (2 ^ 3); [lia |].
    apply Z.pow_le_mono_r; lia. }
  unfold exynos_irq_set_type.
  rewrite (trig_type_of_kind k) by apply Htypes.
  rewrite (edge_test_of_kind k Htypes).
  fold reg_con. fold shift.
  rewrite (u32_small shift) by lia.
  rewrite (u32_small (trigger_code k)) by (specialize (Hcodes k); lia).
  rewrite Hmask.
  set (con' :=
         u32 (Z.lor
                (u32 (Z.land (u32 (regs s reg_con))
                        (Z.lnot (int_shl (Z.ones EXYNOS_EINT_CON_LEN)
                                         shift))))
                (u32 (Z.shiftl (trigger_code k) shift)))).
  exists con', (trace s ++ [EvSetHandler (irq irqd) handler;
                             EvReadl reg_con (u32 (regs s reg_con));
                             EvWritel con' reg_con]).
  split.
  - unfold handler.
    destruct (is_edge_kind k); cbn [negb];
      unfold bind, ret, __irq_set_handler_locked, readl, writel;
      cbn [regs handlers trace]; fold con';
      rewrite <- !app_assoc; cbn [app]; reflexivity.
  - intros j Hj. unfold con'. apply rmw_testbit; lia.
Qed.

(** X3. For a line whose field lies in the control register, two calls
    of [exynos_irq_set_type] in a row, for any two supported kinds, leave
    the registers and the flow handlers that the second call alone
    leaves: nothing of the first request stays. *)
Theorem set_type_last_wins (k1 k2 : trigger_kind) (irqd : irq_data)
  (s : state) :
  irq_types_ok -> eint_con_ok ->
  0 <= hwirq irqd -> EXYNOS_EINT_CON_LEN * (hwirq irqd + 1) <= 32 ->
  exists s1 s2 s2',
    exynos_irq_set_type irqd (irq_type_of_kind k1) s = Some (0, s1) /\
    exynos_irq_set_type irqd (irq_type_of_kind k2) s1 = Some (0, s2) /\
    exynos_irq_set_type irqd (irq_type_of_kind k2) s = Some (0, s2') /\
    (forall a, regs s2 a = regs s2' a) /\
    (forall v, handlers s2 v = handlers s2' v).
Proof.
  intros Htypes Hcon Hh Hfit.
  destruct (set_type_run k1 irqd s Htypes Hcon Hh Hfit)
    as (c1 & t1 & Hrun1 & Hb1).
  match type of Hrun1 with
  | _ = Some (0, ?s1) =>
    destruct (set_type_run k2 irqd s1 Htypes Hcon Hh Hfit)
      as (c2 & t2 & Hrun2 & Hb2)
  end.
  destruct (set_type_run k2 irqd s Htypes Hcon Hh Hfit)
    as (c2' & t2' & Hrun2' & Hb2').
  cbn [regs handlers] in Hrun2, Hb2.
  do 3 eexists.
  split; [exact Hrun1 |]. split; [exact Hrun2 |]. split; [exact Hrun2' |].
  cbn [regs handlers].
  set (reg_con :=
         ulong (eint_con (irqd_chip irqd) + eint_offset (irqd_bank irqd)))
    in *.
  set (shift := EXYNOS_EINT_CON_LEN * hwirq irqd) in *.
  assert (Hc : c2 = c2').
  { apply Z.bits_inj'. intros j Hj. rewrite Hb2, Hb2' by lia.
    rewrite upd_same.
    destruct (Z.ltb_spec j 32) as [Hlt | Hge]; [| reflexivity].
    cbn [andb].
    destruct ((shift <=? j) && (j <? shift + EXYNOS_EINT_CON_LEN)) eqn:Hin;
      [reflexivity |].
    rewrite u32_testbit, Hb1 by lia. rewrite Hin.
    destruct (Z.ltb_spec j 32); [reflexivity | lia]. }
  split.
  - intros a. unfold upd. rewrite Hc.
    destruct (a =? reg_con); reflexivity.
  - intros v. destruct (v =? irq irqd); reflexivity.
Qed.

(** *** Further properties: the resources of a line *)

Context {pin : pin_headers}.

(** The bits of [((v & ~(mask << shift)) | (c << shift))] as the resource
    callbacks compute it, with [mask = (1 << w) - 1], for a field that
    lies within the register. *)
Lemma func_rmw_testbit (v c shift w j : Z) :
  0 <= shift -> 0 < w < 31 -> shift + w <= 32 -> 0 <= c < 2 ^ w -> 0 <= j ->
  Z.testbit
    (u32 (Z.lor
            (u32 (Z.land v
                    (u32 (Z.lnot
                            (u32 (Z.shiftl (u32 (int_shl 1 w - 1))
                                           shift))))))
            (u32 (int_shl c shift)))) j =
  (j <? 32) &&
  (if (shift <=? j) && (j <? shift + w)
   then Z.testbit c (j - shift) else Z.testbit v j).
Proof.
  intros Hs Hw Hfit Hc Hj.
  assert (Hmask : u32 (int_shl 1 w - 1) = Z.ones w).
  { unfold int_shl, s32. rewrite Z.shiftl_1_l.
    assert (0 < 2 ^ w) by (apply Z.pow_pos_nonneg; lia).
    assert (2 ^ w < 2 ^ 31) by (apply Z.pow_lt_mono_r; lia).
    rewrite (Z.mod_small (2 ^ w + 2 ^ 31)) by lia.
    replace (2 ^ w + 2 ^ 31 - 2 ^ 31 - 1) with (Z.ones w)
      by (rewrite Z.ones_equiv; lia).
    apply u32_small. rewrite Z.ones_equiv. lia. }
  rewrite Hmask.
  rewrite u32_testbit, Z.lor_spec, !u32_testbit, Z.land_spec, u32_testbit.
  destruct (Z.ltb_spec j 32) as [Hlt | Hge]; [| reflexivity].
  cbn [andb].
  rewrite Z.lnot_spec by lia. rewrite u32_testbit.
  destruct (Z.ltb_spec j 32); [| lia]. cbn [andb].
  unfold int_shl. rewrite s32_testbit_low by lia.
  rewrite !Z.shiftl_spec by lia.
  rewrite Z.testbit_ones by lia.
  destruct (Z.leb_spec shift j) as [Hsj | Hsj].
  - destruct (Z.ltb_spec j (shift + w)) as [Hin | Hout].
    + destruct (Z.leb_spec 0 (j - shift)); [| lia].
      destruct (Z.ltb_spec (j - shift) w); [| lia].
      cbn. now rewrite andb_false_r.
    + destruct (Z.ltb_spec (j - shift) w); [lia |].
      rewrite andb_false_r. cbn [negb andb].
      rewrite (testbit_small c w (j - shift)) by lia.
      now rewrite andb_true_r, orb_false_r.
  - destruct (Z.leb_spec 0 (j - shift)); [lia |].
    cbn. rewrite (Z.testbit_neg_r c) by lia.
    now rewrite andb_true_r, orb_false_r.
Qed.

(** What [exynos_irq_request_resources] leaves when the pin is locked. *)
Lemma request_resources_run (cfg : pin_bank_cfg) (lock_ret : Z)
  (irqd : irq_data) (s : state) :
  let w := nth PINCFG_TYPE_FUNC (fld_width (bank_type cfg)) 0 in
  let reg_con :=
    ulong (pctl_offset cfg
           + nth PINCFG_TYPE_FUNC (reg_offset (bank_type cfg)) 0) in
  let shift := hwirq irqd * w in
  s32 lock_ret = 0 ->
  0 < w < 31 -> 0 <= hwirq irqd -> w * (hwirq irqd + 1) <= 32 ->
  0 <= EXYNOS_EINT_FUNC < 2 ^ w ->
  exists con',
    exynos_irq_request_resources cfg lock_ret irqd s =
    Some (0, mk_state (upd (regs s) reg_con con') (handlers s)
                      (trace s ++ [EvSpinLock (name (irqd_bank irqd));
                                   EvReadl reg_con (u32 (regs s reg_con));
                                   EvWritel con' reg_con;
                                   EvSpinUnlock (name (irqd_bank irqd))])) /\
    forall j, 0 <= j ->
      Z.testbit con' j =
      (j <? 32) &&
      (if (shift <=? j) && (j <? shift + w)
       then Z.testbit EXYNOS_EINT_FUNC (j - shift)
       else Z.testbit (u32 (regs s reg_con)) j).
Proof.
  intros w reg_con shift Hret Hw Hh Hfit Hc.
  assert (Hshift : 0 <= shift) by (unfold shift; nia).
  assert (Hshift32 : shift + w <= 32) by (unfold shift; lia).
  unfold exynos_irq_request_resources. rewrite Hret. cbn [Z.eqb negb].
  fold w. fold reg_con. fold shift.
  rewrite (u32_small shift) by lia.
  eexists. split.
  - unfold bind, ret, writel, readl, spin_lock_irqsave,
      spin_unlock_irqrestore, emit.
    cbn [regs handlers trace].
    rewrite <- !app_assoc. cbn [app]. reflexivity.
  - intros j Hj. rewrite u32_idem. apply func_rmw_testbit; lia.
Qed.

(** What [exynos_irq_release_resources] leaves. *)
Lemma release_resources_run (cfg : pin_bank_cfg) (irqd : irq_data)
  (s : state) :
  let w := nth PINCFG_TYPE_FUNC (fld_width (bank_type cfg)) 0 in
  let reg_con :=
    ulong (pctl_offset cfg
           + nth PINCFG_TYPE_FUNC (reg_offset (bank_type cfg)) 0) in
  let shift := hwirq irqd * w in
  0 < w < 31 -> 0 <= hwirq irqd -> w * (hwirq irqd + 1) <= 32 ->
  0 <= FUNC_INPUT < 2 ^ w ->
  exists con',
    exynos_irq_release_resources cfg irqd s =
    Some (tt, mk_state (upd (regs s) reg_con con') (handlers s)
                       (trace s ++ [EvSpinLock (name (irqd_bank irqd));
                                    EvReadl reg_con (u32 (regs s reg_con));
                                    EvWritel con' reg_con;
                                    EvSpinUnlock (name (irqd_bank irqd))])) /\
    forall j, 0 <= j ->
      Z.testbit con' j =
      (j <? 32) &&
      (if (shift <=? j) && (j <? shift + w)
       then Z.testbit FUNC_INPUT (j - shift)
       else Z.testbit (u32 (regs s reg_con)) j).
Proof.
  intros w reg_con shift Hw Hh Hfit Hc.
  assert (Hshift : 0 <= shift) by (unfold shift; nia).
  assert (Hshift32 : shift + w <= 32) by (unfold shift; lia).
  unfold exynos_irq_release_resources.
  fold w. fold reg_con. fold shift.
  rewrite (u32_small shift) by lia.
  eexists. split.
  - unfold bind, ret, writel, readl, spin_lock_irqsave,
      spin_unlock_irqrestore, emit.
    cbn [regs handlers trace].
    rewrite <- !app_assoc. cbn [app]. reflexivity.
  - intros j Hj. rewrite u32_idem. apply func_rmw_testbit; lia.
Qed.

(** X4. [exynos_irq_request_resources]: when the pin cannot be locked as
    an interrupt, the error of [gpiochip_lock_as_irq()] is returned and
    no register is read or written. When it can, for a line whose
    function field lies in the function register of the bank, the field
    of the line holds [EXYNOS_EINT_FUNC] afterwards, every other bit of
    the register and every other register are as before, and 0 is
    returned. *)
Theorem request_resources_sets_function (cfg : pin_bank_cfg)
  (lock_ret : Z) (irqd : irq_data) (s : state) :
  let w := nth PINCFG_TYPE_FUNC (fld_width (bank_type cfg)) 0 in
  let reg_con :=
    ulong (pctl_offset cfg
           + nth PINCFG_TYPE_FUNC (reg_offset (bank_type cfg)) 0) in
  let shift := hwirq irqd * w in
  0 < w < 31 -> 0 <= hwirq irqd -> w * (hwirq irqd + 1) <= 32 ->
  0 <= EXYNOS_EINT_FUNC < 2 ^ w ->
  (s32 lock_ret <> 0 ->
   exynos_irq_request_resources cfg lock_ret irqd s =
   Some (s32 lock_ret,
         mk_state (regs s) (handlers s)
                  (trace s ++ [EvErr "unable to lock pin IRQ"]))) /\
  (s32 lock_ret = 0 ->
   exists s',
     exynos_irq_request_resources cfg lock_ret irqd s = Some (0, s') /\
     field (regs s' reg_con) shift w = EXYNOS_EINT_FUNC /\
     (forall j, 0 <= j -> ~ shift <= j < shift + w ->
        Z.testbit (regs s' reg_con) j =
        Z.testbit (u32 (regs s reg_con)) j) /\
     (forall a, a <> reg_con -> regs s' a = regs s a) /\
     handlers s' = handlers s).
Proof.
  intros w reg_con shift Hw Hh Hfit Hc. split; intros Hret.
  - unfold exynos_irq_request_resources.
    destruct (Z.eqb_spec (s32 lock_ret) 0); [contradiction |].
    reflexivity.
  - destruct (request_resources_run cfg lock_ret irqd s Hret Hw Hh Hfit Hc)
      as (con' & Hrun & Hbits).
    fold w in Hbits. fold shift in Hbits. fold reg_con in Hrun, Hbits.
    assert (Hshift : 0 <= shift) by (unfold shift; nia).
    eexists. split; [exact Hrun |]. cbn [regs handlers].
    rewrite upd_same.
    split; [| split; [| split; [| reflexivity]]].
    + apply field_eq; try lia. intros j Hj. rewrite Hbits by lia.
      destruct (Z.ltb_spec j 32); [| unfold shift in *; lia].
      destruct (Z.leb_spec shift j); [| lia].
      destruct (Z.ltb_spec j (shift + w)); [| lia].
      reflexivity.
    + intros j Hj Hout. rewrite Hbits by lia. rewrite u32_testbit.
      destruct (Z.ltb_spec j 32); [| reflexivity]. cbn [andb].
      destruct (Z.leb_spec shift j); [| reflexivity].
      destruct (Z.ltb_spec j (shift + w)); [lia | reflexivity].
    + intros a Ha. now apply upd_other.
Qed.

(** X5. Requesting the resources of a line and then releasing them is
    not a round trip: whatever function the pin had before, after the
    release its function field holds [FUNC_INPUT]. Every other bit of the
    function register and every other register are as before the
    request. *)
Theorem release_after_request_is_input (cfg : pin_bank_cfg)
  (lock_ret : Z) (irqd : irq_data) (s : state) :
  let w := nth PINCFG_TYPE_FUNC (fld_width (bank_type cfg)) 0 in
  let reg_con :=
    ulong (pctl_offset cfg
           + nth PINCFG_TYPE_FUNC (reg_offset (bank_type cfg)) 0) in
  let shift := hwirq irqd * w in
  s32 lock_ret = 0 ->
  0 < w < 31 -> 0 <= hwirq irqd -> w * (hwirq irqd + 1) <= 32 ->
  0 <= EXYNOS_EINT_FUNC < 2 ^ w -> 0 <= FUNC_INPUT < 2 ^ w ->
  exists s1 s2,
    exynos_irq_request_resources cfg lock_ret irqd s = Some (0, s1) /\
    exynos_irq_release_resources cfg irqd s1 = Some (tt, s2) /\
    field (regs s2 reg_con) shift w = FUNC_INPUT /\
    (forall j, 0 <= j -> ~ shift <= j < shift + w ->
       Z.testbit (regs s2 reg_con) j =
       Z.testbit (u32 (regs s reg_con)) j) /\
    (forall a, a <> reg_con -> regs s2 a = regs s a) /\
    handlers s2 = handlers s.
Proof.
  intros w reg_con shift Hret Hw Hh Hfit Hc Hi.
  destruct (request_resources_run cfg lock_ret irqd s Hret Hw Hh Hfit Hc)
    as (c1 & Hrun1 & Hb1).
  match type of Hrun1 with
  | _ = Some (0, ?s1) =>
    destruct (release_resources_run cfg irqd s1 Hw Hh Hfit Hi)
      as (c2 & Hrun2 & Hb2)
  end.
  cbn [regs handlers] in Hrun2, Hb2.
  fold w in Hb1, Hb2. fold shift in Hb1, Hb2.
  fold reg_con in Hrun1, Hb1, Hrun2, Hb2.
  rewrite upd_same in Hb2.
  assert (Hshift : 0 <= shift) by (unfold shift; nia).
  do 2 eexists. split; [exact Hrun1 |]. split; [exact Hrun2 |].
  cbn [regs handlers]. rewrite upd_same.
  split; [| split; [| split; [| reflexivity]]].
  - apply field_eq; try lia. intros j Hj. rewrite Hb2 by lia.
    destruct (Z.ltb_spec j 32); [| unfold shift in *; lia].
    destruct (Z.leb_spec shift j); [| lia].
    destruct (Z.ltb_spec j (shift + w)); [| lia].
    reflexivity.
  - intros j Hj Hout. rewrite Hb2 by lia. rewrite !u32_testbit.
    destruct (Z.ltb_spec j 32); [| reflexivity]. cbn [andb].
    destruct ((shift <=? j) && (j <? shift + w)) eqn:Hin.
    + apply andb_prop in Hin. destruct Hin as [H1 H2].
      apply Z.leb_le in H1. apply Z.ltb_lt in H2. lia.
    + rewrite Hb1 by lia. rewrite Hin, u32_testbit.
      destruct (Z.ltb_spec j 32); [reflexivity | lia].
  - intros a Ha. now rewrite !upd_other by exact Ha.
Qed.

(** *** Further properties: the initialisation of the GPIO interrupts *)

Lemma live_domains_filter (t : list event) :
  forall live,
    live_domains t live = live_domains (filter is_domain_event t) live.
Proof.
  induction t as [| e t IH]; intros live; [reflexivity |].
  destruct e; cbn [filter is_domain_event live_domains]; apply IH.
Qed.

Lemma live_domains_app (t1 t2 : list event) :
  forall live,
    live_domains (t1 ++ t2) live = live_domains t2 (live_domains t1 live).
Proof.
  induction t1 as [| e t1 IH]; intros live; [reflexivity |].
  destruct e; cbn [app live_domains]; apply IH.
Qed.

Lemma live_domains_adds (new : list string) :
  forall live,
    live_domains (map EvDomainAdd new) live = rev new ++ live.
Proof.
  induction new as [| h new IH]; intros live; [reflexivity |].
  cbn [map live_domains rev]. rewrite IH, <- app_assoc. reflexivity.
Qed.

Lemma live_domains_removes (l : list string) :
  forall live,
    (forall x, In x live -> In x l) ->
    live_domains (map EvDomainRemove l) live = [].
Proof.
  induction l as [| h l IH]; intros live Hincl.
  - destruct live as [| x live]; [reflexivity |].
    destruct (Hincl x (or_introl eq_refl)).
  - cbn [map live_domains]. apply IH. intros x Hx.
    apply in_remove in Hx. destruct Hx as [Hx Hne].
    destruct (Hincl x Hx) as [E | Hin]; [congruence | exact Hin].
Qed.

(** X6. [exynos_eint_gpio_init] returns, whatever the platform answers
    and whatever the banks are. When it does not return 0 it returns
    [-EINVAL], [-ENXIO] or [-ENOMEM], the domains it has added have all
    been removed again, the newest first, and none of them is left. *)
Theorem gpio_init_failure_unwinds (p : platform)
  (pin_banks : list samsung_pin_bank) (s : state) :
  exists r banks' s' evs,
    exynos_eint_gpio_init p pin_banks s = Some ((r, banks'), s') /\
    trace s' = trace s ++ evs /\
    (r <> 0 ->
     (r = - EINVAL \/ r = - ENXIO \/ r = - ENOMEM) /\
     (exists new,
         filter is_domain_event evs =
         map EvDomainAdd new ++ map EvDomainRemove (rev new)) /\
     live_domains evs [] = []).
Proof.
  destruct (gpio_init_unwinds p pin_banks s)
    as (r & banks' & s' & evs & new & Hrun & Ht & Hres).
  exists r, banks', s', evs.
  split; [exact Hrun |]. split; [exact Ht |].
  intros Hr. destruct Hres as [[H0 _] | [Herr Hev]]; [contradiction |].
  split; [exact Herr |]. split; [now exists new |].
  rewrite live_domains_filter, Hev, live_domains_app, live_domains_adds.
  apply live_domains_removes. intros x Hx. now rewrite app_nil_r in Hx.
Qed.

Lemma gpio_init_loop_ok (p : platform) (rest : list samsung_pin_bank) :
  (forall i, domain_add_ok p i = true) ->
  (forall i, kzalloc_save_ok p i = true) ->
  forall (i : nat) (done : list samsung_pin_bank) (s : state),
  exists s',
    gpio_init_loop p i done rest s =
    Some ((0, rev done ++ map gpio_setup rest), s').
Proof.
  intros Hadd Hsave.
  induction rest as [| b rest IH]; intros i done s.
  - exists s. cbn [gpio_init_loop map]. now rewrite app_nil_r.
  - cbn [gpio_init_loop map]. fold (is_gpio b). unfold gpio_setup at 1.
    destruct (is_gpio b) eqn:Hg; cbn [negb].
    + rewrite Hadd, Hsave. unfold irq_domain_add_linear.
      unfold bind at 1. unfold bind at 1. unfold emit at 1.
      unfold ret at 1.
      match goal with
      | |- exists s', bind (exynos_eint_flt_config ?en ?sel ?wd ?bk) _ ?s0
                      = _ =>
        set (bank1 := bk);
        destruct (flt_config_frame en sel wd bank1 s0) as (s1 & Hrun1 & _)
      end.
      unfold bind at 1. rewrite Hrun1.
      destruct (IH (S i) (bank1 :: done) s1) as (s' & Hrun).
      exists s'. rewrite Hrun. cbn [rev]. rewrite <- app_assoc.
      reflexivity.
    + destruct (IH (S i) (b :: done) s) as (s' & Hrun).
      exists s'. rewrite Hrun. cbn [rev]. rewrite <- app_assoc.
      reflexivity.
Qed.

(** A suspend returns when every GPIO bank has its save slot; the banks
    it returns have their save slots too, it writes to no register that
    is not a filter register of a wakeup bank, and it leaves the flow
    handlers as they are. *)
Lemma suspend_banks_frame (banks : list samsung_pin_bank) :
  forall s,
    (forall b, In b banks -> is_gpio b = true -> soc_priv b <> None) ->
    exists saved s1,
      suspend_banks banks s = Some (saved, s1) /\
      (forall b, In b saved -> is_gpio b = true -> soc_priv b <> None) /\
      (forall a, (forall w, In w banks -> is_wkup w = true ->
                            ~ In a (flt_regs w)) ->
                 regs s1 a = regs s a).
Proof.
  induction banks as [| b rest IH]; intros s Hpriv.
  - exists [], s. split; [reflexivity |]. split; [intros b [] | reflexivity].
  - assert (Hpriv' : forall b', In b' rest -> is_gpio b' = true ->
                                soc_priv b' <> None)
      by (intros; apply Hpriv; [now right | assumption]).
    cbn [suspend_banks]. fold (is_gpio b).
    destruct (is_gpio b) eqn:Hg.
    + destruct (suspend_bank_run b s Hg (Hpriv b (or_introl eq_refl) Hg))
        as (s0 & Hrun0 & Hr0).
      destruct (IH s0 Hpriv') as (saved & s1 & Hrun1 & Hsv & Hfr1).
      exists (save_bank (regs s) b :: saved), s1. split.
      * unfold bind at 1. rewrite Hrun0. unfold bind at 1.
        rewrite Hrun1. reflexivity.
      * split.
        -- intros b' [<- | Hin] Hg'; [| now apply Hsv].
           unfold save_bank. rewrite Hg. discriminate.
        -- intros a Ha. rewrite Hfr1, Hr0; [reflexivity |].
           intros w Hw. apply Ha. now right.
    + destruct (is_wkup b) eqn:Hw.
      * destruct (flt_config_frame EXYNOS_EINT_FLTCON_EN 0 0 b s)
          as (s0 & Hrun0 & Hfr0).
        destruct (IH s0 Hpriv') as (saved & s1 & Hrun1 & Hsv & Hfr1).
        exists (b :: saved), s1. split.
        -- unfold bind at 1. unfold bind at 1. rewrite Hrun0.
           unfold ret at 1. unfold bind at 1. rewrite Hrun1.
           reflexivity.
        -- split.
           ++ intros b' [<- | Hin] Hg'; [congruence | now apply Hsv].
           ++ intros a Ha. rewrite Hfr1, Hfr0; [reflexivity | |].
              ** apply Ha; [now left | exact Hw].
              ** intros w Hwin. apply Ha. now right.
      * destruct (IH s Hpriv') as (saved & s1 & Hrun1 & Hsv & Hfr1).
        exists (b :: saved), s1. split.
        -- unfold bind at 1. unfold ret at 1. unfold bind at 1.
           rewrite Hrun1. reflexivity.
        -- split.
           ++ intros b' [<- | Hin] Hg'; [congruence | now apply Hsv].
           ++ intros a Ha. apply Hfr1. intros w Hwin. apply Ha.
              now right.
Qed.

(** X7. On a platform that gives the controller its interrupt and lets
    every domain and every save slot be allocated,
    [exynos_eint_gpio_init] returns 0 and leaves every GPIO bank with a
    domain of the size of the bank and a save slot, and every other bank
    as it was. The banks it leaves can be suspended and then resumed
    from any state of the machine: neither call meets a missing save
    slot. *)
Theorem gpio_init_then_suspend_resume (p : platform)
  (pin_banks : list samsung_pin_bank) (s : state) :
  d_irq p <> 0 -> request_irq_ret p = 0 ->
  (forall i, domain_add_ok p i = true) ->
  (forall i, kzalloc_save_ok p i = true) ->
  pin_banks <> [] ->
  exists s1,
    exynos_eint_gpio_init p pin_banks s =
    Some ((0, map gpio_setup pin_banks), s1) /\
    forall s2, exists saved s3,
      exynos_pinctrl_suspend (map gpio_setup pin_banks) s2 =
      Some (saved, s3) /\
      forall s4, exists s5,
        exynos_pinctrl_resume saved s4 = Some (tt, s5).
Proof.
  intros Hirq Hreq Hadd Hsave Hne.
  destruct (gpio_init_loop_ok p pin_banks Hadd Hsave 0%nat [] s)
    as (s1 & Hrun).
  exists s1. split.
  - unfold exynos_eint_gpio_init.
    destruct (Z.eqb_spec (d_irq p) 0); [contradiction |].
    rewrite Hreq. cbn [Z.eqb negb]. exact Hrun.
  - intros s2.
    assert (Hpriv : forall b, In b (map gpio_setup pin_banks) ->
                      is_gpio b = true -> soc_priv b <> None).
    { intros b Hb Hg. apply in_map_iff in Hb.
      destruct Hb as (b0 & <- & _). unfold gpio_setup in *.
      destruct (is_gpio b0) eqn:Hg0; [discriminate | congruence]. }
    destruct (suspend_banks_frame _ s2 Hpriv)
      as (saved & s3 & Hrun3 & Hsv & _).
    exists saved, s3. split.
    + destruct pin_banks; [contradiction | exact Hrun3].
    + intros s4. destruct (resume_banks_run saved s4 Hsv) as (s5 & Hrun5).
      exists s5. unfold exynos_pinctrl_resume.
      destruct saved; [| exact Hrun5].
      destruct pin_banks as [| b0 rest]; [contradiction |].
      cbn [map suspend_banks] in Hrun3. unfold bind in Hrun3.
      destruct (if eint_type_eqb (eint_type (gpio_setup b0)) EINT_TYPE_GPIO
                then _ else _) as [[b1 sx] |]; [| discriminate].
      destruct (suspend_banks _ sx) as [[bs sy] |]; discriminate.
Qed.

(** X8. [exynos_pinctrl_suspend] on the banks of a controller returns
    exactly when every GPIO bank has its save slot; with a GPIO bank
    without one it faults on the missing slot. When it returns, every
    register that is not a filter register of a wakeup bank holds what
    it held before: the suspend only reads the registers of the GPIO
    banks. *)
Theorem suspend_writes_wakeup_filters_only
  (pin_banks : list samsung_pin_bank) (s : state) :
  pin_banks <> [] ->
  ((forall b, In b pin_banks -> is_gpio b = true -> soc_priv b <> None) ->
   exists saved s1,
     exynos_pinctrl_suspend pin_banks s = Some (saved, s1) /\
     forall a, (forall w, In w pin_banks -> is_wkup w = true ->
                          ~ In a (flt_regs w)) ->
               regs s1 a = regs s a) /\
  ((exists b, In b pin_banks /\ is_gpio b = true /\ soc_priv b = None) ->
   exynos_pinctrl_suspend pin_banks s = None).
Proof.
  intros Hne. split.
  - intros Hpriv.
    destruct (suspend_banks_frame pin_banks s Hpriv)
      as (saved & s1 & Hrun & _ & Hfr).
    exists saved, s1. split; [| exact Hfr].
    destruct pin_banks; [contradiction | exact Hrun].
  - intros (b & Hb & Hg & Hnone).
    assert (Hloop : forall banks s0, In b banks ->
                      suspend_banks banks s0 = None).
    { induction banks as [| b0 rest IH]; intros s0 Hin; [destruct Hin |].
      cbn [suspend_banks]. fold (is_gpio b0). unfold bind at 1.
      destruct (is_gpio b0) eqn:Hg0.
      - unfold exynos_pinctrl_suspend_bank.
        destruct (soc_priv b0) as [sv |] eqn:Hsv.
        + unfold bind, readl, ret. cbn [regs handlers trace].
          destruct Hin as [-> | Hin]; [congruence |].
          unfold bind. now rewrite IH.
        + reflexivity.
      - destruct Hin as [-> | Hin]; [congruence |].
        destruct (is_wkup b0).
        + destruct (flt_config_frame EXYNOS_EINT_FLTCON_EN 0 0 b0 s0)
            as (s1 & Hrun1 & _).
          unfold bind at 1. rewrite Hrun1. unfold ret at 1.
          unfold bind. now rewrite IH.
        + unfold ret at 1. unfold bind. now rewrite IH. }
    destruct pin_banks; [contradiction |]. now apply Hloop.
Qed.

(** *** Further properties: the initialisation of the wakeup interrupts *)

Lemma muxed_count_cons (b : samsung_pin_bank)
  (l : list samsung_pin_bank) :
  muxed_count (b :: l) =
  (if is_wkup_mux b then 1 else 0) + muxed_count l.
Proof.
  unfold muxed_count. cbn [filter].
  destruct (is_wkup_mux b); cbn [List.length]; lia.
Qed.

Lemma muxed_count_rev (l : list samsung_pin_bank) :
  muxed_count (rev l) = muxed_count l.
Proof.
  unfold muxed_count. induction l as [| b l IH]; [reflexivity |].
  cbn [rev filter]. rewrite filter_app, length_app. cbn [filter].
  destruct (is_wkup_mux b); cbn [List.length]; lia.
Qed.

(** The counter [muxed_banks] of the first loop of
    [exynos_eint_wkup_init] counts the banks the loop makes
    [EINT_TYPE_WKUP_MUX]. *)
Lemma wkup_init_loop_count (p : platform) (rest : list samsung_pin_bank) :
  forall (i : nat) (done : list samsung_pin_bank) (muxed : Z)
         (s : state) banks m' s',
    wkup_init_loop p i done rest muxed s = Some ((None, banks, m'), s') ->
    (forall b, In b rest -> is_wkup_mux b = false) ->
    0 <= muxed -> muxed + Z.of_nat (List.length rest) < 2 ^ 32 ->
    m' + muxed_count done = muxed + muxed_count banks.
Proof.
  induction rest as [| bank rest' IH];
    intros i done muxed s banks m' s' Hrun Hno Hm Hlen.
  - cbn in Hrun. injection Hrun as <- <- _.
    rewrite muxed_count_rev. lia.
  - assert (Hno' : forall b, In b rest' -> is_wkup_mux b = false)
      by (intros b Hb; apply Hno; now right).
    assert (Hbank : is_wkup_mux bank = false)
      by (apply Hno; now left).
    cbn [List.length] in Hlen.
    cbn [wkup_init_loop] in Hrun.
    destruct (eint_type_eqb (eint_type bank) EINT_TYPE_WKUP);
      cbn [negb] in Hrun.
    2: { apply IH in Hrun; [| exact Hno' | lia | lia].
         rewrite muxed_count_cons, Hbank in Hrun. lia. }
    unfold bind at 1 in Hrun.
    destruct (flt_config_run EXYNOS_EINT_FLTCON_EN EXYNOS_EINT_FLTCON_SEL
                             0 bank s) as (s1 & evs1 & Hflt & _ & _).
    rewrite Hflt in Hrun.
    unfold bind at 1 in Hrun. unfold irq_domain_add_linear in Hrun.
    destruct (domain_add_ok p i).
    2: { unfold ret at 1 in Hrun. unfold bind, emit, ret in Hrun.
         discriminate Hrun. }
    unfold bind at 1 in Hrun. unfold emit at 1 in Hrun.
    unfold ret at 1 in Hrun.
    destruct (has_interrupts p i); cbn [negb] in Hrun.
    2: { apply IH in Hrun; [| exact Hno' | apply u32_range |].
         - rewrite muxed_count_cons in Hrun.
           unfold is_wkup_mux at 1, set_eint_type in Hrun.
           cbn [eint_type eint_type_eqb] in Hrun.
           rewrite u32_small in Hrun by lia. lia.
         - rewrite u32_small by lia. lia. }
    destruct (kzalloc_weint_ok p i); cbn [negb] in Hrun.
    2: { unfold bind, emit, ret in Hrun. discriminate Hrun. }
    unfold bind at 1 in Hrun.
    match type of Hrun with
    | context [for_up ?f ?n _ ?s2] =>
      destruct (wkup_bind_pins_run p i n f s2) as (s3 & evs3 & Hpins & _)
    end.
    rewrite Hpins in Hrun.
    apply IH in Hrun; [| exact Hno' | lia | lia].
    rewrite muxed_count_cons in Hrun.
    unfold is_wkup_mux at 1 in Hrun. unfold set_irq_domain in Hrun.
    cbn [eint_type] in Hrun.
    fold (is_wkup_mux bank) in Hrun. rewrite Hbank in Hrun. lia.
Qed.

(** X9. [exynos_eint_wkup_init] on banks none of which is
    [EINT_TYPE_WKUP_MUX] yet: when its first loop has gone through all
    the banks, the counter [muxed_banks], for which the data of the muxed
    handler is allocated, is the number of banks the loop has made
    [EINT_TYPE_WKUP_MUX]; and when the muxed handler is installed, its
    data lists exactly those banks, in the order of the table, and there
    is at least one. The second loop stores as many banks as were
    allocated. *)
Theorem wkup_init_muxed_banks (p : platform)
  (pin_banks : list samsung_pin_bank) (s : state) :
  (forall b, In b pin_banks -> is_wkup_mux b = false) ->
  Z.of_nat (List.length pin_banks) < 2 ^ 32 ->
  (forall banks m s',
      wkup_init_loop p 0 [] pin_banks 0 s = Some ((None, banks, m), s') ->
      m = muxed_count banks) /\
  (forall r banks l s',
      exynos_eint_wkup_init p pin_banks s = Some ((r, banks, Some l), s') ->
      r = 0 /\ l = filter is_wkup_mux banks /\
      Z.of_nat (List.length l) = muxed_count banks /\ l <> [] /\
      exists m s1,
        wkup_init_loop p 0 [] pin_banks 0 s = Some ((None, banks, m), s1) /\
        m = Z.of_nat (List.length l)).
Proof.
  intros Hno Hlen.
  assert (Hcount : forall banks m s',
            wkup_init_loop p 0 [] pin_banks 0 s
            = Some ((None, banks, m), s') ->
            m = muxed_count banks).
  { intros banks m s' Hloop.
    apply wkup_init_loop_count in Hloop; [| exact Hno | lia | lia].
    change (muxed_count []) with 0 in Hloop. lia. }
  split; [exact Hcount |].
  intros r banks l s'. unfold exynos_eint_wkup_init.
  destruct (wkup_np_found p); cbn [negb]; [| discriminate].
  unfold bind at 1.
  destruct (wkup_init_loop p 0 [] pin_banks 0 s)
    as [[[[early banks0] muxed] s1] |] eqn:Hloop; [| discriminate].
  destruct early as [e |]; [discriminate |].
  pose proof (Hcount banks0 muxed s1 eq_refl) as Hm.
  destruct (Z.eqb_spec muxed 0) as [E | Hne]; [discriminate |].
  destruct (wkup_irq p =? 0); [unfold bind, emit, ret; discriminate |].
  destruct (kzalloc_muxed_ok p); cbn [negb];
    [| unfold bind, emit, ret; discriminate].
  unfold bind at 1. unfold emit at 1. unfold bind at 1.
  match goal with
  | |- context [wkup_store_muxed ?b ?i ?n ?st ?s2] =>
    destruct (wkup_store_muxed b i n st s2) as [[l0 s3] |] eqn:Hst;
      [| discriminate]
  end.
  apply wkup_store_muxed_some in Hst. destruct Hst as [_ ->].
  cbn [rev app]. unfold ret. intros [= <- <- <- _].
  split; [reflexivity |]. split; [reflexivity |].
  split; [reflexivity |].
  split.
  - intros Hnil. unfold muxed_count in Hm. rewrite Hnil in Hm.
    cbn in Hm. contradiction.
  - exists muxed, s1. split; [reflexivity | exact Hm].
Qed.

Lemma wkup_init_loop_returns (p : platform)
  (rest : list samsung_pin_bank) :
  forall (i : nat) (done : list samsung_pin_bank) (muxed : Z) (s : state),
  exists r s', wkup_init_loop p i done rest muxed s = Some (r, s').
Proof.
  induction rest as [| bank rest' IH]; intros i done muxed s.
  - do 2 eexists. reflexivity.
  - cbn [wkup_init_loop].
    destruct (eint_type_eqb (eint_type bank) EINT_TYPE_WKUP);
      cbn [negb]; [| apply IH].
    unfold bind at 1.
    destruct (flt_config_run EXYNOS_EINT_FLTCON_EN EXYNOS_EINT_FLTCON_SEL
                             0 bank s) as (s1 & evs1 & Hflt & _ & _).
    rewrite Hflt.
    unfold bind at 1. unfold irq_domain_add_linear.
    destruct (domain_add_ok p i).
    2: { unfold ret at 1. unfold bind, emit, ret. do 2 eexists.
         reflexivity. }
    unfold bind at 1. unfold emit at 1. unfold ret at 1.
    destruct (has_interrupts p i); cbn [negb]; [| apply IH].
    destruct (kzalloc_weint_ok p i); cbn [negb].
    2: { unfold bind, emit, ret. do 2 eexists. reflexivity. }
    unfold bind at 1.
    match goal with
    | |- context [for_up ?f ?n _ ?s2] =>
      destruct (wkup_bind_pins_run p i n f s2) as (s3 & evs3 & Hpins & _)
    end.
    rewrite Hpins. apply IH.
Qed.

Lemma live_domains_no_remove (t : list event) :
  existsb is_domain_remove t = false ->
  forall live, live_domains t live = rev (added_domains t) ++ live.
Proof.
  induction t as [| e t IH]; intros Hno live; [reflexivity |].
  cbn [existsb] in Hno. apply orb_false_iff in Hno.
  destruct Hno as [He Ht].
  destruct e; cbn [live_domains added_domains flat_map app];
    try (now apply IH); [| discriminate He].
  fold (added_domains t). rewrite (IH Ht). cbn [rev].
  rewrite <- app_assoc. reflexivity.
Qed.

(** The first loop of [exynos_eint_wkup_init] hands on as many banks as
    the table has, wherever it stops. *)
Lemma wkup_init_loop_length (p : platform)
  (rest : list samsung_pin_bank) :
  forall (i : nat) (done : list samsung_pin_bank) (muxed : Z)
         (s : state) early banks m' s',
    wkup_init_loop p i done rest muxed s = Some ((early, banks, m'), s') ->
    List.length banks = (List.length done + List.length rest)%nat.
Proof.
  induction rest as [| bank rest' IH];
    intros i done muxed s early banks m' s' Hrun.
  - cbn in Hrun. injection Hrun as _ <- _ _.
    rewrite length_rev. cbn [List.length]. lia.
  - cbn [wkup_init_loop] in Hrun. cbn [List.length].
    destruct (eint_type_eqb (eint_type bank) EINT_TYPE_WKUP);
      cbn [negb] in Hrun.
    2: { apply IH in Hrun. cbn [List.length] in Hrun. lia. }
    unfold bind at 1 in Hrun.
    destruct (flt_config_run EXYNOS_EINT_FLTCON_EN EXYNOS_EINT_FLTCON_SEL
                             0 bank s) as (s1 & evs1 & Hflt & _ & _).
    rewrite Hflt in Hrun.
    unfold bind at 1 in Hrun. unfold irq_domain_add_linear in Hrun.
    destruct (domain_add_ok p i).
    2: { unfold ret at 1 in Hrun. unfold bind, emit, ret in Hrun.
         injection Hrun as _ <- _ _.
         rewrite length_app, length_rev. cbn [List.length]. lia. }
    unfold bind at 1 in Hrun. unfold emit at 1 in Hrun.
    unfold ret at 1 in Hrun.
    destruct (has_interrupts p i); cbn [negb] in Hrun.
    2: { apply IH in Hrun. cbn [List.length] in Hrun. lia. }
    destruct (kzalloc_weint_ok p i); cbn [negb] in Hrun.
    2: { unfold bind, emit, ret in Hrun. injection Hrun as _ <- _ _.
         rewrite length_app, length_rev. cbn [List.length]. lia. }
    unfold bind at 1 in Hrun.
    match type of Hrun with
    | context [for_up ?f ?n _ ?s2] =>
      destruct (wkup_bind_pins_run p i n f s2) as (s3 & evs3 & Hpins & _)
    end.
    rewrite Hpins in Hrun.
    apply IH in Hrun. cbn [List.length] in Hrun. lia.
Qed.

Lemma muxed_count_le (l : list samsung_pin_bank) :
  0 <= muxed_count l <= Z.of_nat (List.length l).
Proof.
  induction l as [| b l IH]; [unfold muxed_count; cbn; lia |].
  rewrite muxed_count_cons. cbn [List.length].
  destruct (is_wkup_mux b); lia.
Qed.

(** When the array is large enough for the [EINT_TYPE_WKUP_MUX] banks
    still to come, the second loop of [exynos_eint_wkup_init] stores
    them all. *)
Lemma wkup_store_muxed_fits (rest : list samsung_pin_bank) :
  forall (idx n : Z) (stored : list samsung_pin_bank) (s : state),
    0 <= idx -> idx + muxed_count rest <= n -> n < 2 ^ 31 ->
    wkup_store_muxed rest idx n stored s
    = Some (rev stored ++ filter is_wkup_mux rest, s).
Proof.
  induction rest as [| bank rest' IH]; intros idx n stored s Hi Hfit Hn.
  - cbn. now rewrite app_nil_r.
  - rewrite muxed_count_cons in Hfit.
    pose proof (muxed_count_le rest') as Hc.
    cbn [wkup_store_muxed filter].
    destruct (is_wkup_mux bank); cbn [negb].
    + destruct (Z.leb_spec 0 idx) as [_ |]; [| lia].
      destruct (Z.ltb_spec idx n) as [_ |]; [| lia].
      cbn [andb].
      replace (s32 (idx + 1)) with (idx + 1)
        by (unfold s32; rewrite Z.mod_small; lia).
      rewrite IH by lia. cbn [rev]. now rewrite <- app_assoc.
    + apply IH; lia.
Qed.

(** X17. [exynos_eint_wkup_init] on a table none of whose banks is
    [EINT_TYPE_WKUP_MUX] yet returns, whatever the platform answers, and
    whatever it returns it has removed no domain: every domain it has
    added exists when it returns, also when it returns an error. *)
Theorem wkup_init_keeps_every_domain (p : platform)
  (pin_banks : list samsung_pin_bank) (s : state) :
  (forall b, In b pin_banks -> is_wkup_mux b = false) ->
  Z.of_nat (List.length pin_banks) < 2 ^ 31 ->
  exists r s' evs,
    exynos_eint_wkup_init p pin_banks s = Some (r, s') /\
    trace s' = trace s ++ evs /\
    (forall host, ~ In (EvDomainRemove host) evs) /\
    live_domains evs [] = rev (added_domains evs).
Proof.
  intros Hmux Hlen.
  assert (Hret : exists r s',
             exynos_eint_wkup_init p pin_banks s = Some (r, s')).
  { unfold exynos_eint_wkup_init.
    destruct (wkup_np_found p); cbn [negb]; [| do 2 eexists; reflexivity].
    unfold bind at 1.
    destruct (wkup_init_loop_returns p pin_banks 0%nat [] 0 s)
      as ([[early banks] muxed] & s1 & Hloop).
    rewrite Hloop.
    destruct early as [e |]; [do 2 eexists; reflexivity |].
    destruct (muxed =? 0); [do 2 eexists; reflexivity |].
    destruct (wkup_irq p =? 0);
      [unfold bind, emit, ret; do 2 eexists; reflexivity |].
    destruct (kzalloc_muxed_ok p); cbn [negb];
      [| unfold bind, emit, ret; do 2 eexists; reflexivity].
    pose proof (wkup_init_loop_length _ _ _ _ _ _ _ _ _ _ Hloop) as Hl.
    cbn [List.length] in Hl.
    apply wkup_init_loop_count in Hloop; [| exact Hmux | lia | lia].
    change (muxed_count []) with 0 in Hloop.
    pose proof (muxed_count_le banks) as Hc.
    unfold bind at 1. unfold emit at 1. unfold bind at 1.
    rewrite wkup_store_muxed_fits by lia.
    unfold ret. do 2 eexists. reflexivity. }
  destruct Hret as (r & s' & Hrun).
  destruct (wkup_init_no_remove p pin_banks s r s' Hrun)
    as (evs & Ht & Hno).
  exists r, s', evs. split; [exact Hrun |]. split; [exact Ht |].
  split.
  - intros host Hin.
    assert (Hex : existsb is_domain_remove evs = true)
      by (apply existsb_exists; exists (EvDomainRemove host); now split).
    congruence.
  - rewrite (live_domains_no_remove evs Hno). apply app_nil_r.
Qed.

(** *** Further properties: masking and the muxed dispatch *)

(** X18. A wakeup line that has just been masked with [exynos_irq_mask]
    is not dispatched by the muxed handler, pending or not: the handler
    dispatches, for the bank of the line, exactly the lines below 32
    whose bit is set in the pending register and clear in the mask
    register, and the line is not among them. *)
Theorem masked_line_not_dispatched (irqd : irq_data) (s : state) :
  let b := irqd_bank irqd in
  let pend_reg := EXYNOS_GPIO_EPEND_OFFSET + eint_offset b in
  let mask_reg := EXYNOS_GPIO_EMASK_OFFSET + eint_offset b in
  0 <= hwirq irqd < 32 ->
  irqd_chip irqd = exynos_wkup_irq_chip ->
  0 <= mask_reg < 2 ^ 64 ->
  exists s1 s2 hw_lines,
    exynos_irq_mask irqd s = Some (tt, s1) /\
    exynos_irq_demux_eint16_31 [b] s1 = Some (tt, s2) /\
    trace s2 =
      trace s1 ++ [EvChainedEnter;
                   EvReadl pend_reg (u32 (regs s1 pend_reg));
                   EvReadl mask_reg (u32 (regs s1 mask_reg))]
        ++ map EvHandleIrq
             (map (irq_find_mapping (bank_irq_domain b)) hw_lines)
        ++ [EvChainedExit] /\
    ~ In (hwirq irqd) hw_lines /\
    (forall i, In i hw_lines <->
       0 <= i < 32 /\ Z.testbit (regs s1 pend_reg) i = true /\
       Z.testbit (regs s1 mask_reg) i = false).
Proof.
  intros b pend_reg mask_reg Hh Hchip Hreg.
  pose proof (mask_run irqd s Hh) as Hrun1. cbv zeta in Hrun1.
  rewrite Hchip in Hrun1. cbn [eint_mask exynos_wkup_irq_chip] in Hrun1.
  fold b in Hrun1. fold mask_reg in Hrun1.
  rewrite (ulong_small mask_reg Hreg) in Hrun1.
  set (m := u32 (regs s mask_reg)) in *.
  match type of Hrun1 with
  | _ = Some (tt, ?st) => set (s1 := st) in *
  end.
  assert (Hmask1 : regs s1 mask_reg = Z.setbit m (hwirq irqd))
    by (unfold s1; cbn [regs]; apply upd_same).
  set (hw_lines :=
         set_bits_desc (Z.land (u32 (regs s1 pend_reg))
                               (Z.lnot (u32 (regs s1 mask_reg)))) 32).
  assert (Hlines : forall i, In i hw_lines <->
            0 <= i < 32 /\ Z.testbit (regs s1 pend_reg) i = true /\
            Z.testbit (regs s1 mask_reg) i = false).
  { intros i. unfold hw_lines. rewrite set_bits_desc_In.
    change (Z.of_nat 32) with 32.
    split.
    - intros (Hi & Hbit). split; [exact Hi |].
      rewrite Z.land_spec, Z.lnot_spec, !u32_testbit in Hbit by lia.
      destruct (Z.ltb_spec i 32); [| lia]. cbn [andb] in Hbit.
      apply andb_prop in Hbit. destruct Hbit as [Hp Hm].
      split; [exact Hp |]. now apply negb_true_iff in Hm.
    - intros (Hi & Hp & Hm). split; [exact Hi |].
      rewrite Z.land_spec, Z.lnot_spec, !u32_testbit by lia.
      destruct (Z.ltb_spec i 32); [| lia]. cbn [andb].
      now rewrite Hp, Hm. }
  destruct (demux_banks_run [b] (mk_state (regs s1) (handlers s1)
                                          (trace s1 ++ [EvChainedEnter])))
    as (s2' & Hrun2 & _ & Ht2).
  exists s1. eexists. exists hw_lines.
  split; [exact Hrun1 |].
  split.
  { unfold exynos_irq_demux_eint16_31, bind, emit.
    rewrite Hrun2. reflexivity. }
  cbn [trace regs]. split.
  { rewrite Ht2. cbn [trace regs muxed_dispatch_spec].
    fold pend_reg. fold mask_reg. fold hw_lines.
    rewrite app_nil_r, <- !app_assoc. cbn [app]. reflexivity. }
  split; [| exact Hlines].
  intros Hin. apply Hlines in Hin. destruct Hin as (_ & _ & Hm).
  rewrite Hmask1, Z.setbit_eqb, Z.eqb_refl in Hm by lia.
  discriminate Hm.
Qed.

(** *** Further properties: the wake mask *)

Lemma set_wake_run (irqd : irq_data) (on mask : Z) :
  let pos := 2 * eint_offset (irqd_bank irqd) + hwirq irqd in
  0 <= eint_offset (irqd_bank irqd) -> 0 <= hwirq irqd -> pos < 32 ->
  0 <= mask < 2 ^ 32 ->
  exists mask',
    exynos_wkup_irq_set_wake irqd on mask = Some (0, mask') /\
    0 <= mask' < 2 ^ 32 /\
    forall j, 0 <= j ->
      Z.testbit mask' j = if j =? pos then on =? 0 else Z.testbit mask j.
Proof.
  intros pos Hoff Hh Hpos Hmask.
  assert (Hn : ulong (u32 (2 * eint_offset (irqd_bank irqd)) + hwirq irqd)
               = pos).
  { rewrite u32_small by lia. apply ulong_small. lia. }
  assert (Hbit : ulong (Z.shiftl 1 pos) = 2 ^ pos).
  { rewrite Z.shiftl_1_l. apply ulong_small.
    split; [apply Z.pow_nonneg; lia | apply Z.pow_lt_mono_r; lia]. }
  unfold exynos_wkup_irq_set_wake. rewrite Hn, Hbit.
  destruct (Z.leb_spec 64 pos); [lia |].
  destruct (Z.eqb_spec on 0) as [E | Hon].
  - eexists. split; [reflexivity |]. split; [apply u32_range |].
    intros j Hj.
    rewrite u32_testbit, Z.lor_spec, Z.pow2_bits_eqb by lia.
    destruct (Z.eqb_spec j pos) as [-> | Hne].
    + rewrite Z.eqb_refl, orb_true_r.
      destruct (Z.ltb_spec pos 32); [reflexivity | lia].
    + destruct (Z.eqb_spec pos j); [lia |]. rewrite orb_false_r.
      destruct (Z.ltb_spec j 32); [reflexivity |].
      cbn. symmetry. apply (testbit_high32 mask); lia.
  - eexists. split; [reflexivity |]. split; [apply u32_range |].
    intros j Hj.
    rewrite u32_testbit, Z.land_spec, ulong_testbit, Z.lnot_spec by lia.
    rewrite Z.pow2_bits_eqb by lia.
    destruct (Z.eqb_spec j pos) as [-> | Hne].
    + rewrite Z.eqb_refl. cbn. now rewrite !andb_false_r.
    + destruct (Z.eqb_spec pos j); [lia |].
      destruct (Z.ltb_spec j 32).
      * destruct (Z.ltb_spec j 64); [| lia]. cbn.
        now rewrite andb_true_r.
      * cbn. symmetry. apply (testbit_high32 mask); lia.
Qed.

(** X10. [exynos_wkup_irq_set_wake] knows a wakeup line by its position
    [2 * eint_offset + pin] in the wake mask only. After two calls, for
    lines at positions below 32: the bit at the position of the second
    line is as the second call asks (clear to enable, set to disable),
    the bit at the position of the first line, if that is another
    position, as the first call asks, and every other bit of the mask as
    before. Lines at the same position share the bit, be they one line or
    lines of two banks with the same [eint_offset], as etc0, etc1, gpa0
    and gpq0 of [exynos7870_pin_banks0]: the second call decides it, and
    the mask is the one the second call alone would have left. *)
Theorem set_wake_lines (i1 i2 : irq_data) (on1 on2 mask : Z) :
  let pos1 := 2 * eint_offset (irqd_bank i1) + hwirq i1 in
  let pos2 := 2 * eint_offset (irqd_bank i2) + hwirq i2 in
  0 <= eint_offset (irqd_bank i1) -> 0 <= hwirq i1 -> pos1 < 32 ->
  0 <= eint_offset (irqd_bank i2) -> 0 <= hwirq i2 -> pos2 < 32 ->
  0 <= mask < 2 ^ 32 ->
  exists mask1 mask2,
    exynos_wkup_irq_set_wake i1 on1 mask = Some (0, mask1) /\
    exynos_wkup_irq_set_wake i2 on2 mask1 = Some (0, mask2) /\
    (forall j, 0 <= j ->
       Z.testbit mask2 j =
       if j =? pos2 then on2 =? 0
       else if j =? pos1 then on1 =? 0 else Z.testbit mask j) /\
    (pos1 = pos2 ->
     exynos_wkup_irq_set_wake i2 on2 mask = Some (0, mask2)).
Proof.
  intros pos1 pos2 Ho1 Hh1 Hp1 Ho2 Hh2 Hp2 Hmask.
  destruct (set_wake_run i1 on1 mask Ho1 Hh1 Hp1 Hmask)
    as (mask1 & Hrun1 & Hm1 & Hb1).
  destruct (set_wake_run i2 on2 mask1 Ho2 Hh2 Hp2 Hm1)
    as (mask2 & Hrun2 & Hm2 & Hb2).
  exists mask1, mask2. split; [exact Hrun1 |]. split; [exact Hrun2 |].
  split.
  - intros j Hj. rewrite Hb2 by exact Hj.
    fold pos2. destruct (j =? pos2); [reflexivity |].
    now rewrite Hb1 by exact Hj.
  - intros Hsame.
    destruct (set_wake_run i2 on2 mask Ho2 Hh2 Hp2 Hmask)
      as (mask3 & Hrun3 & Hm3 & Hb3).
    rewrite Hrun3. do 2 f_equal.
    apply Z.bits_inj'. intros j Hj.
    rewrite Hb3, Hb2 by exact Hj. fold pos2.
    destruct (Z.eqb_spec j pos2) as [_ | Hne]; [reflexivity |].
    rewrite Hb1 by exact Hj. fold pos1. rewrite Hsame.
    destruct (Z.eqb_spec j pos2); [contradiction | reflexivity].
Qed.

(** X11. For a line whose position [2 * eint_offset + pin] is from 32
    to 63, [exynos_wkup_irq_set_wake] returns 0 and leaves the wake mask
    as it is, for enabling and for disabling: the bit it computes lies
    outside the 32 bits of the mask. *)
Theorem set_wake_beyond_mask (irqd : irq_data) (on mask : Z) :
  let pos := 2 * eint_offset (irqd_bank irqd) + hwirq irqd in
  0 <= eint_offset (irqd_bank irqd) ->
  2 * eint_offset (irqd_bank irqd) < 2 ^ 32 ->
  0 <= hwirq irqd -> 32 <= pos < 64 ->
  0 <= mask < 2 ^ 32 ->
  exynos_wkup_irq_set_wake irqd on mask = Some (0, mask).
Proof.
  intros pos Hoff Hoff32 Hh Hpos Hmask.
  assert (Hn : ulong (u32 (2 * eint_offset (irqd_bank irqd)) + hwirq irqd)
               = pos).
  { rewrite u32_small by lia. apply ulong_small. unfold pos in *.
    change (2 ^ 64) with 18446744073709551616. lia. }
  assert (Hbit : ulong (Z.shiftl 1 pos) = 2 ^ pos).
  { rewrite Z.shiftl_1_l. apply ulong_small.
    split; [apply Z.pow_nonneg; lia | apply Z.pow_lt_mono_r; lia]. }
  unfold exynos_wkup_irq_set_wake. rewrite Hn, Hbit.
  destruct (Z.leb_spec 64 pos); [lia |].
  assert (Hsame : forall v, (forall j, 0 <= j < 32 ->
                     Z.testbit v j = Z.testbit mask j) -> u32 v = mask).
  { intros v Hv. apply Z.bits_inj'. intros j Hj. rewrite u32_testbit.
    destruct (Z.ltb_spec j 32).
    - cbn [andb]. apply Hv. lia.
    - symmetry. apply (testbit_high32 mask); lia. }
  destruct (on =? 0); f_equal; f_equal; apply Hsame; intros j Hj.
  - rewrite Z.lor_spec, Z.pow2_bits_eqb by lia.
    destruct (Z.eqb_spec pos j); [lia |]. apply orb_false_r.
  - rewrite Z.land_spec, ulong_testbit, Z.lnot_spec by lia.
    rewrite Z.pow2_bits_eqb by lia.
    destruct (Z.eqb_spec pos j); [lia |].
    destruct (Z.ltb_spec j 64); [| lia]. cbn. apply andb_true_r.
Qed.

(** *** Further properties: the filter registers *)

(** X12. [exynos_eint_flt_config] writes each value to both filter
    registers of the bank, so for a bank with at least one pin pair the
    second filter register ends as a copy of the first: the fields of the
    pin pairs hold the control word, and the fields above them hold, in
    both registers, what the first register had there before; what the
    second register had is gone. For a bank without a pin pair (a single
    pin) nothing is read or written. *)
Theorem flt_config_second_register_copies (en sel width : Z)
  (b : samsung_pin_bank) (s : state) :
  fltcon_ok -> pairs_fit b ->
  let A := flt_reg_of b in
  exists s',
    exynos_eint_flt_config en sel width b s = Some (tt, s') /\
    (pin_pairs b = 0 -> s' = s) /\
    (0 < pin_pairs b ->
     regs s' (A + 4) = regs s' A /\
     forall k, pin_pairs b <= k -> (k + 1) * EXYNOS_EINT_FLTCON_LEN <= 32 ->
       field (regs s' (A + 4)) (k * EXYNOS_EINT_FLTCON_LEN)
             EXYNOS_EINT_FLTCON_LEN =
       field (regs s A) (k * EXYNOS_EINT_FLTCON_LEN)
             EXYNOS_EINT_FLTCON_LEN).
Proof.
  intros Hok Hfit A.
  destruct (flt_config_effect en sel width b s Hok Hfit)
    as (s' & Hrun & _ & _ & Hfields).
  exists s'. split; [exact Hrun |].
  unfold exynos_eint_flt_config in Hrun. fold (pin_pairs b) in Hrun.
  fold (flt_reg_of b) in Hrun. fold A in Hrun.
  destruct (flt_loop_run A (flt_con_of en sel width) 0
                         (Z.to_nat (pin_pairs b)) s)
    as (s0 & Hrun0 & _ & _ & _ & Hvals & Hnone).
  rewrite Hrun0 in Hrun. injection Hrun as <-.
  split.
  - intros H0. apply Hnone. now rewrite H0.
  - intros Hpos.
    destruct Hvals as [HA HA4]; [lia |].
    split; [now rewrite HA, HA4 |].
    intros k Hk Hk32.
    rewrite (Hfields Hpos (A + 4) k); [| right; now left | | exact Hk32].
    + destruct (Z.ltb_spec k (pin_pairs b)); [lia | reflexivity].
    + destruct Hfit. lia.
Qed.

(** The digital filter that [exynos_eint_gpio_init] programs for a GPIO
    bank stays while the loop goes on through the other banks. *)
Lemma gpio_init_loop_filter (p : platform) (w : samsung_pin_bank)
  (rest : list samsung_pin_bank) :
  fltcon_ok -> pairs_fit w ->
  (forall i, domain_add_ok p i = true) ->
  (forall i, kzalloc_save_ok p i = true) ->
  forall (i : nat) (done : list samsung_pin_bank) (s : state) r s',
    (forall b, In b rest -> is_gpio b = true ->
       pairs_fit b /\
       (flt_reg_of b = flt_reg_of w \/
        forall a, In a (flt_regs b) -> ~ In a (flt_regs w))) ->
    gpio_init_loop p i done rest s = Some (r, s') ->
    let c := flt_con_of EXYNOS_EINT_FLTCON_EN EXYNOS_EINT_FLTCON_SEL 0 in
    filter_holds c w (regs s) \/ In w rest /\ is_gpio w = true ->
    filter_holds c w (regs s').
Proof.
  intros Hok Hwfit Hadd Hsave.
  induction rest as [| b rest IH]; intros i done s r s' Hb Hrun c Hpre.
  - cbn in Hrun. injection Hrun as _ <-.
    destruct Hpre as [H | [[] _]]. exact H.
  - assert (Hb' : forall b', In b' rest -> is_gpio b' = true ->
              pairs_fit b' /\
              (flt_reg_of b' = flt_reg_of w \/
               forall a, In a (flt_regs b') -> ~ In a (flt_regs w)))
      by (intros; apply Hb; [now right | assumption]).
    cbn [gpio_init_loop] in Hrun. fold (is_gpio b) in Hrun.
    destruct (is_gpio b) eqn:Hg; cbn [negb] in Hrun.
    + rewrite Hadd, Hsave in Hrun. unfold irq_domain_add_linear in Hrun.
      unfold bind at 1 in Hrun. unfold bind at 1 in Hrun.
      unfold emit at 1 in Hrun. unfold ret at 1 in Hrun.
      unfold bind at 1 in Hrun.
      match type of Hrun with
      | context [exynos_eint_flt_config ?en ?sel ?wd ?bk ?s0] =>
        set (bank1 := bk) in *;
        destruct (exynos_eint_flt_config en sel wd bank1 s0)
          as [[[] s1] |] eqn:Hflt; [| discriminate]
      end.
      destruct (Hb b (or_introl eq_refl) Hg) as (Hbfit & Hbap).
      assert (Hfit1 : pairs_fit bank1) by exact Hbfit.
      assert (Hap1 : flt_reg_of bank1 = flt_reg_of w \/
                     forall a, In a (flt_regs bank1) ->
                               ~ In a (flt_regs w)) by exact Hbap.
      destruct (flt_config_filter _ _ _ bank1 w _ s1 Hok Hfit1 Hwfit
                                  Hflt Hap1) as (Hkeep & _).
      destruct (flt_config_filter _ _ _ bank1 bank1 _ s1 Hok Hfit1 Hfit1
                                  Hflt (or_introl eq_refl)) as (_ & Hput).
      apply (IH _ _ s1 r s' Hb' Hrun).
      destruct Hpre as [H | [[-> | Hin] Hw]];
        [left; now apply Hkeep | left; exact (Hput eq_refl) | now right].
    + apply (IH _ _ s r s' Hb' Hrun).
      destruct Hpre as [H | [[-> | Hin] Hw]]; [now left | | now right].
      congruence.
Qed.

(** X16. On a platform on which the initialisation succeeds, for GPIO
    banks whose pin pairs fit their filter registers and of which any two
    have the same filter registers or different ones, after
    [exynos_eint_gpio_init] the fields of the pin pairs of every GPIO
    bank hold the control word of the digital filter (enabled, select
    flag set, width 0) in both filter registers: what the loop programs
    for a bank is still there when it has gone through the banks after
    it. *)
Theorem gpio_init_programs_digital_filter (p : platform)
  (pin_banks : list samsung_pin_bank) (s : state) :
  fltcon_ok ->
  d_irq p <> 0 -> request_irq_ret p = 0 ->
  (forall i, domain_add_ok p i = true) ->
  (forall i, kzalloc_save_ok p i = true) ->
  (forall b, In b pin_banks -> is_gpio b = true -> pairs_fit b) ->
  (forall b b', In b pin_banks -> In b' pin_banks ->
     is_gpio b = true -> is_gpio b' = true ->
     flt_reg_of b = flt_reg_of b' \/
     forall a, In a (flt_regs b) -> ~ In a (flt_regs b')) ->
  exists s1,
    exynos_eint_gpio_init p pin_banks s =
    Some ((0, map gpio_setup pin_banks), s1) /\
    forall g, In g pin_banks -> is_gpio g = true ->
      filter_holds
        (flt_con_of EXYNOS_EINT_FLTCON_EN EXYNOS_EINT_FLTCON_SEL 0) g
        (regs s1).
Proof.
  intros Hok Hirq Hreq Hadd Hsave Hfit Hap.
  destruct (gpio_init_loop_ok p pin_banks Hadd Hsave 0%nat [] s)
    as (s1 & Hrun).
  exists s1. split.
  - unfold exynos_eint_gpio_init.
    destruct (Z.eqb_spec (d_irq p) 0); [contradiction |].
    rewrite Hreq. cbn [Z.eqb negb]. exact Hrun.
  - intros g Hg Hgg.
    apply (gpio_init_loop_filter p g pin_banks Hok (Hfit g Hg Hgg)
             Hadd Hsave 0%nat [] s
             (0, rev [] ++ map gpio_setup pin_banks) s1);
      [| exact Hrun | right; now split].
    intros b Hb Hbg. split; [now apply Hfit | now apply Hap].
Qed.

(** *** Further properties: when the registers of the banks are apart *)

(** X13. The registers of the banks of a controller are apart when the
    controller has no GPIO bank or no wakeup bank, and its wakeup banks
    have [eint_offset]s that are multiples of 4 with both filter
    registers within the 32-bit offsets: two such banks have the same
    [eint_offset] and so the same filter registers, or filter registers
    that differ. *)
Theorem banks_apart_criterion (banks : list samsung_pin_bank) :
  (forall b, In b banks -> is_gpio b = false) \/
  (forall b, In b banks -> is_wkup b = false) ->
  (forall w, In w banks -> is_wkup w = true ->
     eint_offset w mod 4 = 0 /\
     0 <= EXYNOS_GPIO_EFLTCON_OFFSET + 2 * eint_offset w < 2 ^ 32) ->
  banks_apart banks.
Proof.
  intros Hkind Hoff. split.
  - intros g w Hg Hw Hgg Hww.
    destruct Hkind as [Hk | Hk];
      [rewrite (Hk g Hg) in Hgg | rewrite (Hk w Hw) in Hww];
      discriminate.
  - intros w w' Hw Hw' Hk Hk'.
    destruct (Hoff w Hw Hk) as [Hm Hr].
    destruct (Hoff w' Hw' Hk') as [Hm' Hr'].
    unfold flt_regs, flt_reg_of.
    rewrite !u32_small by lia.
    destruct (Z.eq_dec (eint_offset w') (eint_offset w)) as [E | N].
    + left. now rewrite E.
    + right. intros a Ha Hin. cbn [In] in Ha, Hin.
      apply Z.mod_divide in Hm; [| lia].
      apply Z.mod_divide in Hm'; [| lia].
      destruct Hm as [q Hq]. destruct Hm' as [q' Hq'].
      destruct Ha as [Ha | [Ha | []]]; destruct Hin as [Hi | [Hi | []]];
        lia.
Qed.

(** *** Further properties: the pin number of a wakeup interrupt *)

Lemma eint_etc_offset_run (banks : list samsung_pin_bank) :
  forall (banks70 : list samsung_pin_bank) (etc_offset : Z),
    map nr_pins (firstn (List.length (before_gpa banks)) banks70) =
    map nr_pins (before_gpa banks) ->
    (forall b, In b (before_gpa banks) -> 0 <= nr_pins b) ->
    0 <= etc_offset ->
    etc_offset + pins_of (before_gpa banks) < 2 ^ 31 ->
    eint_etc_offset banks banks70 etc_offset =
    Some (etc_offset + pins_of (before_gpa banks)).
Proof.
  induction banks as [| b banks IH];
    intros banks70 etc_offset Hsame Hpins Hetc Hsum.
  - cbn. f_equal. unfold pins_of. cbn. lia.
  - cbn [eint_etc_offset before_gpa] in *.
    destruct (strncmp_gpa (name b)).
    + destruct banks70 as [| b70 banks70]; [discriminate Hsame |].
      cbn [List.length firstn map] in Hsame.
      injection Hsame as Hb Hrest.
      unfold pins_of in *. cbn [map fold_right] in *.
      assert (Hb0 : 0 <= nr_pins b) by (apply Hpins; now left).
      assert (Hrest0 : 0 <= fold_right Z.add 0
                                       (map nr_pins (before_gpa banks))).
      { clear - Hpins. induction (before_gpa banks) as [| x l IHl];
          [cbn; lia |].
        cbn [map fold_right].
        assert (0 <= nr_pins x) by (apply Hpins; right; now left).
        assert (0 <= fold_right Z.add 0 (map nr_pins l)); [| lia].
        apply IHl. intros y [Hy | Hy]; apply Hpins;
          [now left | right; now right]. }
      assert (Hs : s32 (etc_offset + nr_pins b70)
                   = etc_offset + nr_pins b).
      { rewrite Hb. unfold s32.
        change (2 ^ 31) with 2147483648 in *.
        rewrite Z.mod_small by (change (2 ^ 32) with 4294967296; lia).
        lia. }
      rewrite Hs.
      rewrite (IH banks70 (etc_offset + nr_pins b) Hrest); try lia.
      * f_equal. lia.
      * intros x Hx. apply Hpins. now right.
    + f_equal. unfold pins_of. cbn. lia.
Qed.

(** X14. [exynos_eint_to_pin_num] of the exynos7880 goes through the
    banks of the exynos7880 up to the first one named "gpa..." and adds
    up the pins of the banks at the same places of the table of the
    exynos7870. When that table has as many pins at those places, the
    result is the pin base plus the pins of the banks before the first
    "gpa" bank plus the number of the interrupt; when that table has
    fewer banks than come before the first "gpa" bank, the loop reads
    past its end. *)
Theorem eint_to_pin_num_counts_from_gpa (base eint : Z)
  (banks banks70 : list samsung_pin_bank) :
  (forall b, In b (before_gpa banks) -> 0 <= nr_pins b) ->
  pins_of (before_gpa banks) < 2 ^ 31 ->
  (map nr_pins (firstn (List.length (before_gpa banks)) banks70) =
   map nr_pins (before_gpa banks) ->
   exynos_eint_to_pin_num base banks banks70 eint =
   Some (u32 (base + eint + pins_of (before_gpa banks)))) /\
  ((List.length banks70 < List.length (before_gpa banks))%nat ->
   exynos_eint_to_pin_num base banks banks70 eint = None).
Proof.
  intros Hpins Hsum. split.
  - intros Hsame. unfold exynos_eint_to_pin_num.
    rewrite (eint_etc_offset_run banks banks70 0 Hsame Hpins); [| lia | lia].
    reflexivity.
  - intros Hshort. unfold exynos_eint_to_pin_num.
    assert (Hnone : forall bs bs70 e,
              (List.length bs70 < List.length (before_gpa bs))%nat ->
              eint_etc_offset bs bs70 e = None).
    { induction bs as [| b bs IH]; intros bs70 e Hlt;
        [cbn in Hlt; lia |].
      cbn [eint_etc_offset before_gpa] in *.
      destruct (strncmp_gpa (name b)); [| cbn in Hlt; lia].
      destruct bs70 as [| b70 bs70]; [reflexivity |].
      apply IH. cbn [List.length] in Hlt. lia. }
    now rewrite Hnone.
Qed.

End Properties.

(** ** The driver with the constants of the kernel headers *)

#[local] Existing Instance kernel_headers.
#[local] Existing Instance idle_handlers.

(** The constants of the kernel headers are as the properties above
    require them. *)
Lemma kernel_irq_types_ok :
  irq_types_ok.
Proof.
  unfold irq_types_ok, supported_types. split.
  - repeat constructor; cbn; intuition discriminate.
  - repeat split; discriminate.
Qed.

Lemma kernel_eint_con_ok :
  eint_con_ok.
Proof.
  unfold eint_con_ok. split; [discriminate |]. split; [reflexivity |].
  intros k. destruct k; cbn; split; (discriminate || reflexivity).
Qed.

Lemma kernel_fltcon_ok :
  fltcon_ok.
Proof.
  unfold fltcon_ok. split; [split; [reflexivity | discriminate] |].
  split; [reflexivity |].
  split; [split; [discriminate | reflexivity] |].
  split; [split; [discriminate | reflexivity] |].
  intros w. cbn [EXYNOS_EINT_FLTCON_WIDTH EXYNOS_EINT_FLTCON_LEN
                 kernel_headers].
  change 0x3f with (Z.ones 6). rewrite Z.land_ones by lia.
  pose proof (Z.mod_pos_bound w (2 ^ 6) ltac:(reflexivity)).
  change (2 ^ 6) with 64 in *. change (2 ^ 8) with 256. lia.
Qed.

(** Every wakeup line of the tables has its position in the wake mask
    among the 32 bits of the mask. *)
Lemma wakeup_banks_positions :
  Forall (fun '(pins, offset) =>
            0 <= offset /\ 0 < pins /\ 2 * offset + (pins - 1) < 32)
         wakeup_banks.
Proof.
  unfold wakeup_banks.
  repeat (constructor; [repeat split; (reflexivity || discriminate) |]).
  constructor.
Qed.


Lemma muxed_dispatch_descending_witness :
  [Run.gpa0; Run.gpa1] <> [] /\
  exists s',
    exynos_irq_demux_eint16_31 [Run.gpa0; Run.gpa1] Run.pending_2_5_9
    = Some (tt, s') /\
    trace s' = [EvChainedEnter;
                EvReadl 0xA00 0x204; EvReadl 0x900 0;
                EvHandleIrq 109; EvHandleIrq 102;
                EvReadl 0xA04 0x20; EvReadl 0x904 0;
                EvHandleIrq 205;
                EvChainedExit].
Proof.
  assert (Hne : [Run.gpa0; Run.gpa1] <> []) by discriminate.
  split; [exact Hne |].
  destruct (muxed_dispatch_descending [Run.gpa0; Run.gpa1]
                                      Run.pending_2_5_9 Hne)
    as [(s' & Hrun & Ht) _].
  exists s'. split; [exact Hrun |]. rewrite Ht. vm_compute. reflexivity.
Defined.

Lemma unmask_acks_level_first_witness :
  0 <= hwirq Run.line3_level_high < 32 /\
  exists s',
    exynos_irq_unmask Run.line3_level_high Run.masked_pending3
    = Some (tt, s') /\
    trace s' = [EvWritel 0x08 0xA00;
                EvSpinLock "gpa0"; EvReadl 0x900 0xFF;
                EvWritel 0xF7 0x900; EvSpinUnlock "gpa0"].
Proof.
  assert (Hh : 0 <= hwirq Run.line3_level_high < 32) by (cbn; lia).
  split; [exact Hh |].
  destruct (unmask_acks_level_first
              Run.line3_level_high Run.masked_pending3 Hh) as [Hlevel _].
  destruct Hlevel as (s' & Hrun & Ht & _); [discriminate |].
  exists s'. split; [exact Hrun |]. rewrite Ht. vm_compute. reflexivity.
Defined.

(** C3, as the specification words it, has the level handler for every
    kind but both edges; for a rising edge the line gets the edge
    handler. *)
Lemma set_type_rising_edge_handler :
  option_map (fun r => (fst r, handlers (snd r) 103))
             (exynos_irq_set_type Run.line3_level_high IRQ_TYPE_EDGE_RISING
                             Run.masked_pending3)
  = Some (0, Some handle_edge_irq) /\
  Some handle_edge_irq <> Some handle_level_irq.
Proof. split; [vm_compute; reflexivity | discriminate]. Qed.

Lemma set_type_programs_field_witness :
  0 <= hwirq Run.line3_level_high /\
  EXYNOS_EINT_CON_LEN * (hwirq Run.line3_level_high + 1) <= 32 /\
  exists s',
    exynos_irq_set_type Run.line3_level_high IRQ_TYPE_LEVEL_HIGH
                   Run.masked_pending3 = Some (0, s') /\
    field (regs s' 0x700) 12 4 = EXYNOS_EINT_LEVEL_HIGH /\
    handlers s' 103 = Some handle_level_irq.
Proof.
  assert (Hh : 0 <= hwirq Run.line3_level_high) by (cbn; lia).
  assert (Hfit : EXYNOS_EINT_CON_LEN
                 * (hwirq Run.line3_level_high + 1) <= 32)
    by (cbn; lia).
  split; [exact Hh |]. split; [exact Hfit |].
  destruct (set_type_programs_field
              LevelHigh Run.line3_level_high Run.masked_pending3
              kernel_irq_types_ok kernel_eint_con_ok Hh Hfit)
    as (s' & Hrun & Hfield & _ & _ & Hhandler & _).
  exists s'. split; [exact Hrun |]. split; [exact Hfield | exact Hhandler].
Defined.

Lemma set_type_rejects_unsupported_witness :
  ~ In 0 [1; 2; 3; 4; 8] /\
  exynos_irq_set_type Run.line3_level_high 0 Run.masked_pending3 =
  Some (- 22,
        mk_state (regs Run.masked_pending3) (handlers Run.masked_pending3)
                 [EvErr "unsupported external interrupt type"]).
Proof.
  assert (Hn : ~ In 0 [1; 2; 3; 4; 8])
    by (cbn; intros H; repeat destruct H as [H | H]; try discriminate H;
        exact H).
  split; [exact Hn |].
  exact (set_type_rejects_unsupported
           Run.line3_level_high 0 Run.masked_pending3 Hn).
Defined.

Lemma gpio_irq_dispatches_one_witness :
  exists s',
    exynos_eint_gpio_irq [Run.gpb] Run.service_group1_pin3
    = Some (IRQ_HANDLED, s') /\
    trace s' = [EvReadl 0xB08 0x0B; EvHandleIrq 163].
Proof.
  destruct (gpio_irq_dispatches_one [Run.gpb] Run.service_group1_pin3)
    as [_ Hgroup].
  destruct (Hgroup Run.gpb (mk_domain "gpb" 8 (fun hw => 160 + hw)))
    as [_ Hmapped]; [discriminate | reflexivity | reflexivity |].
  eexists. split; [apply Hmapped; discriminate | reflexivity].
Defined.

Lemma set_wake_one_bit_witness :
  0 <= eint_offset (irqd_bank Run.gpx3_line7) /\
  0 <= hwirq Run.gpx3_line7 /\
  2 * eint_offset (irqd_bank Run.gpx3_line7) + hwirq Run.gpx3_line7 < 32 /\
  0 <= exynos_eint_wake_mask_init < 2 ^ 32 /\
  exists mask',
    exynos_wkup_irq_set_wake Run.gpx3_line7 1 exynos_eint_wake_mask_init
    = Some (0, mask') /\
    Z.testbit mask' 31 = false /\ Z.testbit mask' 30 = true.
Proof.
  assert (H1 : 0 <= eint_offset (irqd_bank Run.gpx3_line7))
    by (cbn; lia).
  assert (H2 : 0 <= hwirq Run.gpx3_line7) by (cbn; lia).
  assert (H3 : 2 * eint_offset (irqd_bank Run.gpx3_line7)
               + hwirq Run.gpx3_line7 < 32) by (cbn; lia).
  assert (H4 : 0 <= exynos_eint_wake_mask_init < 2 ^ 32)
    by (split; [discriminate | reflexivity]).
  repeat (split; [assumption |]).
  destruct (set_wake_one_bit Run.gpx3_line7 exynos_eint_wake_mask_init
                             H1 H2 H3 H4) as (_ & Hon & _).
  destruct (Hon 1) as (mask' & Hrun & Hbits); [discriminate |].
  exists mask'. split; [exact Hrun |]. split.
  - rewrite (Hbits 31) by lia. reflexivity.
  - rewrite (Hbits 30) by lia. reflexivity.
Defined.

Lemma flt_config_programs_pairs_witness :
  0 <= Z.shiftr (nr_pins Run.gpx1) 1 /\
  Z.shiftr (nr_pins Run.gpx1) 1 * EXYNOS_EINT_FLTCON_LEN <= 32 /\
  exists s',
    exynos_eint_flt_config EXYNOS_EINT_FLTCON_EN EXYNOS_EINT_FLTCON_SEL 0
                      Run.gpx1 (machine (fun _ => 0)) = Some (tt, s') /\
    forall i, 0 <= i < 4 ->
      field (regs s' 0x808) (i * 8) 8 = 0xC0 /\
      field (regs s' 0x80C) (i * 8) 8 = 0xC0.
Proof.
  assert (H1 : 0 <= Z.shiftr (nr_pins Run.gpx1) 1) by discriminate.
  assert (H2 : Z.shiftr (nr_pins Run.gpx1) 1 * EXYNOS_EINT_FLTCON_LEN
               <= 32) by discriminate.
  split; [exact H1 |]. split; [exact H2 |].
  destruct (flt_config_programs_pairs
              EXYNOS_EINT_FLTCON_EN EXYNOS_EINT_FLTCON_SEL 0
              Run.gpx1 (machine (fun _ => 0)) kernel_fltcon_ok H1 H2)
    as (_ & s' & Hrun & _ & Hfields & _).
  exists s'. split; [exact Hrun |]. exact Hfields.
Defined.

(** C4. On the exynos5250 the GPIO bank gpa1 (6 pins, three pin pairs)
    and the wakeup bank gpx1 (8 pins, four pin pairs) of pin controller 0
    have the same [eint_offset], and so the same filter registers. When
    the device tree has no wakeup interrupt node, [exynos_eint_wkup_init]
    returns [-ENODEV] and has programmed no filter; a suspend followed by
    a resume then does not leave the first filter register of gpa1 as it
    was: the resume writes the saved value back and then programs the
    register as the filter of gpx1, so that the register holds
    [0x00C0C0C0] before the suspend and [0xC0C0C0C0] after the resume. *)
Theorem suspend_resume_clobbers_gpio_filter :
  let gpa1 := Run.EXYNOS_PIN_BANK_EINTG 6 "gpa1" 0x04 in
  In gpa1 Run.exynos5250_pin_banks0 /\
  is_gpio gpa1 = true /\
  gpio_flt0_reg gpa1 = 0x808 /\
  Run.init_suspend_resume Run.no_wakeup_node 0x808
  = Some (0, - ENODEV, 0x00C0C0C0, 0xC0C0C0C0).
Proof.
  intros gpa1.
  split; [right; left; reflexivity |].
  split; [reflexivity |]. split; [reflexivity |].
  vm_compute. reflexivity.
Qed.

(** When the wakeup interrupt node is there, [exynos_eint_wkup_init] has
    programmed the filter of gpx1 before the suspend, and the register
    comes back as it was. *)
Lemma suspend_resume_after_wkup_init :
  Run.init_suspend_resume Run.all_succeed 0x808
  = Some (0, 0, 0xC0C0C0C0, 0xC0C0C0C0).
Proof. vm_compute. reflexivity. Qed.

Lemma suspend_resume_registers_witness :
  banks_apart [Run.gpb; Run.gpx1] /\
  [Run.gpb; Run.gpx1] <> [] /\
  exists s1 s2,
    let s := machine (fun a => if a =? 0x708 then 0x1234
                                 else if a =? 0x810 then 0xC0C0 else 0) in
    exynos_pinctrl_suspend [Run.gpb; Run.gpx1] s =
    Some (map (save_bank (regs s)) [Run.gpb; Run.gpx1], s1) /\
    regs s2 0x708 = 0x1234 /\ regs s2 0x810 = 0xC0C0 /\
    regs s2 0x814 = 0 /\
    field (regs s1 0x808) 0 8 = 0x80 /\ field (regs s2 0x808) 0 8 = 0xC0.
Proof.
  assert (Hap : banks_apart [Run.gpb; Run.gpx1]).
  { split.
    - intros g w Hg Hw Hgg Hwk a Ha Hin. cbn in Hg, Hw.
      destruct Hg as [<- | [<- | []]]; destruct Hw as [<- | [<- | []]];
        try discriminate Hgg; try discriminate Hwk.
      vm_compute in Ha, Hin.
      destruct Ha as [<- | [<- | [<- | []]]];
        destruct Hin as [H | [H | []]]; discriminate H.
    - intros w w' Hw Hw' Hk Hk'. cbn in Hw, Hw'.
      destruct Hw as [<- | [<- | []]]; destruct Hw' as [<- | [<- | []]];
        try discriminate Hk; try discriminate Hk'.
      left. reflexivity. }
  assert (Hne : [Run.gpb; Run.gpx1] <> []) by discriminate.
  assert (Hpriv : forall g, In g [Run.gpb; Run.gpx1] ->
            is_gpio g = true -> soc_priv g <> None).
  { intros g Hg Hgg. cbn in Hg.
    destruct Hg as [<- | [<- | []]]; [discriminate | discriminate Hgg]. }
  assert (Hfit : forall w, In w [Run.gpb; Run.gpx1] ->
            is_wkup w = true -> pairs_fit w).
  { intros w Hw Hwk. cbn in Hw.
    destruct Hw as [<- | [<- | []]]; [discriminate Hwk |].
    split; discriminate. }
  split; [exact Hap |]. split; [exact Hne |].
  destruct (suspend_resume_registers [Run.gpb; Run.gpx1]
              (machine (fun a => if a =? 0x708 then 0x1234
                                   else if a =? 0x810 then 0xC0C0 else 0))
              kernel_fltcon_ok Hap Hne Hpriv Hfit)
    as (s1 & s2 & Hsus & _ & Hgpio & Hwkup).
  exists s1, s2. split; [exact Hsus |].
  pose proof (Hgpio Run.gpb (or_introl eq_refl) eq_refl) as Hg.
  destruct (Hwkup Run.gpx1 (or_intror (or_introl eq_refl)) eq_refl)
    as (Hanalog & Hdigital).
  split; [exact (Hg 0x708 (or_introl eq_refl)) |].
  split; [exact (Hg 0x810 (or_intror (or_introl eq_refl))) |].
  split; [exact (Hg 0x814 (or_intror (or_intror (or_introl eq_refl)))) |].
  split.
  - exact (proj1 (Hanalog 0 ltac:(split; [reflexivity | reflexivity]))).
  - exact (proj1 (Hdigital 0 ltac:(split; [reflexivity | reflexivity]))).
Defined.

(** C8. When the creation of the domain of the second wakeup bank fails,
    [exynos_eint_wkup_init] returns [-ENXIO] and the domain it has
    created for the first bank is still there: it is not removed. *)
Theorem wkup_init_failure_keeps_domain :
  option_map
    (fun r => (fst (fst (fst r)),
               filter is_domain_event (trace (snd r)),
               live_domains (trace (snd r)) []))
    (exynos_eint_wkup_init Run.second_domain_fails [Run.gpx0; Run.gpx1]
                      (machine (fun _ => 0)))
  = Some (- ENXIO, [EvDomainAdd "gpx0"], ["gpx0"%string]).
Proof. vm_compute. reflexivity. Qed.

(** On the same platform [exynos_eint_gpio_init] removes the domain of
    the first bank before it returns [-ENXIO]. *)
Lemma gpio_init_failure_removes_domain :
  option_map
    (fun r => (fst (fst r),
               filter is_domain_event (trace (snd r)),
               live_domains (trace (snd r)) []))
    (exynos_eint_gpio_init Run.second_domain_fails
                      [set_eint_type EINT_TYPE_GPIO Run.gpx0;
                       set_eint_type EINT_TYPE_GPIO Run.gpx1]
                      (machine (fun _ => 0)))
  = Some (- ENXIO, [EvDomainAdd "gpx0"; EvDomainRemove "gpx0"], []).
Proof. vm_compute. reflexivity. Qed.

(** ** lib/dump_stack.c: the lock *)

(** While the CPU holds the lock, a run of [__dump_stack] with any
    nested dumps returns with the lock still held by the CPU. *)
Lemma dump_stack_body_keeps_lock (cpu : Z) (b : DumpStack.body) :
  DumpStack.__dump_stack cpu b cpu = Some cpu.
Proof.
  induction b as [| inner IHinner rest IHrest]; [reflexivity |].
  cbn [DumpStack.__dump_stack].
  unfold DumpStack._dump_stack_around, DumpStack.atomic_cmpxchg.
  destruct (Z.eqb_spec cpu (-1)) as [E | N].
  - rewrite IHinner. rewrite E in *. exact IHrest.
  - destruct (Z.eqb_spec cpu (-1)); [contradiction |].
    rewrite Z.eqb_refl, IHinner. exact IHrest.
Qed.

(** A call that finds the lock held by another CPU waits for it. *)
Lemma dump_stack_waits_for_other (cpu : Z) (b : DumpStack.body)
  (lock : Z) :
  lock <> -1 -> lock <> cpu -> DumpStack._dump_stack cpu b lock = None.
Proof.
  intros Hfree Hmine.
  unfold DumpStack._dump_stack, DumpStack._dump_stack_around,
    DumpStack.atomic_cmpxchg.
  destruct (Z.eqb_spec lock (-1)); [contradiction |].
  destruct (Z.eqb_spec lock (-1)); [contradiction |].
  destruct (Z.eqb_spec lock cpu); [contradiction | reflexivity].
Qed.

(** The other CPUs cannot move the lock while the CPU holds it. *)
Lemma interference_held (cpu l l' : Z) :
  cpu <> -1 -> DumpStack.interference cpu l l' -> l = cpu -> l' = cpu.
Proof.
  intros Hcpu Hint. induction Hint as [l | l l1 l2 Hstep _ _];
    intros Hl; [exact Hl |].
  subst l. inversion Hstep; subst; congruence.
Qed.

(** The other CPUs cannot give the lock to the CPU. *)
Lemma interference_not_mine (cpu l l' : Z) :
  cpu <> -1 -> DumpStack.interference cpu l l' -> l <> cpu -> l' <> cpu.
Proof.
  intros Hcpu Hint. induction Hint as [l | l l1 l2 Hstep _ IH];
    intros Hl; [exact Hl |].
  apply IH. inversion Hstep; subst; congruence.
Qed.

Lemma dump_call_around_held (run : Z -> Z -> Prop) (cpu l l' : Z) :
  cpu <> -1 ->
  (forall l1, run cpu l1 -> l1 = cpu) ->
  DumpStack.dump_call_around run cpu l l' -> l = cpu -> l' = cpu.
Proof.
  intros Hcpu Hrun Hcall.
  induction Hcall as [l l1 Hint _ | l l1 Hint _ Hr | l l0 l' Hint _ Hne _ _];
    intros Hl.
  - apply (interference_held cpu l (-1) Hcpu Hint) in Hl. congruence.
  - now apply Hrun.
  - apply (interference_held cpu l l0 Hcpu Hint) in Hl. congruence.
Qed.

Lemma dump_call_around_free (run : Z -> Z -> Prop) (cpu l l' : Z) :
  cpu <> -1 ->
  DumpStack.dump_call_around run cpu l l' -> l <> cpu -> l' = -1.
Proof.
  intros Hcpu Hcall.
  induction Hcall as [l l1 _ _ | l l1 Hint _ _ | l l0 l' _ _ Hne _ IH];
    intros Hl.
  - reflexivity.
  - now destruct (interference_not_mine cpu l cpu Hcpu Hint Hl).
  - apply IH, Hne.
Qed.

Lemma body_run_held (cpu : Z) (b : DumpStack.body) (l' : Z) :
  cpu <> -1 -> DumpStack.body_run cpu b cpu l' -> l' = cpu.
Proof.
  intros Hcpu. revert l'.
  induction b as [| inner IHinner rest IHrest]; intros l' Hrun.
  - now apply (interference_held cpu cpu l' Hcpu Hrun).
  - destruct Hrun as (l1 & Hcall & Hrest).
    apply (dump_call_around_held _ cpu cpu l1 Hcpu IHinner) in Hcall;
      [| reflexivity].
    subst l1. now apply IHrest.
Qed.

(** The call run by the CPU alone is one of the completed calls. *)
Lemma dump_stack_body_is_run (cpu : Z) (b : DumpStack.body) :
  cpu <> -1 ->
  forall l l', DumpStack.__dump_stack cpu b l = Some l' ->
               DumpStack.body_run cpu b l l'.
Proof.
  intros Hcpu.
  induction b as [| inner IHinner rest IHrest]; intros l l' Hrun.
  - cbn in Hrun. injection Hrun as <-. constructor.
  - cbn [DumpStack.__dump_stack] in Hrun.
    destruct (DumpStack._dump_stack_around
                (DumpStack.__dump_stack cpu inner) cpu l)
      as [l1 |] eqn:Hcall; [| discriminate].
    exists l1. split; [| now apply IHrest].
    unfold DumpStack._dump_stack_around, DumpStack.atomic_cmpxchg in Hcall.
    destruct (Z.eqb_spec l (-1)) as [-> | Hl].
    + cbn [Z.eqb] in Hcall.
      destruct (DumpStack.__dump_stack cpu inner cpu) as [x |] eqn:Hb;
        [| discriminate].
      injection Hcall as <-.
      apply (DumpStack.call_acquire _ cpu (-1) x); [constructor |].
      now apply IHinner.
    + destruct (Z.eqb_spec l (-1)); [contradiction |].
      destruct (Z.eqb_spec l cpu) as [-> | _]; [| discriminate].
      apply (DumpStack.call_nested _ cpu cpu l1);
        [constructor | exact Hcpu | now apply IHinner].
Qed.

(** C10. A call of [_dump_stack] by a CPU that finds the lock free, or
    held by itself, leaves the lock as it was on entry: run by the CPU
    alone the call returns with the lock at its entry value, and among
    the moves of the other CPUs every completed call leaves the lock at
    its entry value with its last access to it. The lock is free again
    after the outer call, and still held by the CPU after a nested
    one. *)
Theorem dump_stack_restores_lock (cpu : Z) (b : DumpStack.body)
  (lock : Z) :
  0 <= cpu ->
  lock = -1 \/ lock = cpu ->
  DumpStack._dump_stack cpu b lock = Some lock /\
  forall lock', DumpStack.dump_call cpu b lock lock' -> lock' = lock.
Proof.
  intros Hcpu Hlock.
  assert (Hne : cpu <> -1) by lia.
  split.
  - unfold DumpStack._dump_stack, DumpStack._dump_stack_around,
      DumpStack.atomic_cmpxchg.
    destruct (Z.eqb_spec lock (-1)) as [E | N].
    + rewrite E. cbn [Z.eqb]. rewrite dump_stack_body_keeps_lock.
      reflexivity.
    + destruct Hlock as [E | ->]; [contradiction |].
      destruct (Z.eqb_spec cpu (-1)); [contradiction |].
      rewrite Z.eqb_refl. apply dump_stack_body_keeps_lock.
  - intros lock' Hcall. unfold DumpStack.dump_call in Hcall.
    destruct Hlock as [-> | ->].
    + apply (dump_call_around_free _ cpu (-1) lock' Hne Hcall). congruence.
    + exact (dump_call_around_held
               (DumpStack.body_run cpu b) cpu cpu lock' Hne
               (fun l1 => body_run_held cpu b l1 Hne) Hcall eq_refl).
Qed.

(** The call run by the CPU alone is a completed call. *)
Lemma dump_stack_is_call (cpu : Z) (b : DumpStack.body) (l l' : Z) :
  cpu <> -1 ->
  DumpStack._dump_stack cpu b l = Some l' -> DumpStack.dump_call cpu b l l'.
Proof.
  intros Hcpu Hcall.
  unfold DumpStack._dump_stack, DumpStack._dump_stack_around,
    DumpStack.atomic_cmpxchg in Hcall.
  unfold DumpStack.dump_call.
  destruct (Z.eqb_spec l (-1)) as [-> | Hl].
  - cbn [Z.eqb] in Hcall.
    destruct (DumpStack.__dump_stack cpu b cpu) as [x |] eqn:Hb;
      [| discriminate].
    injection Hcall as <-.
    apply (DumpStack.call_acquire _ cpu (-1) x); [constructor |].
    now apply dump_stack_body_is_run.
  - destruct (Z.eqb_spec l (-1)); [contradiction |].
    destruct (Z.eqb_spec l cpu) as [-> | _]; [| discriminate].
    apply (DumpStack.call_nested _ cpu cpu l');
      [constructor | exact Hcpu | now apply dump_stack_body_is_run].
Qed.

Lemma dump_stack_restores_lock_witness :
  0 <= 2 /\
  (DumpStack.dump_lock_init = -1 \/ DumpStack.dump_lock_init = 2) /\
  DumpStack._dump_stack
    2 (DumpStack.Nested (DumpStack.Nested DumpStack.Quiet DumpStack.Quiet)
                        DumpStack.Quiet)
    DumpStack.dump_lock_init
  = Some DumpStack.dump_lock_init.
Proof.
  assert (Hcpu : 0 <= 2) by lia.
  assert (H : DumpStack.dump_lock_init = -1 \/ DumpStack.dump_lock_init = 2)
    by (left; reflexivity).
  split; [exact Hcpu |]. split; [exact H |].
  exact (proj1 (dump_stack_restores_lock 2 _ DumpStack.dump_lock_init
                                         Hcpu H)).
Defined.

(** The call run by the CPU alone returns as a completed call does. *)
Lemma dump_stack_is_return (cpu : Z) (b : DumpStack.body) (l l' : Z) :
  cpu <> -1 ->
  DumpStack._dump_stack cpu b l = Some l' ->
  DumpStack.dump_return cpu b l l'.
Proof.
  intros Hcpu Hcall. exists l'.
  split; [now apply dump_stack_is_call | constructor].
Qed.

(** X15. A call of [_dump_stack] by a CPU that does not hold the lock on
    entry never keeps it. When another CPU holds the lock, the call left
    alone waits. With the other CPUs running, every completed call has
    released the lock it has taken: what the lock holds on return is what
    the other CPUs have made of the free lock since, the lock is free or
    held by another CPU, and never by the caller. *)
Theorem dump_stack_waits_and_releases (cpu : Z) (b : DumpStack.body)
  (lock : Z) :
  0 <= cpu -> lock <> cpu ->
  (lock <> -1 -> DumpStack._dump_stack cpu b lock = None) /\
  (forall lock', DumpStack.dump_return cpu b lock lock' ->
     DumpStack.interference cpu (-1) lock' /\ lock' <> cpu).
Proof.
  intros Hcpu Hother.
  assert (Hne : cpu <> -1) by lia.
  split.
  - intros Hfree. now apply dump_stack_waits_for_other.
  - intros lock' (l0 & Hcall & Hint).
    apply (dump_call_around_free (DumpStack.body_run cpu b) cpu lock l0)
      in Hcall; [| exact Hne | exact Hother].
    subst l0. split; [exact Hint |].
    apply (interference_not_mine cpu (-1) lock' Hne Hint). congruence.
Qed.

(** ** The further properties on concrete inputs *)

#[local] Existing Instance kernel_pin_headers.

Lemma mask_sets_line_bit_witness :
  0 <= hwirq Run.line3_level_high < 32 /\
  exists s',
    exynos_irq_mask Run.line3_level_high (machine (fun _ => 0))
    = Some (tt, s') /\
    Z.testbit (regs s' 0x900) 3 = true /\
    Z.testbit (regs s' 0x900) 4 = false.
Proof.
  assert (Hh : 0 <= hwirq Run.line3_level_high < 32) by (cbn; lia).
  split; [exact Hh |].
  destruct (mask_sets_line_bit Run.line3_level_high
                               (machine (fun _ => 0)) Hh)
    as (s' & Hrun & _ & Hbits & _).
  exists s'. split; [exact Hrun |]. split.
  - exact (Hbits 3 ltac:(lia)).
  - exact (Hbits 4 ltac:(lia)).
Defined.

Lemma mask_unmask_lines_witness :
  let line5 := mk_irqd 105 5 (mk_chip 0x700 0x900 0xA00) Run.gpa0 1 in
  0 <= hwirq Run.line3_level_high < 32 /\ 0 <= hwirq line5 < 32 /\
  irqd_chip Run.line3_level_high = irqd_chip line5 /\
  irqd_bank Run.line3_level_high = irqd_bank line5 /\
  exists s1 s2,
    exynos_irq_mask Run.line3_level_high (machine (fun _ => 0x20))
    = Some (tt, s1) /\
    exynos_irq_unmask line5 s1 = Some (tt, s2) /\
    Z.testbit (regs s2 0x900) 3 = true /\
    Z.testbit (regs s2 0x900) 5 = false.
Proof.
  intros line5.
  assert (H1 : 0 <= hwirq Run.line3_level_high < 32) by (cbn; lia).
  assert (H2 : 0 <= hwirq line5 < 32) by (cbn; lia).
  split; [exact H1 |]. split; [exact H2 |].
  split; [reflexivity |]. split; [reflexivity |].
  destruct (mask_unmask_lines Run.line3_level_high line5
                              (machine (fun _ => 0x20)) H1 H2
                              eq_refl eq_refl)
    as [(s1 & s2 & Hrun1 & Hrun2 & Hbits) _]; [discriminate |].
  exists s1, s2. split; [exact Hrun1 |]. split; [exact Hrun2 |].
  split.
  - exact (Hbits 3 ltac:(lia)).
  - exact (Hbits 5 ltac:(lia)).
Defined.

Lemma set_type_last_wins_witness :
  irq_types_ok /\ eint_con_ok /\
  0 <= hwirq Run.line3_level_high /\
  EXYNOS_EINT_CON_LEN * (hwirq Run.line3_level_high + 1) <= 32 /\
  exists s1 s2 s2',
    exynos_irq_set_type Run.line3_level_high IRQ_TYPE_EDGE_RISING
                        Run.masked_pending3 = Some (0, s1) /\
    exynos_irq_set_type Run.line3_level_high IRQ_TYPE_LEVEL_LOW s1
    = Some (0, s2) /\
    exynos_irq_set_type Run.line3_level_high IRQ_TYPE_LEVEL_LOW
                        Run.masked_pending3 = Some (0, s2') /\
    regs s2 0x700 = regs s2' 0x700 /\ handlers s2 103 = handlers s2' 103.
Proof.
  assert (Hh : 0 <= hwirq Run.line3_level_high) by (cbn; lia).
  assert (Hfit : EXYNOS_EINT_CON_LEN
                 * (hwirq Run.line3_level_high + 1) <= 32)
    by (cbn; lia).
  split; [exact kernel_irq_types_ok |].
  split; [exact kernel_eint_con_ok |].
  split; [exact Hh |]. split; [exact Hfit |].
  destruct (set_type_last_wins RisingEdge LevelLow Run.line3_level_high
              Run.masked_pending3 kernel_irq_types_ok kernel_eint_con_ok
              Hh Hfit)
    as (s1 & s2 & s2' & Hrun1 & Hrun2 & Hrun2' & Hregs & Hhandlers).
  exists s1, s2, s2'.
  split; [exact Hrun1 |]. split; [exact Hrun2 |]. split; [exact Hrun2' |].
  split; [apply Hregs | apply Hhandlers].
Defined.

Lemma request_resources_sets_function_witness :
  let cfg := mk_bank_cfg bank_type_5 0x040 in
  let w := nth PINCFG_TYPE_FUNC (fld_width (bank_type cfg)) 0 in
  0 < w < 31 /\ 0 <= hwirq Run.line3_level_high /\
  w * (hwirq Run.line3_level_high + 1) <= 32 /\
  0 <= EXYNOS_EINT_FUNC < 2 ^ w /\ s32 0 = 0 /\
  exists s',
    exynos_irq_request_resources cfg 0 Run.line3_level_high
                                 (machine (fun _ => 0x22222222))
    = Some (0, s') /\
    field (regs s' 0x040) 12 4 = 0xF.
Proof.
  intros cfg w.
  assert (Hw : 0 < w < 31) by (cbn; lia).
  assert (Hh : 0 <= hwirq Run.line3_level_high) by (cbn; lia).
  assert (Hfit : w * (hwirq Run.line3_level_high + 1) <= 32)
    by (cbn; lia).
  assert (Hc : 0 <= EXYNOS_EINT_FUNC < 2 ^ w)
    by (split; [discriminate | reflexivity]).
  assert (Hret : s32 0 = 0) by reflexivity.
  split; [exact Hw |]. split; [exact Hh |]. split; [exact Hfit |].
  split; [exact Hc |]. split; [exact Hret |].
  destruct (request_resources_sets_function
              cfg 0 Run.line3_level_high (machine (fun _ => 0x22222222))
              Hw Hh Hfit Hc) as [_ Hok].
  destruct (Hok Hret) as (s' & Hrun & Hfield & _).
  exists s'. split; [exact Hrun | exact Hfield].
Defined.

Lemma release_after_request_is_input_witness :
  let cfg := mk_bank_cfg bank_type_5 0x040 in
  let w := nth PINCFG_TYPE_FUNC (fld_width (bank_type cfg)) 0 in
  s32 0 = 0 /\ 0 < w < 31 /\ 0 <= hwirq Run.line3_level_high /\
  w * (hwirq Run.line3_level_high + 1) <= 32 /\
  0 <= EXYNOS_EINT_FUNC < 2 ^ w /\ 0 <= FUNC_INPUT < 2 ^ w /\
  exists s1 s2,
    exynos_irq_request_resources cfg 0 Run.line3_level_high
                                 (machine (fun _ => 0x22222222))
    = Some (0, s1) /\
    exynos_irq_release_resources cfg Run.line3_level_high s1
    = Some (tt, s2) /\
    field (regs s2 0x040) 12 4 = 0.
Proof.
  intros cfg w.
  assert (Hret : s32 0 = 0) by reflexivity.
  assert (Hw : 0 < w < 31) by (cbn; lia).
  assert (Hh : 0 <= hwirq Run.line3_level_high) by (cbn; lia).
  assert (Hfit : w * (hwirq Run.line3_level_high + 1) <= 32)
    by (cbn; lia).
  assert (Hc : 0 <= EXYNOS_EINT_FUNC < 2 ^ w)
    by (split; [discriminate | reflexivity]).
  assert (Hi : 0 <= FUNC_INPUT < 2 ^ w)
    by (split; [discriminate | reflexivity]).
  split; [exact Hret |]. split; [exact Hw |]. split; [exact Hh |].
  split; [exact Hfit |]. split; [exact Hc |]. split; [exact Hi |].
  destruct (release_after_request_is_input
              cfg 0 Run.line3_level_high (machine (fun _ => 0x22222222))
              Hret Hw Hh Hfit Hc Hi)
    as (s1 & s2 & Hrun1 & Hrun2 & Hfield & _).
  exists s1, s2. split; [exact Hrun1 |]. split; [exact Hrun2 |].
  exact Hfield.
Defined.

Lemma gpio_init_failure_unwinds_witness :
  exists banks' s' evs,
    exynos_eint_gpio_init Run.second_domain_fails
                          [set_eint_type EINT_TYPE_GPIO Run.gpx0;
                           set_eint_type EINT_TYPE_GPIO Run.gpx1]
                          (machine (fun _ => 0))
    = Some ((- ENXIO, banks'), s') /\
    trace s' = evs /\ live_domains evs [] = [].
Proof.
  destruct (gpio_init_failure_unwinds
              Run.second_domain_fails
              [set_eint_type EINT_TYPE_GPIO Run.gpx0;
               set_eint_type EINT_TYPE_GPIO Run.gpx1]
              (machine (fun _ => 0)))
    as (r & banks' & s' & evs & Hrun & Ht & Hfail).
  assert (Hr : r = - ENXIO).
  { revert Hrun. vm_compute. intros [= <- _ _]. reflexivity. }
  exists banks', s', evs. rewrite <- Hr. split; [exact Hrun |].
  split; [exact Ht |].
  apply Hfail. rewrite Hr. discriminate.
Defined.

Lemma gpio_init_programs_digital_filter_witness :
  let banks := map fst Exynos7880.exynos7880_pin_banks2 in
  fltcon_ok /\
  d_irq Run.all_succeed <> 0 /\ request_irq_ret Run.all_succeed = 0 /\
  (forall i, domain_add_ok Run.all_succeed i = true) /\
  (forall i, kzalloc_save_ok Run.all_succeed i = true) /\
  (forall b, In b banks -> is_gpio b = true -> pairs_fit b) /\
  (forall b b', In b banks -> In b' banks ->
     is_gpio b = true -> is_gpio b' = true ->
     flt_reg_of b = flt_reg_of b' \/
     forall a, In a (flt_regs b) -> ~ In a (flt_regs b')) /\
  exists s1,
    exynos_eint_gpio_init Run.all_succeed banks (machine (fun _ => 0)) =
    Some ((0, map gpio_setup banks), s1) /\
    field (regs s1 0x808) 16 8 = 0xC0 /\ field (regs s1 0x80C) 0 8 = 0xC0.
Proof.
  intros banks.
  assert (H1 : d_irq Run.all_succeed <> 0) by discriminate.
  assert (H2 : request_irq_ret Run.all_succeed = 0) by reflexivity.
  assert (H3 : forall i, domain_add_ok Run.all_succeed i = true)
    by reflexivity.
  assert (H4 : forall i, kzalloc_save_ok Run.all_succeed i = true)
    by reflexivity.
  assert (H5 : forall b, In b banks -> is_gpio b = true -> pairs_fit b).
  { intros b Hb _. cbn in Hb.
    repeat (destruct Hb as [<- | Hb]; [split; discriminate |]).
    destruct Hb. }
  assert (H6 : forall b b', In b banks -> In b' banks ->
            is_gpio b = true -> is_gpio b' = true ->
            flt_reg_of b = flt_reg_of b' \/
            forall a, In a (flt_regs b) -> ~ In a (flt_regs b')).
  { intros b b' Hb Hb' _ _. cbn in Hb, Hb'.
    destruct Hb as [<- | [<- | [<- | []]]];
      destruct Hb' as [<- | [<- | [<- | []]]];
      first [ left; reflexivity
            | right; vm_compute;
              intros a [<- | [<- | []]] [H | [H | []]]; discriminate H ]. }
  split; [exact kernel_fltcon_ok |].
  split; [exact H1 |]. split; [exact H2 |]. split; [exact H3 |].
  split; [exact H4 |]. split; [exact H5 |]. split; [exact H6 |].
  destruct (gpio_init_programs_digital_filter
              Run.all_succeed banks (machine (fun _ => 0))
              kernel_fltcon_ok H1 H2 H3 H4 H5 H6) as (s1 & Hrun & Hflt).
  exists s1. split; [exact Hrun |].
  assert (Hin : In (fst (Exynos7880.EXYNOS_PIN_BANK_EINTG
                           bank_type_4 6 0x020 "gpz1" 0x04)) banks)
    by (right; left; reflexivity).
  pose proof (Hflt _ Hin eq_refl) as Hh.
  split.
  - exact (proj1 (Hh 2 ltac:(split; [discriminate | reflexivity]))).
  - exact (proj2 (Hh 0 ltac:(split; [discriminate | reflexivity]))).
Defined.

Lemma gpio_init_then_suspend_resume_witness :
  let banks := map fst Exynos7880.exynos7880_pin_banks4 in
  d_irq Run.all_succeed <> 0 /\ request_irq_ret Run.all_succeed = 0 /\
  (forall i, domain_add_ok Run.all_succeed i = true) /\
  (forall i, kzalloc_save_ok Run.all_succeed i = true) /\
  banks <> [] /\
  exists s1,
    exynos_eint_gpio_init Run.all_succeed banks (machine (fun _ => 0)) =
    Some ((0, map gpio_setup banks), s1).
Proof.
  intros banks.
  assert (H1 : d_irq Run.all_succeed <> 0) by discriminate.
  assert (H2 : request_irq_ret Run.all_succeed = 0) by reflexivity.
  assert (H3 : forall i, domain_add_ok Run.all_succeed i = true)
    by reflexivity.
  assert (H4 : forall i, kzalloc_save_ok Run.all_succeed i = true)
    by reflexivity.
  assert (H5 : banks <> []) by discriminate.
  split; [exact H1 |]. split; [exact H2 |]. split; [exact H3 |].
  split; [exact H4 |]. split; [exact H5 |].
  destruct (gpio_init_then_suspend_resume
              Run.all_succeed banks (machine (fun _ => 0)) H1 H2 H3 H4 H5)
    as (s1 & Hrun & _).
  exists s1. exact Hrun.
Defined.

Lemma suspend_writes_wakeup_filters_only_witness :
  [Run.gpb; Run.gpx1] <> [] /\
  (forall b, In b [Run.gpb; Run.gpx1] -> is_gpio b = true ->
             soc_priv b <> None) /\
  exists saved s1,
    exynos_pinctrl_suspend [Run.gpb; Run.gpx1]
                           (machine (fun _ => 0x1234)) =
    Some (saved, s1) /\
    regs s1 0x708 = 0x1234 /\ regs s1 0x810 = 0x1234.
Proof.
  assert (Hne : [Run.gpb; Run.gpx1] <> []) by discriminate.
  assert (Hpriv : forall b, In b [Run.gpb; Run.gpx1] ->
            is_gpio b = true -> soc_priv b <> None).
  { intros b Hb Hg. cbn in Hb.
    destruct Hb as [<- | [<- | []]]; [discriminate | discriminate Hg]. }
  split; [exact Hne |]. split; [exact Hpriv |].
  destruct (suspend_writes_wakeup_filters_only
              [Run.gpb; Run.gpx1] (machine (fun _ => 0x1234)) Hne)
    as [Hok _].
  destruct (Hok Hpriv) as (saved & s1 & Hrun & Hfr).
  assert (Hout : forall a, a = 0x708 \/ a = 0x810 ->
            forall w, In w [Run.gpb; Run.gpx1] -> is_wkup w = true ->
                      ~ In a (flt_regs w)).
  { intros a Ha w Hw Hwk. cbn in Hw.
    destruct Hw as [<- | [<- | []]]; [discriminate Hwk |].
    vm_compute. intros [H | [H | []]]; destruct Ha as [-> | ->];
      discriminate H. }
  exists saved, s1. split; [exact Hrun |]. split.
  - exact (Hfr 0x708 (Hout 0x708 (or_introl eq_refl))).
  - exact (Hfr 0x810 (Hout 0x810 (or_intror eq_refl))).
Defined.

Lemma wkup_init_muxed_banks_witness :
  let banks := map fst Exynos7880.exynos7880_pin_banks0 in
  (forall b, In b banks -> is_wkup_mux b = false) /\
  Z.of_nat (List.length banks) < 2 ^ 32 /\
  exists banks' s',
    wkup_init_loop Run.all_succeed 0 [] banks 0 (machine (fun _ => 0))
    = Some ((None, banks', 4), s') /\
    4 = muxed_count banks'.
Proof.
  intros banks.
  assert (Hno : forall b, In b banks -> is_wkup_mux b = false).
  { intros b Hb. cbn in Hb.
    repeat (destruct Hb as [<- | Hb]; [reflexivity |]). destruct Hb. }
  assert (Hlen : Z.of_nat (List.length banks) < 2 ^ 32) by reflexivity.
  split; [exact Hno |]. split; [exact Hlen |].
  assert (Hrun : exists banks' s',
             wkup_init_loop Run.all_succeed 0 [] banks 0
                            (machine (fun _ => 0))
             = Some ((None, banks', 4), s')).
  { vm_compute. do 2 eexists. reflexivity. }
  destruct Hrun as (banks' & s' & Hrun).
  exists banks', s'. split; [exact Hrun |].
  exact (proj1 (wkup_init_muxed_banks Run.all_succeed banks
                  (machine (fun _ => 0)) Hno Hlen) banks' 4 s' Hrun).
Defined.

Lemma set_wake_lines_witness :
  let chip := mk_chip 0x700 0x900 0xA00 in
  let etc0 :=
    fst (Exynos7880.EXYNOS_PIN_BANK_EINTW bank_type_5 6 0x000 "etc0" 0x00) in
  let gpa0 :=
    fst (Exynos7880.EXYNOS_PIN_BANK_EINTW bank_type_5 8 0x040 "gpa0" 0x00) in
  let etc0_line1 := mk_irqd 100 1 chip etc0 1 in
  let gpa0_line1 := mk_irqd 120 1 chip gpa0 1 in
  In etc0 (map fst Exynos7880.exynos7870_pin_banks0) /\
  In gpa0 (map fst Exynos7880.exynos7870_pin_banks0) /\
  0 <= eint_offset (irqd_bank etc0_line1) /\ 0 <= hwirq etc0_line1 /\
  2 * eint_offset (irqd_bank etc0_line1) + hwirq etc0_line1 < 32 /\
  0 <= eint_offset (irqd_bank gpa0_line1) /\ 0 <= hwirq gpa0_line1 /\
  2 * eint_offset (irqd_bank gpa0_line1) + hwirq gpa0_line1 < 32 /\
  0 <= exynos_eint_wake_mask_init < 2 ^ 32 /\
  exists mask1 mask2,
    exynos_wkup_irq_set_wake etc0_line1 1 exynos_eint_wake_mask_init
    = Some (0, mask1) /\
    exynos_wkup_irq_set_wake gpa0_line1 0 mask1 = Some (0, mask2) /\
    Z.testbit mask1 1 = false /\ Z.testbit mask2 1 = true /\
    exynos_wkup_irq_set_wake gpa0_line1 0 exynos_eint_wake_mask_init
    = Some (0, mask2).
Proof.
  intros chip etc0 gpa0 etc0_line1 gpa0_line1.
  assert (H1 : 0 <= eint_offset (irqd_bank etc0_line1)) by (cbn; lia).
  assert (H2 : 0 <= hwirq etc0_line1) by (cbn; lia).
  assert (H3 : 2 * eint_offset (irqd_bank etc0_line1)
               + hwirq etc0_line1 < 32) by (cbn; lia).
  assert (H4 : 0 <= eint_offset (irqd_bank gpa0_line1)) by (cbn; lia).
  assert (H5 : 0 <= hwirq gpa0_line1) by (cbn; lia).
  assert (H6 : 2 * eint_offset (irqd_bank gpa0_line1)
               + hwirq gpa0_line1 < 32) by (cbn; lia).
  assert (H7 : 0 <= exynos_eint_wake_mask_init < 2 ^ 32)
    by (split; [discriminate | reflexivity]).
  split; [left; reflexivity |].
  split; [right; right; left; reflexivity |].
  repeat (split; [assumption |]).
  destruct (set_wake_lines etc0_line1 gpa0_line1 1 0
                           exynos_eint_wake_mask_init
                           H1 H2 H3 H4 H5 H6 H7)
    as (mask1 & mask2 & Hrun1 & Hrun2 & Hbits & Hsame).
  exists mask1, mask2. split; [exact Hrun1 |]. split; [exact Hrun2 |].
  split; [revert Hrun1; vm_compute; now intros [= <-] |].
  split; [exact (Hbits 1 ltac:(lia)) | exact (Hsame eq_refl)].
Defined.

Lemma set_wake_beyond_mask_witness :
  let line0 :=
    mk_irqd 100 0 (mk_chip 0x700 0x900 0xA00)
            (mk_bank "gpb1" 5 EINT_TYPE_WKUP 0x10 None None) 1 in
  0 <= eint_offset (irqd_bank line0) /\
  2 * eint_offset (irqd_bank line0) < 2 ^ 32 /\
  0 <= hwirq line0 /\
  32 <= 2 * eint_offset (irqd_bank line0) + hwirq line0 < 64 /\
  0 <= exynos_eint_wake_mask_init < 2 ^ 32 /\
  exynos_wkup_irq_set_wake line0 1 exynos_eint_wake_mask_init
  = Some (0, exynos_eint_wake_mask_init).
Proof.
  intros line0.
  assert (H1 : 0 <= eint_offset (irqd_bank line0)) by (cbn; lia).
  assert (H2 : 2 * eint_offset (irqd_bank line0) < 2 ^ 32)
    by reflexivity.
  assert (H3 : 0 <= hwirq line0) by (cbn; lia).
  assert (H4 : 32 <= 2 * eint_offset (irqd_bank line0) + hwirq line0 < 64)
    by (cbn; lia).
  assert (H5 : 0 <= exynos_eint_wake_mask_init < 2 ^ 32)
    by (split; [discriminate | reflexivity]).
  repeat (split; [assumption |]).
  exact (set_wake_beyond_mask line0 1 exynos_eint_wake_mask_init
                              H1 H2 H3 H4 H5).
Defined.

Lemma flt_config_second_register_copies_witness :
  let gpa3 := mk_bank "gpa3" 5 EINT_TYPE_WKUP 0x0c None None in
  let s := machine (fun a => if a =? 0x818 then 0x11223344
                             else if a =? 0x81C then 0x55667788 else 0) in
  fltcon_ok /\ pairs_fit gpa3 /\
  In gpa3 (map fst Exynos7880.exynos7880_pin_banks0) /\
  exists s',
    exynos_eint_flt_config EXYNOS_EINT_FLTCON_EN EXYNOS_EINT_FLTCON_SEL 0
                           gpa3 s = Some (tt, s') /\
    regs s' 0x81C = regs s' 0x818 /\
    field (regs s' 0x81C) 16 8 = 0x22.
Proof.
  intros gpa3 s.
  assert (Hfit : pairs_fit gpa3) by (split; discriminate).
  split; [exact kernel_fltcon_ok |]. split; [exact Hfit |].
  split; [cbn; auto 10 |].
  destruct (flt_config_second_register_copies
              EXYNOS_EINT_FLTCON_EN EXYNOS_EINT_FLTCON_SEL 0 gpa3 s
              kernel_fltcon_ok Hfit) as (s' & Hrun & _ & Hpos).
  destruct (Hpos eq_refl) as [Hcopy Hfields].
  exists s'. split; [exact Hrun |]. split; [exact Hcopy |].
  exact (Hfields 2 ltac:(discriminate) ltac:(discriminate)).
Defined.

Lemma banks_apart_criterion_witness :
  let banks := map fst Exynos7880.exynos7880_pin_banks0 in
  ((forall b, In b banks -> is_gpio b = false) \/
   (forall b, In b banks -> is_wkup b = false)) /\
  (forall w, In w banks -> is_wkup w = true ->
     eint_offset w mod 4 = 0 /\
     0 <= EXYNOS_GPIO_EFLTCON_OFFSET + 2 * eint_offset w < 2 ^ 32) /\
  banks_apart banks.
Proof.
  intros banks.
  assert (Hkind : (forall b, In b banks -> is_gpio b = false) \/
                  (forall b, In b banks -> is_wkup b = false)).
  { left. intros b Hb. cbn in Hb.
    repeat (destruct Hb as [<- | Hb]; [reflexivity |]). destruct Hb. }
  assert (Hoff : forall w, In w banks -> is_wkup w = true ->
            eint_offset w mod 4 = 0 /\
            0 <= EXYNOS_GPIO_EFLTCON_OFFSET + 2 * eint_offset w < 2 ^ 32).
  { intros w Hw _. cbn in Hw.
    repeat (destruct Hw as [<- | Hw];
            [split; [reflexivity | split; [discriminate | reflexivity]] |]).
    destruct Hw. }
  split; [exact Hkind |]. split; [exact Hoff |].
  exact (banks_apart_criterion banks Hkind Hoff).
Defined.

Lemma eint_to_pin_num_counts_from_gpa_witness :
  let banks := map fst Exynos7880.exynos7880_pin_banks0 in
  let banks70 := map fst Exynos7880.exynos7870_pin_banks0 in
  (forall b, In b (before_gpa banks) -> 0 <= nr_pins b) /\
  pins_of (before_gpa banks) < 2 ^ 31 /\
  map nr_pins (firstn (List.length (before_gpa banks)) banks70) =
  map nr_pins (before_gpa banks) /\
  exynos_eint_to_pin_num 0 banks banks70 5 = Some 14.
Proof.
  intros banks banks70.
  assert (Hpins : forall b, In b (before_gpa banks) -> 0 <= nr_pins b).
  { intros b Hb. vm_compute in Hb.
    repeat (destruct Hb as [<- | Hb]; [discriminate |]). destruct Hb. }
  assert (Hsum : pins_of (before_gpa banks) < 2 ^ 31) by reflexivity.
  assert (Hsame :
            map nr_pins (firstn (List.length (before_gpa banks)) banks70) =
            map nr_pins (before_gpa banks)) by reflexivity.
  split; [exact Hpins |]. split; [exact Hsum |]. split; [exact Hsame |].
  exact (proj1 (eint_to_pin_num_counts_from_gpa 0 5 banks banks70
                  Hpins Hsum) Hsame).
Defined.

Lemma dump_stack_waits_and_releases_witness :
  0 <= 2 /\ 5 <> 2 /\
  DumpStack._dump_stack 2 DumpStack.Quiet 5 = None /\
  DumpStack.dump_return 2 DumpStack.Quiet 5 7 /\
  DumpStack.interference 2 (-1) 7 /\ 7 <> 2.
Proof.
  assert (H1 : 0 <= 2) by lia.
  assert (H2 : 5 <> 2) by discriminate.
  assert (H3 : 5 <> -1) by discriminate.
  assert (Hret : DumpStack.dump_return 2 DumpStack.Quiet 5 7).
  { exists (-1). split.
    - apply (DumpStack.call_acquire _ 2 5 2).
      + apply (DumpStack.interference_step 2 5 (-1) (-1));
          [apply DumpStack.others_release; discriminate
          | apply DumpStack.interference_none].
      + apply DumpStack.interference_none.
    - apply (DumpStack.interference_step 2 (-1) 7 7);
        [apply DumpStack.others_take; discriminate
        | apply DumpStack.interference_none]. }
  split; [exact H1 |]. split; [exact H2 |].
  split;
    [exact (proj1 (dump_stack_waits_and_releases 2 DumpStack.Quiet 5
                     H1 H2) H3) |].
  split; [exact Hret |].
  exact (proj2 (dump_stack_waits_and_releases 2 DumpStack.Quiet 5 H1 H2)
               7 Hret).
Defined.

Lemma wkup_init_keeps_every_domain_witness :
  (forall b, In b [Run.gpx0; Run.gpx1] -> is_wkup_mux b = false) /\
  Z.of_nat (List.length [Run.gpx0; Run.gpx1]) < 2 ^ 31 /\
  exists r s' evs,
    exynos_eint_wkup_init Run.second_domain_fails [Run.gpx0; Run.gpx1]
                          (machine (fun _ => 0)) = Some (r, s') /\
    trace s' = evs /\
    fst (fst r) = - ENXIO /\
    live_domains evs [] = ["gpx0"%string].
Proof.
  assert (Hmux : forall b, In b [Run.gpx0; Run.gpx1] ->
                            is_wkup_mux b = false)
    by (intros b [<- | [<- | []]]; reflexivity).
  assert (Hlen : Z.of_nat (List.length [Run.gpx0; Run.gpx1]) < 2 ^ 31)
    by reflexivity.
  destruct (wkup_init_keeps_every_domain
              Run.second_domain_fails [Run.gpx0; Run.gpx1]
              (machine (fun _ => 0)) Hmux Hlen)
    as (r & s' & evs & Hrun & Ht & _ & Hlive).
  split; [exact Hmux |]. split; [exact Hlen |].
  exists r, s', evs. split; [exact Hrun |]. split; [exact Ht |].
  rewrite Hlive. change (trace s' = evs) in Ht. rewrite <- Ht.
  revert Hrun. vm_compute. intros [= <- <-]. split; reflexivity.
Defined.

Lemma masked_line_not_dispatched_witness :
  let s := machine (fun a => if a =? 0xA00 then 0x0C else 0) in
  0 <= hwirq Run.line3_level_high < 32 /\
  irqd_chip Run.line3_level_high = exynos_wkup_irq_chip /\
  0 <= EXYNOS_GPIO_EMASK_OFFSET
       + eint_offset (irqd_bank Run.line3_level_high) < 2 ^ 64 /\
  exists s1 s2 hw_lines,
    exynos_irq_mask Run.line3_level_high s = Some (tt, s1) /\
    exynos_irq_demux_eint16_31 [Run.gpa0] s1 = Some (tt, s2) /\
    ~ In 3 hw_lines /\ In 2 hw_lines.
Proof.
  intros s.
  assert (Hh : 0 <= hwirq Run.line3_level_high < 32) by (cbn; lia).
  assert (Hchip : irqd_chip Run.line3_level_high = exynos_wkup_irq_chip)
    by reflexivity.
  assert (Hreg : 0 <= EXYNOS_GPIO_EMASK_OFFSET
                      + eint_offset (irqd_bank Run.line3_level_high)
                 < 2 ^ 64)
    by (split; [discriminate | reflexivity]).
  split; [exact Hh |]. split; [exact Hchip |]. split; [exact Hreg |].
  destruct (masked_line_not_dispatched Run.line3_level_high s
                                       Hh Hchip Hreg)
    as (s1 & s2 & hw_lines & Hrun1 & Hrun2 & _ & Hnot & Hlines).
  exists s1, s2, hw_lines.
  split; [exact Hrun1 |]. split; [exact Hrun2 |]. split; [exact Hnot |].
  apply Hlines. split; [lia |].
  revert Hrun1. vm_compute. intros [= <-]. split; reflexivity.
Defined.
